(** * IoT sensor simulator: delivery, offline buffer and resynchronisation

    A shallow embedding of [src/main.py] (class [SensorSimulator]) and the
    properties of its delivery engine.

    - Python values read from and written to the offline file are JSON
      documents ([json]); the file itself holds text.  Text, and a str
      inside a document, is a [string]: the bytes of its UTF-8 encoding.
    - The text functions of Python the program calls ([json.dump],
      [json.loads], [str.strip]) are an interface ([JsonCodec]) with the
      laws the program relies on; [reference_codec] is an executable
      instance over UTF-8 text.
    - The MQTT client, the Web3 handle, the clock and the random source are
      the environment: a [World] answers every call as a function of the
      calls made so far, and the calls are recorded in a trace.
    - A float is the rational it denotes; float arithmetic rounds its exact
      result by an operator with the laws of round-to-nearest
      ([Float64]).  In a JSON document a number is a decimal fraction. *)

From Stdlib Require Import NArith ZArith QArith Qround List Bool Ascii String Lia Lqa.
Import ListNotations.

#[local] Close Scope Q_scope.
#[local] Open Scope string_scope.
#[local] Open Scope list_scope.
#[local] Set Warnings "-register-all".

(* ================================================================== *)
(** * JSON documents *)

(** A JSON number: the decimal fraction [mantissa / 10 ^ scale].  Every
    Python [int] and every finite float is written as one; [NaN] and the
    infinities, which Python's [json] also accepts, are left out. *)
Record number := Number { mantissa : Z; scale : nat }.

Inductive json :=
| JNull
| JBool (b : bool)
| JNum (n : number)
| JStr (s : string)
| JArr (items : list json)
| JObj (members : list (string * json)).

Definition number_value (n : number) : Q :=
  inject_Z (mantissa n) / inject_Z (10 ^ Z.of_nat (scale n)).

(** Truth value of a Python object decoded from JSON ([if not x]). *)
Definition truthy (j : json) : bool :=
  match j with
  | JNull => false
  | JBool b => b
  | JNum n => negb (mantissa n =? 0)%Z
  | JStr s => negb (String.eqb s EmptyString)
  | JArr items => match items with [] => false | _ => true end
  | JObj members => match members with [] => false | _ => true end
  end.

(** Keys of a [dict] in insertion order, each once. *)
Fixpoint dict_keys (seen : list string) (members : list (string * json)) : list string :=
  match members with
  | [] => []
  | (k, _) :: rest =>
      if existsb (String.eqb k) seen then dict_keys seen rest
      else k :: dict_keys (k :: seen) rest
  end.

(** The text starts with a continuation byte of UTF-8 (10xxxxxx). *)
Definition continues (s : string) : bool :=
  match s with
  | EmptyString => false
  | String c _ => let b := nat_of_ascii c in ((128 <=? b) && (b <? 192))%nat
  end.

(** The characters of a str: each is a byte with the continuation bytes
    that follow it. *)
Fixpoint str_chars (s : string) : list string :=
  match s with
  | EmptyString => []
  | String c s' =>
      match str_chars s' with
      | [] => [String c EmptyString]
      | char :: chars =>
          if continues s' then String c char :: chars
          else String c EmptyString :: char :: chars
      end
  end.

(** [len(x)] followed by [for data in x]: a list yields its elements, a
    dict its keys, a str its characters; the other objects raise
    [TypeError] ([None]). *)
Definition iterate (j : json) : option (list json) :=
  match j with
  | JArr items => Some items
  | JObj members => Some (map JStr (dict_keys [] members))
  | JStr s => Some (map JStr (str_chars s))
  | JNull | JBool _ | JNum _ => None
  end.

(** Value of a key of a JSON object. *)
Fixpoint lookup (key : string) (members : list (string * json)) : option json :=
  match members with
  | [] => None
  | (k, v) :: rest => if String.eqb k key then Some v else lookup key rest
  end.

Definition field (key : string) (j : json) : option json :=
  match j with
  | JObj members => lookup key members
  | _ => None
  end.

(** Line 120 formats [data['temperature']] and [data['humidity']] into the
    log message: a dict without one of the keys raises [KeyError], an
    object that is not a dict raises [TypeError]. *)
Definition loggable (data : json) : bool :=
  match field "temperature" data, field "humidity" data with
  | Some _, Some _ => true
  | _, _ => false
  end.

(** [if content:] on a str. *)
Definition nonempty (s : string) : bool :=
  match s with EmptyString => false | String _ _ => true end.

(* ------------------------------------------------------------------ *)
(** ** The text functions of Python *)

(** [json_dump j] is the text [json.dump(j, f, indent=4)] writes;
    [json_loads s] is [json.loads(s)], [None] when it raises
    [JSONDecodeError]; [strip s] is [s.strip()], which removes the
    characters of [str.isspace] (the Unicode ones among them) from both
    ends.  The laws: what is written can be read back; the written text
    has no surrounding whitespace; the empty text is not a document;
    surrounding whitespace of a document is insignificant. *)
Class JsonCodec := {
  json_dump : json -> string;
  json_loads : string -> option json;
  strip : string -> string;
  loads_dump : forall j, json_loads (json_dump j) = Some j;
  dump_strip : forall j, strip (json_dump j) = json_dump j;
  loads_empty : json_loads EmptyString = None;
  loads_strip : forall s j, json_loads s = Some j -> json_loads (strip s) = Some j
}.

(* ================================================================== *)
(** * Reading generator *)

Module Generator.

#[local] Open Scope Q_scope.

(** Binary64 arithmetic.  A float is the rational it denotes; an operation
    returns its exact result rounded to a float by [rnd].  Of
    round-to-nearest the generator needs that it is monotone and that it
    leaves the half-integers of magnitude up to 2^52 as they are. *)
Class Float64 := {
  rnd : Q -> Q;
  rnd_monotone : forall x y, x <= y -> rnd x <= rnd y;
  rnd_exact : forall z : Z, (Z.abs z <= 2 ^ 53)%Z -> rnd (z # 2) == z # 2
}.

(** Arithmetic without rounding error. *)
#[global] Instance exact_arithmetic : Float64 := {|
  rnd := fun x => x;
  rnd_monotone := fun _ _ H => H;
  rnd_exact := fun z _ => Qeq_refl (z # 2)
|}.

Section WithFloats.

Context {fp : Float64}.

(** Round half to even, to an integer. *)
Definition round_half_even (x : Q) : Z :=
  let f := Qfloor x in
  match Qcompare (x - inject_Z f)%Q (1 # 2)%Q with
  | Lt => f
  | Gt => (f + 1)%Z
  | Eq => if Z.even f then f else (f + 1)%Z
  end.

(** [round(x, ndigits)]: the decimal with [ndigits] decimals nearest to
    the value of [x]; the float returned is the one nearest to that
    decimal, and [json.dump] writes it as that decimal. *)
Definition py_round (x : Q) (ndigits : nat) : number :=
  {| mantissa := round_half_even (x * inject_Z (10 ^ Z.of_nat ndigits));
     scale := ndigits |}.

(** The float a decimal is read as. *)
Definition float_of_number (n : number) : Q := rnd (number_value n).

(** [min(a, b)] and [max(a, b)]: the first argument unless the second is
    strictly smaller (larger). *)
Definition py_min (a b : Q) : Q := match b ?= a with Lt => b | _ => a end.
Definition py_max (a b : Q) : Q := match b ?= a with Gt => b | _ => a end.

(** [variation] is the draw [random.uniform(-5, 8)]. *)
Definition generate_temperature (variation : Q) : number :=
  let base_temp := 22.5 in
  py_round (rnd (base_temp + variation)) 2.

(** [humidity] is the draw [random.normalvariate(50, 15)]. *)
Definition generate_humidity (humidity : Q) : number :=
  py_round (py_max 20 (py_min 90 humidity)) 2.

(** What one call of [create_sensor_data] takes from the environment. *)
Record Draws := {
  now_isoformat : string;      (* datetime.now().isoformat() *)
  uniform : Q;                 (* random.uniform(-5, 8) *)
  normalvariate : Q            (* random.normalvariate(50, 15) *)
}.

Definition degree_celsius : string :=
  String (ascii_of_nat 194) (String (ascii_of_nat 176) "C").

Definition create_sensor_data (sensor_id : string) (d : Draws) : json :=
  let timestamp := now_isoformat d in
  let temperature := generate_temperature (uniform d) in
  let humidity := generate_humidity (normalvariate d) in
  JObj [ ("sensor_id", JStr sensor_id);
         ("timestamp", JStr timestamp);
         ("temperature", JNum temperature);
         ("humidity", JNum humidity);
         ("location", JStr "Office Room");
         ("unit_temp", JStr degree_celsius);
         ("unit_humidity", JStr "%") ].

End WithFloats.

End Generator.

(* ================================================================== *)
(** * The simulator and its environment *)

(** Calls that leave the process, in the order they are made. *)
Inductive event :=
| Connect (ok : bool)                       (* client.connect(...); client.loop_start() *)
| Disconnect                                (* client.loop_stop(); client.disconnect() *)
| Publish (data : json) (rc : option Z)     (* client.publish(topic, json.dumps(data), qos=1) *)
| IsConnected (ok : bool)                   (* w3.is_connected() *)
| SendTransaction (data : json) (tx : option string)   (* w3.eth.send_transaction({...}) *)
| WriteFile (text : string)                 (* open(offline_file, 'w') and json.dump *)
| RemoveFile.                               (* os.remove(offline_file) *)

(** The environment answers a call knowing the calls made so far.
    [mqtt_connect]: [false] when [client.connect] raises.
    [mqtt_publish]: [result.rc], or [None] when [publish] raises.
    [w3_send_transaction]: the transaction hash, or [None] when the call
    raises. *)
Record World := {
  mqtt_connect : list event -> bool;
  mqtt_publish : list event -> json -> option Z;
  w3_is_connected : list event -> bool;
  w3_send_transaction : list event -> json -> option string
}.

(** The fields of a [SensorSimulator] the engine reads or writes, the text
    of the file at [self.offline_file] ([None]: no such file) and the trace
    of calls.  File reads and writes themselves do not fail: the file can
    be opened and its bytes decode to text. *)
Record Simulator := {
  offline_mode : bool;
  w3 : option string;
  offline_file : option string;
  trace : list event
}.

Definition MQTT_ERR_SUCCESS : Z := 0.

Definition M (A : Type) : Type := Simulator -> A * Simulator.

Definition ret {A : Type} (a : A) : M A := fun s => (a, s).

Definition bind {A B : Type} (c : M A) (k : A -> M B) : M B :=
  fun s => let (a, s') := c s in k a s'.

Declare Scope sim_scope.
Delimit Scope sim_scope with sim.
Notation "x <- c ;; k" := (bind c (fun x => k))
  (at level 61, c at next level, right associativity) : sim_scope.
Notation "c ;; k" := (bind c (fun _ => k))
  (at level 61, right associativity) : sim_scope.
#[local] Open Scope sim_scope.

Definition when (b : bool) (c : M unit) : M unit := if b then c else ret tt.

Definition emit (e : event) : M unit :=
  fun s => (tt, {| offline_mode := offline_mode s; w3 := w3 s;
                   offline_file := offline_file s; trace := trace s ++ [e] |}).

Definition set_offline_mode (b : bool) : M unit :=
  fun s => (tt, {| offline_mode := b; w3 := w3 s;
                   offline_file := offline_file s; trace := trace s |}).

Definition set_offline_file (f : option string) : M unit :=
  fun s => (tt, {| offline_mode := offline_mode s; w3 := w3 s;
                   offline_file := f; trace := trace s |}).

Definition read {A : Type} (field : Simulator -> A) : M A := fun s => (field s, s).

Definition write_file (text : string) : M unit :=
  set_offline_file (Some text) ;; emit (WriteFile text).

Definition remove_file : M unit :=
  set_offline_file None ;; emit RemoveFile.

Section Engine.

Context {fp : Generator.Float64} {codec : JsonCodec} (world : World).

Definition publish (data : json) : M (option Z) :=
  history <- read trace ;;
  let result := mqtt_publish world history data in
  emit (Publish data result) ;; ret result.

Definition is_connected : M bool :=
  history <- read trace ;;
  let ok := w3_is_connected world history in
  emit (IsConnected ok) ;; ret ok.

Definition send_transaction (data : json) : M (option string) :=
  history <- read trace ;;
  let tx := w3_send_transaction world history data in
  emit (SendTransaction data tx) ;; ret tx.

(** Lines 165-183 of [save_data_offline]: the buffer as the program reads
    it back.  An absent, blank or undecodable file reads as the empty
    list. *)
Definition drain : M json :=
  file <- read offline_file ;;
  match file with
  | Some text =>
      let content := strip text in
      if nonempty content then
        match json_loads content with
        | Some offline_data => ret offline_data
        | None => ret (JArr [])                 (* JSONDecodeError *)
        end
      else ret (JArr [])
  | None => ret (JArr [])
  end.

(** [offline_data.append(data)] raises on anything but a list; the outer
    handler logs it and nothing is written. *)
Definition save_data_offline (data : json) : M unit :=
  offline_data <- drain ;;
  match offline_data with
  | JArr items => write_file (json_dump (JArr (items ++ [data])))
  | _ => ret tt
  end.

(** The message of line 120 is formatted inside the [try], after the
    publish: when that raises, the reading has gone out and the handler
    still saves it and answers [False]. *)
Definition send_data (data : json) (allow_offline_save : bool) : M bool :=
  result <- publish data ;;
  match result with
  | Some rc =>
      if (rc =? MQTT_ERR_SUCCESS)%Z then
        if loggable data then ret true
        else                                    (* KeyError, TypeError *)
          when allow_offline_save (save_data_offline data) ;; ret false
      else when allow_offline_save (save_data_offline data) ;; ret false
  | None =>
      when allow_offline_save (save_data_offline data) ;; ret false
  end.

Definition send_to_blockchain (data : json) (allow_offline_save : bool) : M bool :=
  handle <- read w3 ;;
  connected <- match handle with
               | None => ret false
               | Some _ => is_connected
               end ;;
  if negb connected then
    when allow_offline_save (save_data_offline data) ;; ret false
  else
    tx <- send_transaction data ;;
    match tx with
    | Some _ => ret true
    | None => when allow_offline_save (save_data_offline data) ;; ret false
    end.

(** The [for] loop of [resync_offline_data]. *)
Fixpoint resync_loop (offline_data remaining_data : list json) : M (list json) :=
  match offline_data with
  | [] => ret remaining_data
  | data :: rest =>
      mqtt_success <- send_data data false ;;
      blockchain_success <- send_to_blockchain data false ;;
      resync_loop rest
        (if negb mqtt_success || negb blockchain_success
         then remaining_data ++ [data] else remaining_data)
  end.

Definition resync_offline_data : M unit :=
  file <- read offline_file ;;
  match file with
  | None => ret tt
  | Some content =>
      if negb (nonempty content) then ret tt
      else
        match json_loads content with
        | None => ret tt                        (* JSONDecodeError *)
        | Some offline_data =>
            if negb (truthy offline_data) then ret tt
            else
              match iterate offline_data with
              | None => ret tt                  (* TypeError *)
              | Some items =>
                  remaining_data <- resync_loop items [] ;;
                  match remaining_data with
                  | [] => remove_file
                  | _ :: _ => write_file (json_dump (JArr remaining_data))
                  end
              end
        end
  end.

Definition connect : M bool :=
  history <- read trace ;;
  let ok := mqtt_connect world history in
  emit (Connect ok) ;; ret ok.

Definition disconnect : M unit := emit Disconnect.

(** One pass through the body of [while True], lines 261-273. *)
Definition loop_body (d : Generator.Draws) : M unit :=
  let sensor_data := Generator.create_sensor_data "sensor_01" d in
  offline <- read offline_mode ;;
  if offline then save_data_offline sensor_data
  else
    mqtt_success <- send_data sensor_data true ;;
    blockchain_success <- send_to_blockchain sensor_data true ;;
    when (negb mqtt_success && negb blockchain_success) (set_offline_mode true).

(** The loop runs once per element of [draws]; it ends when the duration
    is reached or the operator interrupts. *)
Fixpoint simulation_loop (draws : list Generator.Draws) : M unit :=
  match draws with
  | [] => ret tt
  | d :: rest => loop_body d ;; simulation_loop rest
  end.

Definition run_simulation (draws : list Generator.Draws) : M unit :=
  connected <- connect ;;
  set_offline_mode (negb connected) ;;
  when connected resync_offline_data ;;
  simulation_loop draws ;;
  disconnect.

(** [__init__]: the state a simulator starts in, given the file found at
    [offline_file]. *)
Definition init (ganache_url : option string) (file : option string) : Simulator :=
  let s0 := {| offline_mode := false; w3 := None; offline_file := file; trace := [] |} in
  match ganache_url with
  | Some url =>
      if nonempty url then
        let s1 := {| offline_mode := false; w3 := Some url;
                     offline_file := file; trace := [] |} in
        let (ok, s2) := is_connected s1 in
        if ok then s2 else snd (set_offline_mode true s2)
      else s0
  | None => s0
  end.

End Engine.

(* ================================================================== *)
(** * Observations on a run *)

Section Observations.

Context {codec : JsonCodec} (world : World).

(** Lines 216-217: the two attempts made for one buffered reading, and
    their results. *)
Definition attempt (data : json) : M (bool * bool) :=
  mqtt_success <- send_data world data false ;;
  blockchain_success <- send_to_blockchain world data false ;;
  ret (mqtt_success, blockchain_success).

Fixpoint attempts (offline_data : list json) : M (list (bool * bool)) :=
  match offline_data with
  | [] => ret []
  | data :: rest =>
      outcome <- attempt data ;;
      outcomes <- attempts rest ;;
      ret (outcome :: outcomes)
  end.

(** A reading is resolved when both attempts succeeded. *)
Definition resolved (outcome : bool * bool) : bool := fst outcome && snd outcome.

(** The readings whose attempts did not both succeed, in their order. *)
Definition retained (offline_data : list json) (outcomes : list (bool * bool)) : list json :=
  map fst (filter (fun p => negb (resolved (snd p))) (combine offline_data outcomes)).

(** Lines 221-227: the file is removed when nothing remains and rewritten
    otherwise. *)
Definition replace (readings : list json) : M unit :=
  match readings with
  | [] => remove_file
  | _ :: _ => write_file (json_dump (JArr readings))
  end.

(** [offline_data.append(data)], once per reading, on the object read
    from the file: a list grows by the readings; any other object has no
    [append], the call raises and the file stays as it is. *)
Definition appended (offline_data : json) (readings : list json) : json :=
  match offline_data with
  | JArr items => JArr (items ++ readings)
  | _ => offline_data
  end.

(** The offline file is absent or holds a JSON array. *)
Definition buffer_ok (file : option string) : Prop :=
  match file with
  | None => True
  | Some text => exists items, json_loads text = Some (JArr items)
  end.

(** The states of the buffer: the file is absent, or its text is blank,
    undecodable, or an array. *)
Definition buffer_state (file : option string) : Prop :=
  match file with
  | None => True
  | Some text =>
      forall j, json_loads (strip text) = Some j -> exists items, j = JArr items
  end.

End Observations.

Definition is_file_event (e : event) : bool :=
  match e with
  | WriteFile _ | RemoveFile => true
  | _ => false
  end.

Definition file_events (events : list event) : list event := filter is_file_event events.

(** The calls made to the broker and to the ledger. *)
Definition channel_events (events : list event) : list event :=
  filter (fun e => negb (is_file_event e)) events.

(** The readings handed to the broker, in the order of the calls. *)
Fixpoint published (events : list event) : list json :=
  match events with
  | [] => []
  | Publish data _ :: rest => data :: published rest
  | _ :: rest => published rest
  end.

(** The readings the broker acknowledged with [MQTT_ERR_SUCCESS]. *)
Fixpoint acknowledged (events : list event) : list json :=
  match events with
  | [] => []
  | Publish data (Some rc) :: rest =>
      if (rc =? MQTT_ERR_SUCCESS)%Z then data :: acknowledged rest else acknowledged rest
  | _ :: rest => acknowledged rest
  end.

(** The answers to the probes of the ledger connection, in the order of
    the calls. *)
Fixpoint probed (events : list event) : list bool :=
  match events with
  | [] => []
  | IsConnected ok :: rest => ok :: probed rest
  | _ :: rest => probed rest
  end.

(** The readings handed to the ledger, in the order of the calls. *)
Fixpoint transactions (events : list event) : list json :=
  match events with
  | [] => []
  | SendTransaction data _ :: rest => data :: transactions rest
  | _ :: rest => transactions rest
  end.

(** The readings the ledger recorded: the transactions that returned a
    hash. *)
Fixpoint recorded (events : list event) : list json :=
  match events with
  | [] => []
  | SendTransaction data (Some _) :: rest => data :: recorded rest
  | _ :: rest => recorded rest
  end.

Definition publish_ok (w : World) (history : list event) (data : json) : bool :=
  match mqtt_publish w history data with
  | Some rc => (rc =? MQTT_ERR_SUCCESS)%Z
  | None => false
  end.

(** What [send_data] answers: the broker took the message and line 120
    could format the reading. *)
Definition send_ok (w : World) (history : list event) (data : json) : bool :=
  publish_ok w history data && loggable data.

Definition transaction_ok (w : World) (history : list event) (data : json) : bool :=
  match w3_send_transaction w history data with
  | Some _ => true
  | None => false
  end.

(** The channels succeed or fail on a reading regardless of what happened
    before. *)
Record stationary (w : World) : Prop := {
  publish_same : forall h h' d, publish_ok w h d = publish_ok w h' d;
  connected_same : forall h h', w3_is_connected w h = w3_is_connected w h';
  transaction_same : forall h h' d, transaction_ok w h d = transaction_ok w h' d
}.

(** Worlds for examples.  Both channels down, and both up. *)
Definition world_down : World := {|
  mqtt_connect := fun _ => false;
  mqtt_publish := fun _ _ => None;
  w3_is_connected := fun _ => false;
  w3_send_transaction := fun _ _ => None
|}.

Definition world_up : World := {|
  mqtt_connect := fun _ => true;
  mqtt_publish := fun _ _ => Some MQTT_ERR_SUCCESS;
  w3_is_connected := fun _ => true;
  w3_send_transaction := fun _ _ => Some "0x01"
|}.

(** The broker accepts the connection and then every send fails. *)
Definition world_cut : World := {|
  mqtt_connect := fun _ => true;
  mqtt_publish := fun _ _ => Some 4%Z;
  w3_is_connected := fun _ => false;
  w3_send_transaction := fun _ _ => None
|}.

(** The ledger is up; the broker raises whenever the trace so far has an
    odd number of events. *)
Definition world_flaky : World := {|
  mqtt_connect := fun _ => true;
  mqtt_publish := fun history _ =>
    if Nat.even (List.length history) then Some MQTT_ERR_SUCCESS else None;
  w3_is_connected := fun _ => true;
  w3_send_transaction := fun _ _ => Some "0x01"
|}.

(** A stationary world: the broker turns down readings whose humidity is
    50 % or more. *)
Definition world_picky : World := {|
  mqtt_connect := fun _ => true;
  mqtt_publish := fun _ data =>
    match field "humidity" data with
    | Some (JNum n) => if (mantissa n <? 5000)%Z then Some 0%Z else Some 4%Z
    | _ => None
    end;
  w3_is_connected := fun _ => true;
  w3_send_transaction := fun _ _ => Some "0x01"
|}.

(* ================================================================== *)
(** * A reference codec

    An executable [str.strip], [json.dump] and [json.loads] over compact
    JSON text: numbers are written as an integer, followed by [e-scale]
    when the scale is not zero; in strings only the quote and the
    backslash are escaped; around a document [loads] skips the
    whitespace of JSON and no other. *)

Module Reference.

(* ---------------- whitespace ---------------- *)

(** Text is a sequence of bytes, the UTF-8 encoding of a Python [str].
    [str.strip] removes the characters of [str.isspace]: U+0009-000D,
    U+001C-0020, U+0085, U+00A0, U+1680, U+2000-200A, U+2028, U+2029,
    U+202F, U+205F and U+3000. *)

(** One byte: U+0009-000D and U+001C-0020. *)
Definition space1 (b1 : nat) : bool :=
  ((9 <=? b1) && (b1 <=? 13) || (28 <=? b1) && (b1 <=? 32))%nat.

(** Two bytes: U+0085 (C2 85) and U+00A0 (C2 A0). *)
Definition space2 (b1 b2 : nat) : bool :=
  ((b1 =? 194) && ((b2 =? 133) || (b2 =? 160)))%nat.

(** Three bytes: U+1680 (E1 9A 80), U+2000-200A (E2 80 80-8A), U+2028,
    U+2029, U+202F (E2 80 A8, A9, AF), U+205F (E2 81 9F) and U+3000
    (E3 80 80). *)
Definition space3 (b1 b2 b3 : nat) : bool :=
  ((b1 =? 225) && (b2 =? 154) && (b3 =? 128)
   || (b1 =? 226) && (b2 =? 128)
      && ((128 <=? b3) && (b3 <=? 138) || (b3 =? 168) || (b3 =? 169) || (b3 =? 175))
   || (b1 =? 226) && (b2 =? 129) && (b3 =? 159)
   || (b1 =? 227) && (b2 =? 128) && (b3 =? 128))%nat.

(** The text without the whitespace character it starts with.  With
    [backwards] the bytes come last first, for a text read from its
    end. *)
Definition skip_space (backwards : bool) (l : list ascii) : option (list ascii) :=
  match l with
  | [] => None
  | c1 :: l1 =>
      let b1 := nat_of_ascii c1 in
      if space1 b1 then Some l1
      else
        match l1 with
        | [] => None
        | c2 :: l2 =>
            let b2 := nat_of_ascii c2 in
            if (if backwards then space2 b2 b1 else space2 b1 b2) then Some l2
            else
              match l2 with
              | [] => None
              | c3 :: l3 =>
                  let b3 := nat_of_ascii c3 in
                  if (if backwards then space3 b3 b2 b1 else space3 b1 b2 b3)
                  then Some l3 else None
              end
        end
  end.

Fixpoint skip_spaces (backwards : bool) (fuel : nat) (l : list ascii) : list ascii :=
  match fuel with
  | O => l
  | S fuel =>
      match skip_space backwards l with
      | Some rest => skip_spaces backwards fuel rest
      | None => l
      end
  end.

Definition lstrip (l : list ascii) : list ascii := skip_spaces false (List.length l) l.

Definition rstrip (l : list ascii) : list ascii :=
  rev (skip_spaces true (List.length l) (rev l)).

Definition strip (s : string) : string :=
  string_of_list_ascii (rstrip (lstrip (list_ascii_of_string s))).

(** The whitespace of JSON, which [json.loads] skips around a document:
    space, tab, line feed and carriage return. *)
Definition json_space (c : ascii) : bool :=
  let b := nat_of_ascii c in
  ((b =? 32) || (b =? 9) || (b =? 10) || (b =? 13))%nat.

Fixpoint json_lstrip (s : string) : string :=
  match s with
  | EmptyString => EmptyString
  | String c s' => if json_space c then json_lstrip s' else s
  end.

Fixpoint json_rstrip (s : string) : string :=
  match s with
  | EmptyString => EmptyString
  | String c s' =>
      match json_rstrip s' with
      | EmptyString => if json_space c then EmptyString else String c EmptyString
      | r => String c r
      end
  end.

Definition json_strip (s : string) : string := json_rstrip (json_lstrip s).

(** A byte no whitespace character starts or ends with. *)
Definition plain (c : ascii) : bool :=
  let b := nat_of_ascii c in ((b <? 128)%nat && negb (space1 b)).

(** The text ends with a plain byte. *)
Fixpoint ends_plain (s : string) : bool :=
  match s with
  | EmptyString => false
  | String c EmptyString => plain c
  | String _ k => ends_plain k
  end.

Definition quote : ascii := ascii_of_nat 34.
Definition backslash : ascii := ascii_of_nat 92.

(* ---------------- numbers ---------------- *)

Definition digit_char (d : N) : ascii := ascii_of_N (48 + d).

Definition digit_value (c : ascii) : option N :=
  let n := N_of_ascii c in
  if ((48 <=? n) && (n <=? 57))%N then Some (n - 48)%N else None.

Fixpoint write_digits (fuel : nat) (n : N) (k : string) : string :=
  match fuel with
  | O => k
  | S fuel =>
      let k' := String (digit_char (n mod 10)) k in
      if (n <? 10)%N then k' else write_digits fuel (n / 10) k'
  end.

Definition write_N (n : N) (k : string) : string :=
  write_digits (S (N.to_nat (N.size n))) n k.

Definition write_number (n : number) (k : string) : string :=
  let exponent :=
    match scale n with
    | O => k
    | S _ => String "e" (String "-" (write_N (N.of_nat (scale n)) k))
    end in
  if (mantissa n <? 0)%Z
  then String "-" (write_N (Z.abs_N (mantissa n)) exponent)
  else write_N (Z.abs_N (mantissa n)) exponent.

Fixpoint read_digits (acc : N) (s : string) : N * string :=
  match s with
  | EmptyString => (acc, s)
  | String c s' =>
      match digit_value c with
      | Some d => read_digits (10 * acc + d) s'
      | None => (acc, s)
      end
  end.

Definition read_N (s : string) : option (N * string) :=
  match s with
  | EmptyString => None
  | String c _ =>
      match digit_value c with
      | Some _ => Some (read_digits 0 s)
      | None => None
      end
  end.

Definition read_exponent (m : Z) (s : string) : option (number * string) :=
  match s with
  | String c1 (String c2 s') =>
      if Ascii.eqb c1 "e" && Ascii.eqb c2 "-" then
        match read_N s' with
        | Some (e, k) => Some (Number m (N.to_nat e), k)
        | None => None
        end
      else Some (Number m 0, s)
  | _ => Some (Number m 0, s)
  end.

Definition read_number (s : string) : option (number * string) :=
  match s with
  | EmptyString => None
  | String c s' =>
      if Ascii.eqb c "-" then
        match read_N s' with
        | Some (m, k) => read_exponent (- Z.of_N m) k
        | None => None
        end
      else
        match read_N s with
        | Some (m, k) => read_exponent (Z.of_N m) k
        | None => None
        end
  end.

(* ---------------- strings ---------------- *)

Definition escaped (c : ascii) : bool := Ascii.eqb c quote || Ascii.eqb c backslash.

(** The characters of [s] and the closing quote. *)
Fixpoint write_chars (s : string) (k : string) : string :=
  match s with
  | EmptyString => String quote k
  | String c s' =>
      if escaped c then String backslash (String c (write_chars s' k))
      else String c (write_chars s' k)
  end.

Definition write_string (s : string) (k : string) : string :=
  String quote (write_chars s k).

Fixpoint read_chars (s : string) : option (string * string) :=
  match s with
  | EmptyString => None
  | String c s' =>
      if Ascii.eqb c quote then Some (EmptyString, s')
      else if Ascii.eqb c backslash then
        match s' with
        | EmptyString => None
        | String c' s'' =>
            if escaped c' then
              match read_chars s'' with
              | Some (str, k) => Some (String c' str, k)
              | None => None
              end
            else None
        end
      else
        match read_chars s' with
        | Some (str, k) => Some (String c str, k)
        | None => None
        end
  end.

Definition read_string (s : string) : option (string * string) :=
  match s with
  | EmptyString => None
  | String c s' => if Ascii.eqb c quote then read_chars s' else None
  end.

(* ---------------- documents ---------------- *)

(** [write j k]: the text of [j], followed by [k]. *)
Fixpoint write (j : json) (k : string) : string :=
  match j with
  | JNull => "null" ++ k
  | JBool true => "true" ++ k
  | JBool false => "false" ++ k
  | JNum n => write_number n k
  | JStr s => write_string s k
  | JArr items =>
      let tail :=
        fix tail (l : list json) : string :=
          match l with
          | [] => String "]" k
          | y :: l' => String "," (write y (tail l'))
          end in
      match items with
      | [] => String "[" (String "]" k)
      | x :: rest => String "[" (write x (tail rest))
      end
  | JObj members =>
      let tail :=
        fix tail (l : list (string * json)) : string :=
          match l with
          | [] => String "}" k
          | (key, v) :: l' =>
              String "," (write_string key (String ":" (write v (tail l'))))
          end in
      match members with
      | [] => String "{" (String "}" k)
      | (key, v) :: rest =>
          String "{" (write_string key (String ":" (write v (tail rest))))
      end
  end.

Fixpoint expect (word : string) (s : string) : option string :=
  match word with
  | EmptyString => Some s
  | String c word' =>
      match s with
      | EmptyString => None
      | String c' s' => if Ascii.eqb c c' then expect word' s' else None
      end
  end.

Fixpoint parse (fuel : nat) (s : string) : option (json * string) :=
  match fuel with
  | O => None
  | S fuel =>
      match s with
      | EmptyString => None
      | String c s' =>
          if Ascii.eqb c "n" then option_map (pair JNull) (expect "ull" s')
          else if Ascii.eqb c "t" then option_map (pair (JBool true)) (expect "rue" s')
          else if Ascii.eqb c "f" then option_map (pair (JBool false)) (expect "alse" s')
          else if Ascii.eqb c quote then
            match read_chars s' with
            | Some (str, k) => Some (JStr str, k)
            | None => None
            end
          else if Ascii.eqb c "[" then
            match parse fuel s' with
            | Some (x, k1) =>
                match parse_tail fuel k1 with
                | Some (l, k2) => Some (JArr (x :: l), k2)
                | None => None
                end
            | None =>
                match s' with
                | String c' k => if Ascii.eqb c' "]" then Some (JArr [], k) else None
                | EmptyString => None
                end
            end
          else if Ascii.eqb c "{" then
            match s' with
            | String c' k =>
                if Ascii.eqb c' "}" then Some (JObj [], k)
                else
                  match read_string s' with
                  | Some (key, String c'' k1) =>
                      if Ascii.eqb c'' ":" then
                        match parse fuel k1 with
                        | Some (v, k2) =>
                            match parse_members fuel k2 with
                            | Some (l, k3) => Some (JObj ((key, v) :: l), k3)
                            | None => None
                            end
                        | None => None
                        end
                      else None
                  | _ => None
                  end
            | EmptyString => None
            end
          else
            match read_number s with
            | Some (n, k) => Some (JNum n, k)
            | None => None
            end
      end
  end

with parse_tail (fuel : nat) (s : string) : option (list json * string) :=
  match fuel with
  | O => None
  | S fuel =>
      match s with
      | EmptyString => None
      | String c s' =>
          if Ascii.eqb c "]" then Some ([], s')
          else if Ascii.eqb c "," then
            match parse fuel s' with
            | Some (y, k1) =>
                match parse_tail fuel k1 with
                | Some (l, k2) => Some (y :: l, k2)
                | None => None
                end
            | None => None
            end
          else None
      end
  end

with parse_members (fuel : nat) (s : string) : option (list (string * json) * string) :=
  match fuel with
  | O => None
  | S fuel =>
      match s with
      | EmptyString => None
      | String c s' =>
          if Ascii.eqb c "}" then Some ([], s')
          else if Ascii.eqb c "," then
            match read_string s' with
            | Some (key, String c'' k1) =>
                if Ascii.eqb c'' ":" then
                  match parse fuel k1 with
                  | Some (v, k2) =>
                      match parse_members fuel k2 with
                      | Some (l, k3) => Some ((key, v) :: l, k3)
                      | None => None
                      end
                  | None => None
                  end
                else None
            | _ => None
            end
          else None
      end
  end.

Definition dump (j : json) : string := write j EmptyString.

(** A text with whitespace at its ends that is not the whitespace of
    JSON is rejected. *)
Definition loads (s : string) : option json :=
  let text := json_strip s in
  if String.eqb text (strip s) then
    match parse (S (String.length text)) text with
    | Some (j, EmptyString) => Some j
    | _ => None
    end
  else None.

(** Nodes of a document, counted as the parser spends fuel. *)
Fixpoint size (j : json) : nat :=
  match j with
  | JArr items =>
      S ((fix go (l : list json) : nat :=
            match l with [] => 0 | y :: l' => S (size y + go l') end) items)
  | JObj members =>
      S ((fix go (l : list (string * json)) : nat :=
            match l with [] => 0 | (_, v) :: l' => S (size v + go l') end) members)
  | _ => 1
  end.

(** The text that follows a value inside a document. *)
Definition delimited (k : string) : bool :=
  match k with
  | EmptyString => true
  | String c _ => Ascii.eqb c "," || Ascii.eqb c "]" || Ascii.eqb c "}"
  end.

End Reference.

(* ================================================================== *)
(** * Example readings and simulators *)

Module Examples.

Definition draw1 : Generator.Draws := {|
  Generator.now_isoformat := "2025-06-01T12:00:00.000000";
  Generator.uniform := 1.37;
  Generator.normalvariate := 47.256
|}.

Definition draw2 : Generator.Draws := {|
  Generator.now_isoformat := "2025-06-01T12:00:10.000000";
  Generator.uniform := -5;
  Generator.normalvariate := 10.5
|}.

Definition draw3 : Generator.Draws := {|
  Generator.now_isoformat := "2025-06-01T12:00:20.000000";
  Generator.uniform := 8;
  Generator.normalvariate := 104
|}.

Definition reading1 : json := Generator.create_sensor_data "sensor_01" draw1.
Definition reading2 : json := Generator.create_sensor_data "sensor_01" draw2.
Definition reading3 : json := Generator.create_sensor_data "sensor_01" draw3.

Definition ganache : string := "HTTP://127.0.0.1:7545".

(** No offline file yet. *)
Definition fresh : Simulator := {|
  offline_mode := false; w3 := Some ganache; offline_file := None; trace := []
|}.

(** Three readings in the offline file. *)
Definition buffered : Simulator := {|
  offline_mode := false; w3 := Some ganache;
  offline_file := Some (Reference.dump (JArr [reading1; reading2; reading3]));
  trace := []
|}.

(** An object without a humidity, as another program could have left it
    in the offline file. *)
Definition stray : json :=
  JObj [ ("sensor_id", JStr "sensor_02"); ("temperature", JNum (Number 2150 2)) ].

Definition mixed : Simulator := {|
  offline_mode := false; w3 := Some ganache;
  offline_file := Some (Reference.dump (JArr [reading1; stray; reading2]));
  trace := []
|}.

(** An offline file that is not JSON. *)
Definition damaged : Simulator := {|
  offline_mode := false; w3 := Some ganache;
  offline_file := Some "not json"; trace := []
|}.

(** An offline file that holds a JSON object. *)
Definition misused : Simulator := {|
  offline_mode := false; w3 := Some ganache;
  offline_file := Some (Reference.dump (JObj [])); trace := []
|}.

(** U+00A0, a space for [str.strip] and not for [json.loads]. *)
Definition no_break_space : string :=
  String (ascii_of_nat 194) (String (ascii_of_nat 160) EmptyString).

(** An offline file that holds an array after a no-break space. *)
Definition padded : Simulator := {|
  offline_mode := false; w3 := Some ganache;
  offline_file := Some (String.append no_break_space (Reference.dump (JArr [reading1])));
  trace := []
|}.

(** No ledger endpoint configured. *)
Definition without_ledger : Simulator := {|
  offline_mode := false; w3 := None; offline_file := None; trace := []
|}.


End Examples.

(* ================================================================== *)
(** * Lemmas on documents and text *)

Lemma json_induction (P : json -> Prop) :
  P JNull ->
  (forall b, P (JBool b)) ->
  (forall n, P (JNum n)) ->
  (forall s, P (JStr s)) ->
  (forall items, Forall P items -> P (JArr items)) ->
  (forall members, Forall (fun m => P (snd m)) members -> P (JObj members)) ->
  forall j, P j.
Proof.
  intros Hnull Hbool Hnum Hstr Harr Hobj.
  fix IH 1.
  intros [ | b | n | s | items | members ].
  - exact Hnull.
  - apply Hbool.
  - apply Hnum.
  - apply Hstr.
  - apply Harr.
    induction items as [ | x items IHitems ]; constructor; [ apply IH | exact IHitems ].
  - apply Hobj.
    induction members as [ | [key v] members IHmembers ]; constructor;
      [ apply IH | exact IHmembers ].
Qed.

Section ReferenceStrip.
Import Reference.

Lemma skip_space_suffix (b : bool) (l r : list ascii) :
  skip_space b l = Some r -> exists pre, pre <> [] /\ l = pre ++ r.
Proof.
  unfold skip_space.
  destruct l as [ | c1 [ | c2 [ | c3 l ] ] ];
    repeat match goal with
           | |- context [if ?c then _ else _] => destruct c
           end;
    intros H; inversion H; subst.
  all: first [ now exists [c1] | now exists [c1; c2] | now exists [c1; c2; c3] ].
Qed.

Lemma skip_space_app (b : bool) (l r t : list ascii) :
  skip_space b l = Some r -> skip_space b (l ++ t) = Some (r ++ t).
Proof.
  unfold skip_space.
  destruct l as [ | c1 [ | c2 [ | c3 l ] ] ]; cbn [app];
    repeat match goal with
           | |- context [if ?c then _ else _] => destruct c eqn:?
           end;
    intros H; inversion H; subst; reflexivity.
Qed.

Lemma skip_spaces_done (b : bool) (fuel : nat) :
  forall l, List.length l <= fuel -> skip_space b (skip_spaces b fuel l) = None.
Proof.
  induction fuel as [ | fuel IH ]; intros l Hl.
  - destruct l; [ reflexivity | simpl in Hl; lia ].
  - simpl. destruct (skip_space b l) as [ r | ] eqn:E; [ | exact E ].
    apply IH. destruct (skip_space_suffix _ _ _ E) as (pre & Hpre & ->).
    rewrite length_app in Hl. destruct pre; [ easy | simpl in Hl; lia ].
Qed.

Lemma skip_spaces_fixed (b : bool) (fuel : nat) (l : list ascii) :
  skip_space b l = None -> skip_spaces b fuel l = l.
Proof. intros E. destruct fuel; simpl; [ reflexivity | now rewrite E ]. Qed.

Lemma skip_spaces_suffix (b : bool) (fuel : nat) :
  forall l, exists pre, l = pre ++ skip_spaces b fuel l.
Proof.
  induction fuel as [ | fuel IH ]; intros l; simpl; [ now exists [] | ].
  destruct (skip_space b l) as [ r | ] eqn:E; [ | now exists [] ].
  destruct (skip_space_suffix _ _ _ E) as (pre & _ & ->).
  destruct (IH r) as (pre' & Hr).
  exists (pre ++ pre'). rewrite <- app_assoc. now rewrite <- Hr.
Qed.

Lemma lstrip_fixed (l : list ascii) : skip_space false l = None -> lstrip l = l.
Proof. apply skip_spaces_fixed. Qed.

Lemma rstrip_fixed (l : list ascii) : skip_space true (rev l) = None -> rstrip l = l.
Proof.
  intros E. unfold rstrip. rewrite skip_spaces_fixed by exact E. apply rev_involutive.
Qed.

Lemma strip_idempotent (s : string) : strip (strip s) = strip s.
Proof.
  unfold strip. rewrite list_ascii_of_string_of_list_ascii.
  set (t := lstrip (list_ascii_of_string s)).
  assert (Ht : skip_space false t = None) by (apply skip_spaces_done; lia).
  set (q := skip_spaces true (List.length t) (rev t)).
  assert (Hq : skip_space true q = None) by (apply skip_spaces_done; rewrite length_rev; lia).
  assert (Hp : rstrip t = rev q) by reflexivity.
  rewrite Hp.
  assert (Hl : lstrip (rev q) = rev q).
  { apply lstrip_fixed.
    destruct (skip_spaces_suffix true (List.length t) (rev t)) as (pre & Hpre).
    fold q in Hpre. apply (f_equal (@rev ascii)) in Hpre.
    rewrite rev_involutive, rev_app_distr in Hpre.
    destruct (skip_space false (rev q)) as [ r | ] eqn:E; [ | reflexivity ].
    apply (skip_space_app _ _ _ (rev pre)) in E. rewrite <- Hpre in E. congruence. }
  rewrite Hl. f_equal. apply rstrip_fixed. now rewrite rev_involutive.
Qed.

Lemma plain_first (c : ascii) (l : list ascii) :
  plain c = true -> skip_space false (c :: l) = None.
Proof.
  unfold plain. intros H. apply andb_true_iff in H. destruct H as [Hb Hs].
  apply Nat.ltb_lt in Hb. apply negb_true_iff in Hs.
  unfold skip_space, space2, space3. rewrite Hs.
  set (b := nat_of_ascii c) in *.
  replace (b =? 194)%nat with false by (symmetry; apply Nat.eqb_neq; lia).
  replace (b =? 225)%nat with false by (symmetry; apply Nat.eqb_neq; lia).
  replace (b =? 226)%nat with false by (symmetry; apply Nat.eqb_neq; lia).
  replace (b =? 227)%nat with false by (symmetry; apply Nat.eqb_neq; lia).
  destruct l as [ | c2 [ | c3 l ] ]; reflexivity.
Qed.

Lemma plain_last (c : ascii) (l : list ascii) :
  plain c = true -> skip_space true (c :: l) = None.
Proof.
  unfold plain. intros H. apply andb_true_iff in H. destruct H as [Hb Hs].
  apply Nat.ltb_lt in Hb. apply negb_true_iff in Hs.
  unfold skip_space, space2, space3. rewrite Hs.
  set (b := nat_of_ascii c) in *.
  replace (b =? 133)%nat with false by (symmetry; apply Nat.eqb_neq; lia).
  replace (b =? 160)%nat with false by (symmetry; apply Nat.eqb_neq; lia).
  replace (b =? 128)%nat with false by (symmetry; apply Nat.eqb_neq; lia).
  replace (b =? 168)%nat with false by (symmetry; apply Nat.eqb_neq; lia).
  replace (b =? 169)%nat with false by (symmetry; apply Nat.eqb_neq; lia).
  replace (b =? 175)%nat with false by (symmetry; apply Nat.eqb_neq; lia).
  replace (b =? 159)%nat with false by (symmetry; apply Nat.eqb_neq; lia).
  replace (128 <=? b)%nat with false by (symmetry; apply Nat.leb_gt; lia).
  destruct l as [ | c2 [ | c3 l ] ]; cbn -[Nat.eqb nat_of_ascii];
    rewrite ?andb_false_r, ?orb_false_r; reflexivity.
Qed.

Lemma ends_plain_last (s : string) :
  ends_plain s = true ->
  exists l c, list_ascii_of_string s = l ++ [c] /\ plain c = true.
Proof.
  induction s as [ | c s IH ]; [ discriminate | ].
  destruct s as [ | c' s' ].
  - intros H. now exists [], c.
  - intros H. destruct (IH H) as (l & x & E & Hx).
    exists (c :: l), x. split; [ | exact Hx ].
    change (list_ascii_of_string (String c (String c' s')))
      with (c :: list_ascii_of_string (String c' s')).
    now rewrite E.
Qed.

Lemma strip_solid (c : ascii) (s : string) :
  plain c = true -> ends_plain (String c s) = true -> strip (String c s) = String c s.
Proof.
  intros Hc He. unfold strip.
  change (list_ascii_of_string (String c s)) with (c :: list_ascii_of_string s).
  rewrite lstrip_fixed by now apply plain_first.
  destruct (ends_plain_last _ He) as (l & x & E & Hx).
  change (list_ascii_of_string (String c s)) with (c :: list_ascii_of_string s) in E.
  rewrite rstrip_fixed.
  - change (c :: list_ascii_of_string s) with (list_ascii_of_string (String c s)).
    apply string_of_list_ascii_of_string.
  - rewrite E, rev_app_distr. now apply plain_last.
Qed.

Lemma json_lstrip_head (s : string) :
  match json_lstrip s with
  | EmptyString => True
  | String c _ => json_space c = false
  end.
Proof.
  induction s as [ | c s IH ]; simpl; [ exact I | ].
  destruct (json_space c) eqn:E; [ exact IH | exact E ].
Qed.

Lemma json_lstrip_solid (c : ascii) (s : string) :
  json_space c = false -> json_lstrip (String c s) = String c s.
Proof. intros E. simpl. now rewrite E. Qed.

Lemma json_rstrip_cons (c : ascii) (k : string) :
  json_rstrip k = k ->
  (k = EmptyString -> json_space c = false) ->
  json_rstrip (String c k) = String c k.
Proof.
  intros Hk Hc. simpl. rewrite Hk.
  destruct k as [ | c' k' ]; [ | reflexivity ].
  now rewrite Hc.
Qed.

Lemma json_rstrip_idempotent (s : string) : json_rstrip (json_rstrip s) = json_rstrip s.
Proof.
  induction s as [ | c s IH ]; simpl; [ reflexivity | ].
  destruct (json_rstrip s) as [ | c' r ] eqn:E.
  - destruct (json_space c) eqn:Ec; simpl; [ reflexivity | now rewrite Ec ].
  - apply json_rstrip_cons; [ exact IH | discriminate ].
Qed.

Lemma json_rstrip_head (c : ascii) (s : string) :
  json_space c = false -> exists r, json_rstrip (String c s) = String c r.
Proof.
  intros E. simpl. destruct (json_rstrip s) as [ | c' r ].
  - rewrite E. now exists EmptyString.
  - now exists (String c' r).
Qed.

Lemma json_strip_idempotent (s : string) : json_strip (json_strip s) = json_strip s.
Proof.
  unfold json_strip.
  assert (H : json_lstrip (json_rstrip (json_lstrip s)) = json_rstrip (json_lstrip s)).
  { pose proof (json_lstrip_head s) as Hh.
    destruct (json_lstrip s) as [ | c t ]; [ reflexivity | ].
    destruct (json_rstrip_head c t Hh) as [r ->].
    now apply json_lstrip_solid. }
  rewrite H. apply json_rstrip_idempotent.
Qed.

Lemma plain_json_space (c : ascii) : plain c = true -> json_space c = false.
Proof.
  unfold plain, space1, json_space. set (b := nat_of_ascii c).
  intros H. apply andb_true_iff in H. destruct H as [_ H].
  apply negb_true_iff, orb_false_iff in H. destruct H as [H1 H2].
  apply andb_false_iff in H1. apply andb_false_iff in H2.
  repeat rewrite orb_false_iff. repeat split; apply Nat.eqb_neq; intros E;
    rewrite E in *; destruct H1 as [H1 | H1]; destruct H2 as [H2 | H2]; discriminate.
Qed.

Lemma json_rstrip_solid (s : string) : ends_plain s = true -> json_rstrip s = s.
Proof.
  induction s as [ | c s IH ]; [ discriminate | ].
  destruct s as [ | c' s' ].
  - intros H. cbn. now rewrite (plain_json_space c H).
  - intros H. apply json_rstrip_cons; [ now apply IH | discriminate ].
Qed.

Lemma json_strip_solid (c : ascii) (s : string) :
  plain c = true -> ends_plain (String c s) = true ->
  json_strip (String c s) = String c s.
Proof.
  intros Hc He. unfold json_strip.
  rewrite json_lstrip_solid by now apply plain_json_space.
  now apply json_rstrip_solid.
Qed.

End ReferenceStrip.

(* ------------------------------------------------------------------ *)
(** ** The reference codec obeys the laws *)

Module ReferenceLaws.
Import Reference.

Definition digit_head (s : string) : bool :=
  match s with
  | EmptyString => false
  | String c _ => match digit_value c with Some _ => true | None => false end
  end.

Lemma digit_value_char (d : N) :
  (d < 10)%N -> digit_value (digit_char d) = Some d.
Proof.
  intros Hd. unfold digit_value, digit_char.
  rewrite N_ascii_embedding by lia.
  replace ((48 <=? 48 + d)%N && (48 + d <=? 57)%N) with true.
  - f_equal. lia.
  - symmetry. apply andb_true_iff. split; apply N.leb_le; lia.
Qed.

Lemma digit_char_solid (d : N) : (d < 10)%N -> plain (digit_char d) = true.
Proof.
  intros Hd.
  assert (H : In d [0; 1; 2; 3; 4; 5; 6; 7; 8; 9]%N).
  { simpl. lia. }
  simpl in H. repeat (destruct H as [<- | H]; [ reflexivity | ]). destruct H.
Qed.

Lemma mod10_lt (n : N) : (n mod 10 < 10)%N.
Proof. apply N.mod_lt. discriminate. Qed.

Lemma write_digits_head (fuel : nat) :
  forall n k, digit_head k = true -> digit_head (write_digits fuel n k) = true.
Proof.
  induction fuel as [ | fuel IH ]; intros n k Hk; simpl; [ exact Hk | ].
  assert (Hk' : digit_head (String (digit_char (n mod 10)) k) = true).
  { unfold digit_head. now rewrite digit_value_char by apply mod10_lt. }
  destruct (n <? 10)%N; [ exact Hk' | now apply IH ].
Qed.

Lemma write_N_head (n : N) (k : string) : digit_head (write_N n k) = true.
Proof.
  unfold write_N. simpl.
  assert (Hk' : digit_head (String (digit_char (n mod 10)) k) = true).
  { unfold digit_head. now rewrite digit_value_char by apply mod10_lt. }
  destruct (n <? 10)%N; [ exact Hk' | now apply write_digits_head ].
Qed.

Lemma read_write_digits (fuel : nat) :
  forall n k acc, (n < 2 ^ N.of_nat fuel)%N ->
  exists p, read_digits acc (write_digits fuel n k) = read_digits (acc * 10 ^ p + n) k.
Proof.
  induction fuel as [ | fuel IH ]; intros n k acc Hn.
  - exists 0%N. simpl in *. f_equal. lia.
  - cbn [write_digits].
    assert (Hstep : forall a, read_digits a (String (digit_char (n mod 10)) k)
                              = read_digits (10 * a + n mod 10) k).
    { intros a. cbn [read_digits]. now rewrite digit_value_char by apply mod10_lt. }
    destruct (n <? 10)%N eqn:E.
    + apply N.ltb_lt in E. exists 1%N. rewrite Hstep. f_equal.
      rewrite N.mod_small by exact E. lia.
    + apply N.ltb_ge in E.
      assert (Hdiv : (n / 10 < 2 ^ N.of_nat fuel)%N).
      { rewrite Nat2N.inj_succ, N.pow_succ_r' in Hn.
        apply N.Div0.div_lt_upper_bound. lia. }
      destruct (IH (n / 10)%N (String (digit_char (n mod 10)) k) acc Hdiv) as [p Hp].
      exists (N.succ p). rewrite Hp, Hstep. f_equal.
      rewrite N.pow_succ_r'.
      pose proof (N.div_mod n 10 ltac:(discriminate)). lia.
Qed.

Lemma read_digits_stop (acc : N) (k : string) :
  digit_head k = false -> read_digits acc k = (acc, k).
Proof.
  destruct k as [ | c k ]; [ reflexivity | ].
  unfold digit_head. simpl. now destruct (digit_value c).
Qed.

Lemma read_write_N (n : N) (k : string) :
  digit_head k = false -> read_N (write_N n k) = Some (n, k).
Proof.
  intros Hk.
  pose proof (write_N_head n k) as Hh.
  unfold read_N. destruct (write_N n k) as [ | c rest ] eqn:E; [ discriminate | ].
  unfold digit_head in Hh. destruct (digit_value c); [ | discriminate ].
  rewrite <- E. unfold write_N.
  destruct (read_write_digits (S (N.to_nat (N.size n))) n k 0%N) as [p Hp].
  { rewrite Nat2N.inj_succ, N2Nat.id, N.pow_succ_r'.
    pose proof (N.size_gt n). lia. }
  rewrite Hp. simpl. now rewrite read_digits_stop.
Qed.

Lemma delimited_no_digit (k : string) : delimited k = true -> digit_head k = false.
Proof.
  destruct k as [ | c k ]; [ reflexivity | ]. unfold delimited, digit_head.
  intros H. apply orb_true_iff in H. destruct H as [H | H];
    [ apply orb_true_iff in H; destruct H as [H | H] | ];
    apply Ascii.eqb_eq in H; subst c; reflexivity.
Qed.

Lemma read_exponent_zero (m : Z) (k : string) :
  delimited k = true -> read_exponent m k = Some (Number m 0, k).
Proof.
  destruct k as [ | c1 [ | c2 k ] ]; try reflexivity.
  unfold delimited, read_exponent. intros H.
  replace (Ascii.eqb c1 "e") with false; [ reflexivity | ].
  apply orb_true_iff in H. destruct H as [H | H];
    [ apply orb_true_iff in H; destruct H as [H | H] | ];
    apply Ascii.eqb_eq in H; subst c1; reflexivity.
Qed.

Lemma read_exponent_scale (m : Z) (e : nat) (k : string) :
  delimited k = true ->
  read_exponent m
    (match e with
     | O => k
     | S _ => String "e" (String "-" (write_N (N.of_nat e) k))
     end) = Some (Number m e, k).
Proof.
  intros Hk. destruct e as [ | e ].
  - now apply read_exponent_zero.
  - cbn [read_exponent]. simpl (Ascii.eqb _ _ && _).
    rewrite read_write_N by now apply delimited_no_digit.
    now rewrite Nat2N.id.
Qed.

Lemma exponent_no_digit (e : nat) (k : string) :
  delimited k = true ->
  digit_head (match e with
              | O => k
              | S _ => String "e" (String "-" (write_N (N.of_nat e) k))
              end) = false.
Proof. intros Hk. destruct e; [ now apply delimited_no_digit | reflexivity ]. Qed.

Lemma read_write_number (n : number) (k : string) :
  delimited k = true -> read_number (write_number n k) = Some (n, k).
Proof.
  intros Hk. destruct n as [m e]. unfold write_number. cbn [mantissa scale].
  set (exponent := match e with O => k | S _ => _ end).
  assert (He : digit_head exponent = false) by now apply exponent_no_digit.
  destruct (m <? 0)%Z eqn:Em.
  - apply Z.ltb_lt in Em. cbn [read_number]. simpl (Ascii.eqb _ _).
    rewrite read_write_N by exact He.
    unfold exponent. rewrite read_exponent_scale by exact Hk.
    do 3 f_equal. lia.
  - apply Z.ltb_ge in Em.
    pose proof (write_N_head (Z.abs_N m) exponent) as Hh.
    pose proof (read_write_N (Z.abs_N m) exponent He) as Hr.
    destruct (write_N (Z.abs_N m) exponent) as [ | c rest ] eqn:E; [ discriminate | ].
    cbn [read_number].
    assert (Hc : Ascii.eqb c "-" = false).
    { destruct (Ascii.eqb_spec c "-") as [-> | ]; [ discriminate | reflexivity ]. }
    rewrite Hc, Hr. unfold exponent. rewrite read_exponent_scale by exact Hk.
    do 3 f_equal. lia.
Qed.

Lemma read_write_chars (s k : string) : read_chars (write_chars s k) = Some (s, k).
Proof.
  induction s as [ | c s IH ]; [ reflexivity | ].
  cbn [write_chars]. destruct (escaped c) eqn:E.
  - cbn [read_chars]. simpl (Ascii.eqb backslash _). cbv iota.
    now rewrite E, IH.
  - cbn [read_chars]. unfold escaped in E. apply orb_false_iff in E.
    destruct E as [-> ->]. now rewrite IH.
Qed.

Lemma read_write_string (s k : string) : read_string (write_string s k) = Some (s, k).
Proof. unfold write_string. cbn. apply read_write_chars. Qed.

(** The elements after the first, and the closing bracket. *)
Definition write_elements (k : string) : list json -> string :=
  fix tail (l : list json) : string :=
    match l with
    | [] => String "]" k
    | y :: l' => String "," (write y (tail l'))
    end.

Definition write_members (k : string) : list (string * json) -> string :=
  fix tail (l : list (string * json)) : string :=
    match l with
    | [] => String "}" k
    | (key, v) :: l' =>
        String "," (write_string key (String ":" (write v (tail l'))))
    end.

Fixpoint elements_size (l : list json) : nat :=
  match l with [] => 0 | y :: l' => S (size y + elements_size l') end.

Fixpoint members_size (l : list (string * json)) : nat :=
  match l with [] => 0 | (_, v) :: l' => S (size v + members_size l') end.

Lemma write_arr (x : json) (rest : list json) (k : string) :
  write (JArr (x :: rest)) k = String "[" (write x (write_elements k rest)).
Proof. reflexivity. Qed.

Lemma write_obj (key : string) (v : json) (rest : list (string * json)) (k : string) :
  write (JObj ((key, v) :: rest)) k
  = String "{" (write_string key (String ":" (write v (write_members k rest)))).
Proof. reflexivity. Qed.

Lemma size_arr (items : list json) : size (JArr items) = S (elements_size items).
Proof. reflexivity. Qed.

Lemma size_obj (members : list (string * json)) :
  size (JObj members) = S (members_size members).
Proof. reflexivity. Qed.

Lemma parse_number (fuel : nat) (s : string) (n : number) (k : string) :
  read_number s = Some (n, k) -> parse (S fuel) s = Some (JNum n, k).
Proof.
  destruct s as [ | c s' ]; [ discriminate | ].
  intros H. cbn [parse].
  assert (Hd : Ascii.eqb c "-" = true \/ digit_value c <> None).
  { cbn [read_number] in H. destruct (Ascii.eqb c "-"); [ now left | right ].
    unfold read_N in H. now destruct (digit_value c). }
  assert (Hne : forall c', Ascii.eqb c' "-" = false -> digit_value c' = None ->
                           Ascii.eqb c c' = false).
  { intros c' H1 H2. destruct (Ascii.eqb_spec c c') as [-> | ]; [ | reflexivity ].
    destruct Hd as [Hd | Hd]; congruence. }
  rewrite !Hne by reflexivity. now rewrite H.
Qed.

Lemma parse_closing (fuel : nat) (k : string) : parse fuel (String "]" k) = None.
Proof. destruct fuel; reflexivity. Qed.

Lemma delimited_elements (k : string) (l : list json) :
  delimited (write_elements k l) = true.
Proof. destruct l; reflexivity. Qed.

Lemma delimited_members (k : string) (l : list (string * json)) :
  delimited (write_members k l) = true.
Proof. destruct l as [ | [key v] l ]; reflexivity. Qed.

Definition parses (j : json) : Prop :=
  forall fuel k, size j <= fuel -> delimited k = true ->
  parse fuel (write j k) = Some (j, k).

Lemma parse_tail_elements (k : string) (l : list json) :
  Forall parses l ->
  forall fuel, S (elements_size l) <= fuel ->
  parse_tail fuel (write_elements k l) = Some (l, k).
Proof.
  induction 1 as [ | y l Hy Hl IH ]; intros fuel Hfuel.
  - destruct fuel; [ lia | reflexivity ].
  - destruct fuel as [ | fuel ]; [ lia | ].
    cbn [elements_size] in Hfuel.
    cbn [write_elements parse_tail]. simpl (Ascii.eqb _ _). cbv iota.
    rewrite Hy by (lia || apply delimited_elements).
    now rewrite IH by lia.
Qed.

Lemma parse_members_members (k : string) (l : list (string * json)) :
  Forall (fun m => parses (snd m)) l ->
  forall fuel, S (members_size l) <= fuel ->
  parse_members fuel (write_members k l) = Some (l, k).
Proof.
  induction 1 as [ | [key v] l Hv Hl IH ]; intros fuel Hfuel.
  - destruct fuel; [ lia | reflexivity ].
  - destruct fuel as [ | fuel ]; [ lia | ].
    cbn [members_size] in Hfuel. cbn [snd] in Hv.
    cbn [write_members parse_members]. simpl (Ascii.eqb _ _). cbv iota.
    rewrite read_write_string. simpl (Ascii.eqb _ _). cbv iota.
    rewrite Hv by (lia || apply delimited_members).
    now rewrite IH by lia.
Qed.

Lemma parse_write (j : json) : parses j.
Proof.
  induction j as [ | b | n | s | items IH | members IH ] using json_induction;
    intros fuel k Hfuel Hk.
  - destruct fuel; [ simpl in Hfuel; lia | reflexivity ].
  - destruct fuel; [ simpl in Hfuel; lia | destruct b; reflexivity ].
  - destruct fuel; [ simpl in Hfuel; lia | ].
    apply parse_number. now apply read_write_number.
  - destruct fuel; [ simpl in Hfuel; lia | ].
    cbn [write]. unfold write_string. cbn [parse]. simpl (Ascii.eqb _ _). cbv iota.
    now rewrite read_write_chars.
  - rewrite size_arr in Hfuel. destruct fuel as [ | fuel ]; [ lia | ].
    destruct items as [ | x rest ].
    + cbn [write parse]. simpl (Ascii.eqb _ _). cbv iota.
      now rewrite parse_closing.
    + rewrite write_arr. cbn [elements_size] in Hfuel.
      cbn [parse]. simpl (Ascii.eqb _ _). cbv iota.
      inversion IH as [ | ? ? Hx Hrest ]; subst.
      rewrite Hx by (lia || apply delimited_elements).
      now rewrite (parse_tail_elements k rest Hrest) by lia.
  - rewrite size_obj in Hfuel. destruct fuel as [ | fuel ]; [ lia | ].
    destruct members as [ | [key v] rest ].
    + reflexivity.
    + rewrite write_obj. cbn [members_size] in Hfuel.
      inversion IH as [ | ? ? Hv Hrest ]; subst. cbn [snd] in Hv.
      cbn [parse]. simpl (Ascii.eqb _ _). cbv iota.
      unfold write_string at 1. simpl (Ascii.eqb _ _). cbv iota.
      change (String quote (write_chars key ?t)) with (write_string key t).
      rewrite read_write_string. simpl (Ascii.eqb _ _). cbv iota.
      rewrite Hv by (lia || apply delimited_members).
      now rewrite (parse_members_members k rest Hrest) by lia.
Qed.

(** Text that ends with a plain byte, and text that does when it is not
    empty. *)
Definition solid (k : string) : Prop := ends_plain k = true.

Definition trimmed (k : string) : Prop := ends_plain k = nonempty k.

Lemma solid_trimmed (k : string) : solid k -> trimmed k.
Proof. unfold solid, trimmed. intros H. rewrite H. now destruct k. Qed.

Lemma solid_cons (c : ascii) (k : string) : solid k -> solid (String c k).
Proof. unfold solid. destruct k; [ discriminate | trivial ]. Qed.

Lemma solid_end (c : ascii) (k : string) :
  trimmed k -> plain c = true -> solid (String c k).
Proof. unfold solid, trimmed. intros Hk Hc. destruct k; [ exact Hc | exact Hk ]. Qed.

Lemma solid_digits (fuel : nat) :
  forall n k, solid k -> solid (write_digits fuel n k).
Proof.
  induction fuel as [ | fuel IH ]; intros n k Hk; simpl; [ exact Hk | ].
  destruct (n <? 10)%N; [ | apply IH ]; now apply solid_cons.
Qed.

Lemma solid_N (n : N) (k : string) : trimmed k -> solid (write_N n k).
Proof.
  intros Hk. unfold write_N. simpl.
  assert (H : solid (String (digit_char (n mod 10)) k)).
  { apply solid_end; [ exact Hk | apply digit_char_solid, mod10_lt ]. }
  destruct (n <? 10)%N; [ exact H | now apply solid_digits ].
Qed.

Lemma solid_number (n : number) (k : string) : trimmed k -> solid (write_number n k).
Proof.
  intros Hk. unfold write_number.
  set (exponent := match scale n with O => k | S _ => _ end).
  assert (He : trimmed exponent).
  { unfold exponent. destruct (scale n) as [ | e ]; [ exact Hk | ].
    exact (solid_trimmed _ (solid_cons "e" _ (solid_cons "-" _ (solid_N _ _ Hk)))). }
  destruct (mantissa n <? 0)%Z; [ apply solid_cons | ]; now apply solid_N.
Qed.

Lemma solid_chars (s k : string) : trimmed k -> solid (write_chars s k).
Proof.
  intros Hk. induction s as [ | c s IH ]; cbn [write_chars].
  - now apply solid_end.
  - destruct (escaped c); repeat apply solid_cons; exact IH.
Qed.

Lemma solid_string (s k : string) : trimmed k -> solid (write_string s k).
Proof. intros Hk. apply solid_cons. now apply solid_chars. Qed.

Lemma solid_write (j : json) : forall k, trimmed k -> solid (write j k).
Proof.
  induction j as [ | b | n | s | items IH | members IH ] using json_induction;
    intros k Hk.
  - simpl. do 3 apply solid_cons. now apply solid_end.
  - destruct b; simpl; [ do 3 apply solid_cons | do 4 apply solid_cons ];
      now apply solid_end.
  - now apply solid_number.
  - now apply solid_string.
  - assert (Ht : forall l, Forall (fun x => forall k, trimmed k -> solid (write x k)) l ->
                           solid (write_elements k l)).
    { induction 1 as [ | y l Hy Hl IHl ]; cbn [write_elements].
      - now apply solid_end.
      - apply solid_cons, Hy, solid_trimmed, IHl. }
    destruct items as [ | x rest ].
    + simpl. apply solid_cons. now apply solid_end.
    + rewrite write_arr. inversion IH as [ | ? ? Hx Hrest ]; subst.
      apply solid_cons, Hx, solid_trimmed, Ht, Hrest.
  - assert (Ht : forall l, Forall (fun m => forall k, trimmed k -> solid (write (snd m) k)) l ->
                           solid (write_members k l)).
    { induction 1 as [ | [key v] l Hv Hl IHl ]; cbn [write_members].
      - now apply solid_end.
      - apply solid_cons, solid_string, solid_trimmed, (solid_cons ":"), Hv,
          solid_trimmed, IHl. }
    destruct members as [ | [key v] rest ].
    + simpl. apply solid_cons. now apply solid_end.
    + rewrite write_obj. inversion IH as [ | ? ? Hv Hrest ]; subst.
      apply solid_cons, solid_string, solid_trimmed, (solid_cons ":"), Hv,
        solid_trimmed, Ht, Hrest.
Qed.

Lemma digit_solid (c : ascii) : digit_value c <> None -> plain c = true.
Proof.
  unfold digit_value, plain, space1, nat_of_ascii.
  destruct ((48 <=? N_of_ascii c)%N && (N_of_ascii c <=? 57)%N) eqn:E; [ intros _ | easy ].
  apply andb_true_iff in E. destruct E as [E1 E2].
  apply N.leb_le in E1. apply N.leb_le in E2.
  assert (H : 48 <= N.to_nat (N_of_ascii c) <= 57) by lia.
  apply andb_true_iff. split; [ apply Nat.ltb_lt; lia | ].
  apply negb_true_iff, orb_false_iff. split; apply andb_false_iff.
  - right. apply Nat.leb_gt. lia.
  - right. apply Nat.leb_gt. lia.
Qed.

Lemma digit_head_solid (s : string) :
  digit_head s = true -> exists c rest, s = String c rest /\ plain c = true.
Proof.
  destruct s as [ | c rest ]; [ discriminate | ]. unfold digit_head. intros H.
  exists c, rest. split; [ reflexivity | ]. apply digit_solid.
  now destruct (digit_value c).
Qed.

Lemma write_head (j : json) (k : string) :
  exists c rest, write j k = String c rest /\ plain c = true.
Proof.
  destruct j as [ | [ | ] | n | s | [ | x rest ] | [ | [key v] rest ] ];
    try (eexists _, _; split; [ reflexivity | reflexivity ]).
  simpl. unfold write_number.
  destruct (mantissa n <? 0)%Z.
  - eexists _, _; split; reflexivity.
  - apply digit_head_solid, write_N_head.
Qed.

Lemma length_digits (fuel : nat) :
  forall n k, String.length k <= String.length (write_digits fuel n k).
Proof.
  induction fuel as [ | fuel IH ]; intros n k; simpl; [ lia | ].
  destruct (n <? 10)%N; [ simpl; lia | ].
  etransitivity; [ | apply IH ]. simpl. lia.
Qed.

Lemma length_N (n : N) (k : string) :
  S (String.length k) <= String.length (write_N n k).
Proof.
  unfold write_N. simpl. destruct (n <? 10)%N; [ simpl; lia | ].
  etransitivity; [ | apply length_digits ]. simpl. lia.
Qed.

Lemma length_number (n : number) (k : string) :
  S (String.length k) <= String.length (write_number n k).
Proof.
  unfold write_number.
  set (exponent := match scale n with O => k | S _ => _ end).
  assert (He : String.length k <= String.length exponent).
  { unfold exponent. destruct (scale n) as [ | e ]; [ lia | ].
    pose proof (length_N (N.of_nat (S e)) k). cbn [String.length]. lia. }
  pose proof (length_N (Z.abs_N (mantissa n)) exponent).
  destruct (mantissa n <? 0)%Z; cbn [String.length]; lia.
Qed.

Lemma length_chars (s k : string) :
  S (String.length k) <= String.length (write_chars s k).
Proof.
  induction s as [ | c s IH ]; cbn [write_chars]; [ simpl; lia | ].
  destruct (escaped c); simpl; lia.
Qed.

Lemma length_write (j : json) :
  forall k, size j + String.length k <= String.length (write j k).
Proof.
  induction j as [ | b | n | s | items IH | members IH ] using json_induction;
    intros k.
  - simpl. lia.
  - destruct b; simpl; lia.
  - pose proof (length_number n k). simpl. lia.
  - pose proof (length_chars s k). simpl. lia.
  - assert (Ht : forall l,
              Forall (fun x => forall k, size x + String.length k <= String.length (write x k)) l ->
              S (elements_size l + String.length k) <= String.length (write_elements k l)).
    { induction 1 as [ | y l Hy Hl IHl ]; cbn [write_elements elements_size].
      - simpl. lia.
      - specialize (Hy (write_elements k l)). simpl. lia. }
    rewrite size_arr. destruct items as [ | x rest ]; [ simpl; lia | ].
    rewrite write_arr. inversion IH as [ | ? ? Hx Hrest ]; subst.
    specialize (Hx (write_elements k rest)). specialize (Ht rest Hrest).
    cbn [elements_size]. simpl. lia.
  - assert (Ht : forall l,
              Forall (fun m => forall k, size (snd m) + String.length k
                                         <= String.length (write (snd m) k)) l ->
              S (members_size l + String.length k) <= String.length (write_members k l)).
    { induction 1 as [ | [key v] l Hv Hl IHl ]; cbn [write_members members_size].
      - simpl. lia.
      - cbn [snd] in Hv. specialize (Hv (write_members k l)).
        pose proof (length_chars key (String ":" (write v (write_members k l)))).
        simpl in *. lia. }
    rewrite size_obj. destruct members as [ | [key v] rest ]; [ simpl; lia | ].
    rewrite write_obj. inversion IH as [ | ? ? Hv Hrest ]; subst. cbn [snd] in Hv.
    specialize (Hv (write_members k rest)). specialize (Ht rest Hrest).
    pose proof (length_chars key (String ":" (write v (write_members k rest)))).
    cbn [members_size]. simpl in *. lia.
Qed.

Lemma reference_dump_strip (j : json) : strip (dump j) = dump j.
Proof.
  unfold dump.
  destruct (write_head j EmptyString) as (c & rest & E & Hc).
  pose proof (solid_write j EmptyString eq_refl) as Hr.
  unfold solid in Hr. rewrite E in *. now apply strip_solid.
Qed.

Lemma reference_dump_json_strip (j : json) : json_strip (dump j) = dump j.
Proof.
  unfold dump.
  destruct (write_head j EmptyString) as (c & rest & E & Hc).
  pose proof (solid_write j EmptyString eq_refl) as Hr.
  unfold solid in Hr. rewrite E in *. now apply json_strip_solid.
Qed.

Lemma reference_loads_dump (j : json) : loads (dump j) = Some j.
Proof.
  unfold loads. rewrite reference_dump_strip, reference_dump_json_strip.
  rewrite String.eqb_refl. unfold dump.
  rewrite parse_write; [ reflexivity | | reflexivity ].
  pose proof (length_write j EmptyString). lia.
Qed.

Lemma reference_loads_strip (s : string) (j : json) :
  loads s = Some j -> loads (strip s) = Some j.
Proof.
  unfold loads. destruct (String.eqb (json_strip s) (strip s)) eqn:E; [ | discriminate ].
  apply String.eqb_eq in E. rewrite strip_idempotent.
  rewrite <- E. now rewrite json_strip_idempotent, String.eqb_refl.
Qed.

End ReferenceLaws.

#[export] Instance reference_codec : JsonCodec := {|
  json_dump := Reference.dump;
  json_loads := Reference.loads;
  strip := Reference.strip;
  loads_dump := ReferenceLaws.reference_loads_dump;
  dump_strip := ReferenceLaws.reference_dump_strip;
  loads_empty := eq_refl;
  loads_strip := ReferenceLaws.reference_loads_strip
|}.

(* ================================================================== *)
(** * Facts about the engine *)

Section EngineFacts.

Context {codec : JsonCodec} (world : World).

Lemma loads_nonempty (text : string) (j : json) :
  json_loads text = Some j -> nonempty text = true.
Proof.
  destruct text; [ | reflexivity ]. rewrite loads_empty. discriminate.
Qed.

(** [drain] only reads. *)
Lemma drain_state (s : Simulator) : snd (drain s) = s.
Proof.
  unfold drain, bind, read, ret. simpl.
  destruct (offline_file s) as [ text | ]; [ | reflexivity ].
  destruct (nonempty (strip text)); [ | reflexivity ].
  now destruct (json_loads (strip text)).
Qed.

Lemma drain_run (s : Simulator) : drain s = (fst (drain s), s).
Proof. rewrite <- (drain_state s) at 3. now destruct (drain s). Qed.

Lemma drain_file (s : Simulator) (text : string) (j : json) :
  offline_file s = Some text -> json_loads text = Some j -> fst (drain s) = j.
Proof.
  intros Hf Hl. unfold drain, bind, read, ret. simpl. rewrite Hf.
  pose proof (loads_strip _ _ Hl) as Hs.
  rewrite (loads_nonempty _ _ Hs). now rewrite Hs.
Qed.

Lemma drain_absent (s : Simulator) : offline_file s = None -> fst (drain s) = JArr [].
Proof. intros Hf. unfold drain, bind, read, ret. simpl. now rewrite Hf. Qed.

Lemma drain_undecodable (s : Simulator) (text : string) :
  offline_file s = Some text -> json_loads (strip text) = None -> fst (drain s) = JArr [].
Proof.
  intros Hf Hl. unfold drain, bind, read, ret. simpl. rewrite Hf, Hl.
  now destruct (nonempty (strip text)).
Qed.

Lemma drain_written (s : Simulator) (j : json) :
  offline_file s = Some (json_dump j) -> fst (drain s) = j.
Proof. intros Hf. apply (drain_file s _ j Hf), loads_dump. Qed.

Lemma write_file_run (text : string) (s : Simulator) :
  write_file text s =
  (tt, {| offline_mode := offline_mode s; w3 := w3 s;
          offline_file := Some text; trace := trace s ++ [WriteFile text] |}).
Proof. reflexivity. Qed.

Lemma save_list (data : json) (items : list json) (s : Simulator) :
  fst (drain s) = JArr items ->
  save_data_offline data s = write_file (json_dump (JArr (items ++ [data]))) s.
Proof.
  intros Hd. unfold save_data_offline, bind. rewrite drain_run, Hd. reflexivity.
Qed.

Lemma save_not_list (data : json) (s : Simulator) :
  (forall items, fst (drain s) <> JArr items) -> save_data_offline data s = (tt, s).
Proof.
  intros Hd. unfold save_data_offline, bind. rewrite drain_run.
  destruct (fst (drain s)) as [ | | | | items | ]; try reflexivity.
  now destruct (Hd items).
Qed.

(** After a save into a buffer that reads as [items], the buffer reads as
    [items ++ [data]]; nothing else changes but the trace. *)
Lemma save_drain (data : json) (items : list json) (s : Simulator) :
  fst (drain s) = JArr items ->
  let s' := snd (save_data_offline data s) in
  fst (drain s') = JArr (items ++ [data]) /\
  offline_file s' = Some (json_dump (JArr (items ++ [data]))) /\
  offline_mode s' = offline_mode s /\ w3 s' = w3 s /\
  trace s' = trace s ++ [WriteFile (json_dump (JArr (items ++ [data])))].
Proof.
  intros Hd. rewrite (save_list data items s Hd), write_file_run. cbn [snd].
  repeat split. now apply drain_written.
Qed.

Lemma appended_nil (j : json) : appended j [] = j.
Proof. destruct j; cbn; try reflexivity. now rewrite app_nil_r. Qed.

Lemma appended_app (j : json) (a b : list json) :
  appended (appended j a) b = appended j (a ++ b).
Proof. destruct j; cbn; try reflexivity. now rewrite app_assoc. Qed.

(** A save appends to a buffer that reads as a list and leaves any other
    document alone. *)
Lemma save_appended (data : json) (s : Simulator) :
  fst (drain (snd (save_data_offline data s))) = appended (fst (drain s)) [data].
Proof.
  destruct (fst (drain s)) as [ | | | | items | ] eqn:Hd;
    try (rewrite save_not_list by (intros items; rewrite Hd; discriminate); exact Hd).
  now destruct (save_drain data items s Hd) as (-> & _).
Qed.

Lemma drain_same_file (s s' : Simulator) :
  offline_file s' = offline_file s -> fst (drain s') = fst (drain s).
Proof.
  intros H. unfold drain, bind, read, ret. simpl. rewrite H.
  destruct (offline_file s) as [ text | ]; [ | reflexivity ].
  destruct (nonempty (strip text)); [ | reflexivity ].
  now destruct (json_loads (strip text)).
Qed.

Lemma buffer_state_drain (s : Simulator) :
  buffer_state (offline_file s) -> exists items, fst (drain s) = JArr items.
Proof.
  unfold buffer_state. destruct (offline_file s) as [ text | ] eqn:Hf.
  - intros H. destruct (json_loads (strip text)) as [ j | ] eqn:Hl.
    + destruct (H j eq_refl) as [items ->]. exists items.
      unfold drain, bind, read, ret. simpl.
      now rewrite Hf, (loads_nonempty _ _ Hl), Hl.
    + exists []. now apply (drain_undecodable s text).
  - intros _. exists []. now apply drain_absent.
Qed.

(** The state after an event. *)
Definition logged (e : event) (s : Simulator) : Simulator := snd (emit e s).

Lemma send_data_run (data : json) (allow : bool) (s : Simulator) :
  send_data world data allow s =
  let s1 := logged (Publish data (mqtt_publish world (trace s) data)) s in
  if send_ok world (trace s) data then (true, s1)
  else (false, snd (when allow (save_data_offline data) s1)).
Proof.
  unfold send_data, publish, send_ok, publish_ok, bind, read, ret, logged. simpl.
  destruct (mqtt_publish world (trace s) data) as [ rc | ].
  - destruct (rc =? MQTT_ERR_SUCCESS)%Z; cbn [andb].
    + destruct (loggable data); [ reflexivity | ].
      now destruct (when allow (save_data_offline data) _).
    + now destruct (when allow (save_data_offline data) _).
  - now destruct (when allow (save_data_offline data) _).
Qed.

Lemma send_to_blockchain_run (data : json) (allow : bool) (s : Simulator) :
  send_to_blockchain world data allow s =
  match w3 s with
  | None => (false, snd (when allow (save_data_offline data) s))
  | Some _ =>
      let s1 := logged (IsConnected (w3_is_connected world (trace s))) s in
      if w3_is_connected world (trace s) then
        let s2 := logged (SendTransaction data (w3_send_transaction world (trace s1) data)) s1 in
        if transaction_ok world (trace s1) data then (true, s2)
        else (false, snd (when allow (save_data_offline data) s2))
      else (false, snd (when allow (save_data_offline data) s1))
  end.
Proof.
  unfold send_to_blockchain, is_connected, send_transaction, transaction_ok,
    bind, read, ret, logged. simpl.
  destruct (w3 s) as [ url | ] eqn:Hw; simpl.
  - destruct (w3_is_connected world (trace s)); simpl; rewrite ?Hw.
    + destruct (w3_send_transaction world _ data); [ reflexivity | ].
      now destruct (when allow (save_data_offline data) _).
    + now destruct (when allow (save_data_offline data) _).
  - now destruct (when allow (save_data_offline data) s).
Qed.

(** What a step may change: only the trace, by events that do not touch
    the file. *)
Definition quiet (s s' : Simulator) : Prop :=
  offline_mode s' = offline_mode s /\ w3 s' = w3 s /\
  offline_file s' = offline_file s /\
  exists events, trace s' = trace s ++ events /\ file_events events = [].

Lemma quiet_refl (s : Simulator) : quiet s s.
Proof. repeat split. exists []. now rewrite app_nil_r. Qed.

Lemma quiet_trans (s1 s2 s3 : Simulator) : quiet s1 s2 -> quiet s2 s3 -> quiet s1 s3.
Proof.
  intros (Hm & Hw & Hf & e & He & Hfe) (Hm' & Hw' & Hf' & e' & He' & Hfe').
  repeat split; try congruence.
  exists (e ++ e'). split.
  - now rewrite He', He, app_assoc.
  - unfold file_events in *. now rewrite filter_app, Hfe, Hfe'.
Qed.

Lemma quiet_logged (e : event) (s : Simulator) :
  is_file_event e = false -> quiet s (logged e s).
Proof.
  intros He. repeat split. exists [e]. split; [ reflexivity | ].
  unfold file_events. simpl. now rewrite He.
Qed.

Create HintDb quiet.
#[local] Hint Resolve quiet_refl quiet_logged : quiet.

Lemma send_data_quiet (data : json) (s : Simulator) :
  quiet s (snd (send_data world data false s)).
Proof.
  rewrite send_data_run. cbv zeta.
  destruct (send_ok world (trace s) data); simpl; auto with quiet.
Qed.

Lemma send_to_blockchain_quiet (data : json) (s : Simulator) :
  quiet s (snd (send_to_blockchain world data false s)).
Proof.
  rewrite send_to_blockchain_run.
  destruct (w3 s); [ cbv zeta | simpl; auto with quiet ].
  destruct (w3_is_connected world (trace s)); [ | simpl; auto with quiet ].
  destruct (transaction_ok world _ data); simpl;
    (eapply quiet_trans; [ apply quiet_logged | apply quiet_logged ]); reflexivity.
Qed.

Lemma attempt_quiet (data : json) (s : Simulator) : quiet s (snd (attempt world data s)).
Proof.
  unfold attempt, bind, ret.
  pose proof (send_data_quiet data s) as H1.
  destruct (send_data world data false s) as [m s1]. cbn [snd] in H1.
  pose proof (send_to_blockchain_quiet data s1) as H2.
  destruct (send_to_blockchain world data false s1) as [b s2]. cbn [snd] in *.
  now apply (quiet_trans s s1 s2).
Qed.

Lemma attempts_quiet (l : list json) :
  forall s, quiet s (snd (attempts world l s)).
Proof.
  induction l as [ | data rest IH ]; intros s; [ apply quiet_refl | ].
  cbn [attempts]. unfold bind, ret.
  pose proof (attempt_quiet data s) as H1.
  destruct (attempt world data s) as [o s1]. cbn [snd] in H1.
  pose proof (IH s1) as H2.
  destruct (attempts world rest s1) as [os s2]. cbn [snd] in *.
  now apply (quiet_trans s s1 s2).
Qed.

Lemma attempts_length (l : list json) :
  forall s, List.length (fst (attempts world l s)) = List.length l.
Proof.
  induction l as [ | data rest IH ]; intros s; [ reflexivity | ].
  cbn [attempts]. unfold bind, ret.
  destruct (attempt world data s) as [o s1].
  specialize (IH s1). destruct (attempts world rest s1) as [os s2].
  simpl in *. now rewrite IH.
Qed.

(** The loop of [resync_offline_data] keeps what [retained] says and ends
    in the state the attempts end in. *)
Lemma resync_loop_attempts (l : list json) :
  forall remaining s,
  resync_loop world l remaining s =
  (remaining ++ retained l (fst (attempts world l s)), snd (attempts world l s)).
Proof.
  induction l as [ | data rest IH ]; intros remaining s.
  - simpl. unfold ret, retained. simpl. now rewrite app_nil_r.
  - cbn [resync_loop attempts]. unfold bind, ret, attempt. unfold bind, ret.
    destruct (send_data world data false s) as [m s1].
    destruct (send_to_blockchain world data false s1) as [b s2].
    rewrite IH. destruct (attempts world rest s2) as [os s3]. cbn [fst snd].
    unfold retained, resolved. cbn [combine filter fst snd].
    destruct m, b; cbn [negb andb orb map fst]; try reflexivity;
      now rewrite <- app_assoc.
Qed.

Lemma published_app (e1 e2 : list event) :
  published (e1 ++ e2) = published e1 ++ published e2.
Proof.
  induction e1 as [ | e e1 IH ]; [ reflexivity | ].
  destruct e; simpl; now rewrite IH.
Qed.

Lemma attempt_published (data : json) (s : Simulator) :
  published (trace (snd (attempt world data s))) = published (trace s) ++ [data].
Proof.
  unfold attempt, bind, ret.
  rewrite send_data_run. cbv zeta.
  set (s1 := logged (Publish data _) s).
  assert (H1 : published (trace s1) = published (trace s) ++ [data]).
  { unfold s1. cbn. now rewrite published_app. }
  assert (H2 : published (trace (snd (send_to_blockchain world data false s1)))
               = published (trace s1)).
  { rewrite send_to_blockchain_run.
    destruct (w3 s1); [ cbv zeta | reflexivity ].
    destruct (w3_is_connected world (trace s1)).
    - destruct (transaction_ok world _ data); cbn; rewrite !published_app;
        cbn; now rewrite !app_nil_r.
    - cbn. rewrite published_app. cbn. now rewrite app_nil_r. }
  destruct (send_ok world (trace s) data); cbn [when ret snd];
    destruct (send_to_blockchain world data false s1) as [b s2];
    cbn [snd] in *; now rewrite H2.
Qed.

Lemma attempts_published (l : list json) :
  forall s, published (trace (snd (attempts world l s))) = published (trace s) ++ l.
Proof.
  induction l as [ | data rest IH ]; intros s.
  - cbn. now rewrite app_nil_r.
  - cbn [attempts]. unfold bind, ret.
    pose proof (attempt_published data s) as H1.
    destruct (attempt world data s) as [o s1]. cbn [snd] in H1.
    specialize (IH s1). destruct (attempts world rest s1) as [os s2]. cbn [snd] in *.
    now rewrite IH, H1, <- app_assoc.
Qed.

Lemma acknowledged_app (e1 e2 : list event) :
  acknowledged (e1 ++ e2) = acknowledged e1 ++ acknowledged e2.
Proof.
  induction e1 as [ | e e1 IH ]; [ reflexivity | ].
  destruct e as [ | | data [ rc | ] | | | | ]; simpl; rewrite ?IH; try reflexivity.
  now destruct (rc =? MQTT_ERR_SUCCESS)%Z.
Qed.

Lemma probed_app (e1 e2 : list event) : probed (e1 ++ e2) = probed e1 ++ probed e2.
Proof.
  induction e1 as [ | e e1 IH ]; [ reflexivity | ].
  destruct e; simpl; now rewrite IH.
Qed.

Lemma transactions_app (e1 e2 : list event) :
  transactions (e1 ++ e2) = transactions e1 ++ transactions e2.
Proof.
  induction e1 as [ | e e1 IH ]; [ reflexivity | ].
  destruct e; simpl; now rewrite IH.
Qed.

Lemma recorded_app (e1 e2 : list event) :
  recorded (e1 ++ e2) = recorded e1 ++ recorded e2.
Proof.
  induction e1 as [ | e e1 IH ]; [ reflexivity | ].
  destruct e as [ | | | | data [ tx | ] | | ]; simpl; now rewrite IH.
Qed.

(** The answer to the probe an attempt makes, if it makes one. *)
Definition probe (handle : option string) (answer : bool) : list bool :=
  match handle with
  | Some _ => [answer]
  | None => []
  end.

(** What the two attempts for one reading leave in the trace, and how
    their results follow from the answers of the channels. *)
Lemma attempt_channels (data : json) (s : Simulator) :
  let r := attempt world data s in
  fst (fst r) = publish_ok world (trace s) data && loggable data /\
  acknowledged (trace (snd r)) =
    acknowledged (trace s) ++ (if publish_ok world (trace s) data then [data] else []) /\
  (exists answer,
     probed (trace (snd r)) = probed (trace s) ++ probe (w3 s) answer /\
     transactions (trace (snd r)) =
       transactions (trace s) ++ map fst (filter snd (combine [data] (probe (w3 s) answer)))) /\
  recorded (trace (snd r)) = recorded (trace s) ++ (if snd (fst r) then [data] else []).
Proof.
  unfold attempt, bind, ret. rewrite send_data_run. cbv zeta.
  set (s1 := logged (Publish data (mqtt_publish world (trace s) data)) s).
  assert (Ha : acknowledged (trace s1) =
               acknowledged (trace s) ++ (if publish_ok world (trace s) data then [data] else [])).
  { unfold s1, logged, publish_ok. cbn [emit snd trace]. rewrite acknowledged_app.
    destruct (mqtt_publish world (trace s) data) as [ rc | ]; cbn; [ | reflexivity ].
    now destruct (rc =? MQTT_ERR_SUCCESS)%Z. }
  assert (Hp : probed (trace s1) = probed (trace s)).
  { unfold s1, logged. cbn [emit snd trace]. rewrite probed_app. cbn. apply app_nil_r. }
  assert (Ht : transactions (trace s1) = transactions (trace s)).
  { unfold s1, logged. cbn [emit snd trace]. rewrite transactions_app. cbn. apply app_nil_r. }
  assert (Hr : recorded (trace s1) = recorded (trace s)).
  { unfold s1, logged. cbn [emit snd trace]. rewrite recorded_app. cbn. apply app_nil_r. }
  assert (Hs : (if send_ok world (trace s) data then (true, s1)
                else (false, snd (when false (save_data_offline data) s1)))
               = (send_ok world (trace s) data, s1)).
  { now destruct (send_ok world (trace s) data). }
  rewrite Hs. clear Hs. rewrite send_to_blockchain_run.
  change (w3 s1) with (w3 s).
  destruct (w3 s) as [ url | ]; cbv zeta.
  - destruct (w3_is_connected world (trace s1)).
    + unfold transaction_ok.
      destruct (w3_send_transaction world _ data) as [ tx | ];
        cbn [fst snd when ret logged emit trace];
        rewrite !acknowledged_app, !probed_app, !transactions_app, !recorded_app,
          Ha, Hp, Ht, Hr; cbn; rewrite ?app_nil_r;
        (split; [ reflexivity | split; [ reflexivity | split; [ | reflexivity ] ] ]);
        exists true; (split; [ reflexivity | cbn; now rewrite ?app_nil_r ]).
    + cbn [fst snd when ret logged emit trace].
      rewrite !acknowledged_app, !probed_app, !transactions_app, !recorded_app,
        Ha, Hp, Ht, Hr; cbn; rewrite ?app_nil_r.
      split; [ reflexivity | split; [ reflexivity | split; [ | reflexivity ] ] ].
      exists false. split; [ reflexivity | cbn; now rewrite ?app_nil_r ].
  - cbn [fst snd when ret]. rewrite Ha, Hp, Ht, Hr. cbn. rewrite !app_nil_r.
    split; [ reflexivity | split; [ reflexivity | split; [ | reflexivity ] ] ].
    exists false. split; [ reflexivity | cbn; now rewrite ?app_nil_r ].
Qed.

Lemma attempts_channels (l : list json) :
  forall s,
  let outcomes := fst (attempts world l s) in
  let s' := snd (attempts world l s) in
  (exists acked,
     acknowledged (trace s') = acknowledged (trace s) ++ acked /\
     filter loggable acked = map fst (filter (fun p => fst (snd p)) (combine l outcomes))) /\
  (exists answers,
     probed (trace s') = probed (trace s) ++ answers /\
     List.length answers = (match w3 s with Some _ => List.length l | None => 0 end) /\
     transactions (trace s') =
       transactions (trace s) ++ map fst (filter snd (combine l answers))) /\
  recorded (trace s') =
    recorded (trace s) ++ map fst (filter (fun p => snd (snd p)) (combine l outcomes)).
Proof.
  induction l as [ | data rest IH ]; intros s.
  - cbn. rewrite !app_nil_r. split; [ exists []; now rewrite app_nil_r | ].
    split; [ | reflexivity ].
    exists []. rewrite !app_nil_r. repeat split. now destruct (w3 s).
  - cbn [attempts]. unfold bind, ret.
    destruct (attempt_channels data s) as (Hm & Ha & (answer & Hp & Ht) & Hr).
    destruct (attempt_quiet data s) as (_ & Hw & _).
    destruct (attempt world data s) as [[m b] s1]. cbn [fst snd] in *.
    destruct (IH s1) as ((acked & Ha' & Hf') & (answers & Hp' & Hn' & Ht') & Hr').
    destruct (attempts world rest s1) as [os s2]. cbn [fst snd] in *.
    split; [ | split ].
    + exists ((if publish_ok world (trace s) data then [data] else []) ++ acked).
      split; [ now rewrite Ha', Ha, <- app_assoc | ].
      rewrite filter_app, Hf'. cbn [combine filter fst snd]. rewrite Hm.
      destruct (publish_ok world (trace s) data); cbn [filter andb app]; [ | reflexivity ].
      now destruct (loggable data).
    + exists (probe (w3 s) answer ++ answers).
      rewrite Hp', Hp, Ht', Ht, Hw in *. rewrite <- !app_assoc.
      destruct (w3 s) as [ url | ]; cbn [probe app List.length combine] in *.
      * split; [ reflexivity | ]. split; [ now rewrite Hn' | ].
        f_equal. now destruct answer.
      * destruct answers; [ | discriminate ].
        split; [ reflexivity | ]. split; [ reflexivity | ].
        now destruct rest.
    + rewrite Hr', Hr, <- app_assoc. cbn [combine filter fst snd].
      now destruct b.
Qed.

(** A pass over a document that can be iterated. *)
Lemma resync_run (s : Simulator) (content : string) (offline_data : json) (items : list json) :
  offline_file s = Some content ->
  json_loads content = Some offline_data ->
  truthy offline_data = true ->
  iterate offline_data = Some items ->
  resync_offline_data world s =
  replace (retained items (fst (attempts world items s))) (snd (attempts world items s)).
Proof.
  intros Hf Hl Ht Hi.
  unfold resync_offline_data, bind, read. cbn [fst snd]. rewrite Hf.
  rewrite (loads_nonempty _ _ Hl). cbn [negb]. rewrite Hl, Ht. cbn [negb]. rewrite Hi.
  rewrite resync_loop_attempts. cbn [app]. unfold replace.
  now destruct (retained items (fst (attempts world items s))).
Qed.

(** A pass either does nothing at all, or attempts every item of the
    document and replaces the buffer. *)
Lemma resync_cases (s : Simulator) :
  resync_offline_data world s = (tt, s) \/
  exists items,
    resync_offline_data world s =
    replace (retained items (fst (attempts world items s))) (snd (attempts world items s)).
Proof.
  destruct (offline_file s) as [ content | ] eqn:Hf.
  - destruct (json_loads content) as [ offline_data | ] eqn:Hl.
    + destruct (truthy offline_data) eqn:Ht.
      * destruct (iterate offline_data) as [ items | ] eqn:Hi.
        -- right. exists items. now apply (resync_run s content offline_data).
        -- left. unfold resync_offline_data, bind, read. cbn [fst snd].
           rewrite Hf, (loads_nonempty _ _ Hl). cbn [negb]. now rewrite Hl, Ht, Hi.
      * left. unfold resync_offline_data, bind, read. cbn [fst snd].
        rewrite Hf, (loads_nonempty _ _ Hl). cbn [negb]. now rewrite Hl, Ht.
    + left. unfold resync_offline_data, bind, read. cbn [fst snd]. rewrite Hf, Hl.
      now destruct (nonempty content).
  - left. unfold resync_offline_data, bind, read. cbn [fst snd]. now rewrite Hf.
Qed.

Lemma replace_file (readings : list json) (s : Simulator) :
  offline_file (snd (replace readings s)) =
  match readings with
  | [] => None
  | _ :: _ => Some (json_dump (JArr readings))
  end.
Proof. now destruct readings. Qed.

Lemma replace_trace (readings : list json) (s : Simulator) :
  trace (snd (replace readings s)) =
  trace s ++ match readings with
             | [] => [RemoveFile]
             | _ :: _ => [WriteFile (json_dump (JArr readings))]
             end.
Proof. now destruct readings. Qed.

Lemma replace_published (readings : list json) (s : Simulator) :
  published (trace (snd (replace readings s))) = published (trace s).
Proof.
  rewrite replace_trace, published_app.
  destruct readings; cbn; now rewrite app_nil_r.
Qed.

Lemma buffer_ok_replace (readings : list json) (s : Simulator) :
  buffer_ok (offline_file (snd (replace readings s))).
Proof.
  rewrite replace_file. destruct readings as [ | r rest ]; [ exact I | ].
  exists (r :: rest). apply loads_dump.
Qed.

End EngineFacts.

(* ------------------------------------------------------------------ *)
(** ** Sends that may save, the loop, and stationary worlds *)

Section LoopFacts.

Context {fp : Generator.Float64} {codec : JsonCodec} (world : World).

Lemma save_fields (data : json) (s : Simulator) :
  offline_mode (snd (save_data_offline data s)) = offline_mode s /\
  w3 (snd (save_data_offline data s)) = w3 s.
Proof.
  unfold save_data_offline, bind. rewrite drain_run.
  now destruct (fst (drain s)).
Qed.



Lemma save_channel_events (data : json) (s : Simulator) :
  channel_events (trace (snd (save_data_offline data s))) = channel_events (trace s).
Proof.
  unfold save_data_offline, bind. rewrite drain_run.
  destruct (fst (drain s)); try reflexivity.
  rewrite write_file_run. cbn [snd trace]. unfold channel_events.
  rewrite filter_app. cbn. apply app_nil_r.
Qed.

(** A save made after events that left the file alone. *)
Lemma save_later (data : json) (items : list json) (s s1 : Simulator) :
  fst (drain s) = JArr items ->
  offline_file s1 = offline_file s ->
  fst (drain (snd (save_data_offline data s1))) = JArr (items ++ [data]).
Proof.
  intros Hd Hf. apply save_drain. now rewrite (drain_same_file s s1 Hf).
Qed.

Lemma save_appended_later (data : json) (s s1 : Simulator) :
  offline_file s1 = offline_file s ->
  fst (drain (snd (save_data_offline data s1))) = appended (fst (drain s)) [data].
Proof. intros Hf. now rewrite save_appended, (drain_same_file s s1 Hf). Qed.

(** A send that may save: the buffer afterwards is the buffer before,
    with the reading appended when the send failed. *)
Lemma send_data_appended (data : json) (s : Simulator) :
  let r := send_data world data true s in
  fst (drain (snd r)) = appended (fst (drain s)) (if fst r then [] else [data]) /\
  offline_mode (snd r) = offline_mode s /\ w3 (snd r) = w3 s.
Proof.
  rewrite send_data_run. cbv zeta.
  destruct (send_ok world (trace s) data); cbn [fst snd when].
  - repeat split. now rewrite appended_nil, (drain_same_file s (logged _ s)).
  - split; [ now apply save_appended_later | exact (save_fields data _) ].
Qed.

Lemma send_to_blockchain_appended (data : json) (s : Simulator) :
  let r := send_to_blockchain world data true s in
  fst (drain (snd r)) = appended (fst (drain s)) (if fst r then [] else [data]) /\
  offline_mode (snd r) = offline_mode s /\ w3 (snd r) = w3 s.
Proof.
  rewrite send_to_blockchain_run.
  destruct (w3 s) as [ url | ] eqn:Hw; cbv zeta.
  - destruct (w3_is_connected world (trace s)).
    + destruct (transaction_ok world _ data); cbn [fst snd when].
      * repeat split; [ | exact Hw ].
        now rewrite appended_nil, (drain_same_file s (logged _ (logged _ s))).
      * split; [ now apply save_appended_later | ].
        rewrite <- Hw. exact (save_fields data _).
    + cbn [fst snd when]. split; [ now apply save_appended_later | ].
      rewrite <- Hw. exact (save_fields data _).
  - cbn [fst snd when]. split; [ apply save_appended | ].
    rewrite <- Hw. exact (save_fields data _).
Qed.

Lemma send_data_drain (data : json) (items : list json) (s : Simulator) :
  fst (drain s) = JArr items ->
  let r := send_data world data true s in
  fst (drain (snd r)) = JArr (if fst r then items else items ++ [data]) /\
  offline_mode (snd r) = offline_mode s /\ w3 (snd r) = w3 s.
Proof.
  intros Hd. destruct (send_data_appended data s) as (H & Hm & Hw).
  cbv zeta. rewrite H, Hd. split; [ | now split ].
  destruct (fst (send_data world data true s)); cbn; [ now rewrite app_nil_r | reflexivity ].
Qed.

Lemma send_to_blockchain_drain (data : json) (items : list json) (s : Simulator) :
  fst (drain s) = JArr items ->
  let r := send_to_blockchain world data true s in
  fst (drain (snd r)) = JArr (if fst r then items else items ++ [data]) /\
  offline_mode (snd r) = offline_mode s /\ w3 (snd r) = w3 s.
Proof.
  intros Hd. destruct (send_to_blockchain_appended data s) as (H & Hm & Hw).
  cbv zeta. rewrite H, Hd. split; [ | now split ].
  destruct (fst (send_to_blockchain world data true s)); cbn;
    [ now rewrite app_nil_r | reflexivity ].
Qed.

Lemma loop_body_run (d : Generator.Draws) (s : Simulator) :
  loop_body world d s =
  let sensor_data := Generator.create_sensor_data "sensor_01" d in
  if offline_mode s then save_data_offline sensor_data s
  else
    let r1 := send_data world sensor_data true s in
    let r2 := send_to_blockchain world sensor_data true (snd r1) in
    if negb (fst r1) && negb (fst r2)
    then set_offline_mode true (snd r2)
    else (tt, snd r2).
Proof.
  unfold loop_body, bind, read, when, ret. cbn [fst snd].
  destruct (offline_mode s); [ reflexivity | ].
  destruct (send_data world _ true s) as [m s1]. cbn [fst snd].
  destruct (send_to_blockchain world _ true s1) as [b s2]. cbn [fst snd].
  now destruct m, b.
Qed.




(** In a stationary world the result of the two attempts is a function of
    the reading and of the handle. *)
Definition delivered (handle : option string) (data : json) : bool :=
  send_ok world [] data &&
  match handle with
  | None => false
  | Some _ => w3_is_connected world [] && transaction_ok world [] data
  end.

Lemma attempt_stationary (data : json) (s : Simulator) :
  stationary world ->
  resolved (fst (attempt world data s)) = delivered (w3 s) data.
Proof.
  intros [Hp Hc Ht]. unfold attempt, bind, ret, resolved, delivered.
  pose proof (send_data_quiet world data s) as (_ & Hw & _).
  rewrite send_data_run in *. cbv zeta in *.
  assert (Ep : send_ok world (trace s) data = send_ok world [] data).
  { unfold send_ok. now rewrite (Hp (trace s) [] data). }
  rewrite Ep in *.
  destruct (send_ok world [] data); cbn [fst snd when ret] in *.
  - rewrite send_to_blockchain_run. cbn [logged emit snd w3].
    destruct (w3 s); [ | reflexivity ]. cbv zeta.
    rewrite (Hc _ []). destruct (w3_is_connected world []); [ | reflexivity ].
    rewrite (Ht _ [] data). now destruct (transaction_ok world [] data).
  - now destruct (send_to_blockchain world data false _).
Qed.

Lemma retained_stationary (l : list json) :
  stationary world ->
  forall s, retained l (fst (attempts world l s))
            = filter (fun d => negb (delivered (w3 s) d)) l.
Proof.
  intros Hst. induction l as [ | data rest IH ]; intros s; [ reflexivity | ].
  cbn [attempts]. unfold bind, ret.
  pose proof (attempt_stationary data s Hst) as Hr.
  pose proof (attempt_quiet world data s) as (_ & Hw & _).
  destruct (attempt world data s) as [o s1]. cbn [fst snd] in *.
  specialize (IH s1). destruct (attempts world rest s1) as [os s2]. cbn [fst snd] in *.
  unfold retained in *. cbn [combine filter snd]. rewrite Hr.
  rewrite Hw in IH.
  destruct (delivered (w3 s) data); cbn [negb map fst]; now rewrite IH.
Qed.

Lemma filter_idempotent {A : Type} (f : A -> bool) (l : list A) :
  filter f (filter f l) = filter f l.
Proof.
  induction l as [ | a l IH ]; [ reflexivity | ]. simpl.
  destruct (f a) eqn:E; [ | exact IH ]. simpl. now rewrite E, IH.
Qed.

End LoopFacts.

(* ================================================================== *)
(** * Properties of the delivery engine *)

Section EngineProperties.

Context {fp : Generator.Float64} {codec : JsonCodec} (world : World).

(** C1.  A pass of [resync_offline_data] over a buffer that holds a
    non-empty array makes the two attempts for every reading, in the
    order of the array: the broker is handed the readings of the array,
    each once, in that order; with a Web3 handle the ledger is probed
    once per reading, whatever the broker answered, and handed the
    readings whose probe succeeded; without a handle it is never called.
    The message attempt of a reading succeeds exactly when the broker
    acknowledges it and the reading has the temperature and the humidity
    the log line reads; its ledger attempt succeeds exactly when the
    ledger records its transaction.  The pass keeps exactly the readings
    for which the two attempts did not both succeed, in that order; the
    file is rewritten with them, and removed when none is kept. *)
Theorem resync_keeps_unresolved (s : Simulator) (text : string) (items : list json) :
  offline_file s = Some text ->
  json_loads text = Some (JArr items) ->
  items <> [] ->
  let outcomes := fst (attempts world items s) in
  let kept :=
    map fst (filter (fun p => negb (fst (snd p) && snd (snd p))) (combine items outcomes)) in
  let sent := map fst (filter (fun p => fst (snd p)) (combine items outcomes)) in
  let stored := map fst (filter (fun p => snd (snd p)) (combine items outcomes)) in
  let s' := snd (resync_offline_data world s) in
  List.length outcomes = List.length items /\
  published (trace s') = published (trace s) ++ items /\
  (exists acked,
     acknowledged (trace s') = acknowledged (trace s) ++ acked /\
     filter loggable acked = sent) /\
  (exists answers,
     probed (trace s') = probed (trace s) ++ answers /\
     List.length answers = (match w3 s with Some _ => List.length items | None => 0 end) /\
     transactions (trace s') =
       transactions (trace s) ++ map fst (filter snd (combine items answers))) /\
  recorded (trace s') = recorded (trace s) ++ stored /\
  resync_offline_data world s = replace kept (snd (attempts world items s)) /\
  offline_file s' =
    match kept with
    | [] => None
    | _ :: _ => Some (json_dump (JArr kept))
    end.
Proof.
  intros Hf Hl Hne outcomes kept sent stored s'.
  assert (Hrun : resync_offline_data world s = replace kept (snd (attempts world items s))).
  { apply (resync_run world s text (JArr items) items Hf Hl); [ | reflexivity ].
    destruct items; [ now destruct Hne | reflexivity ]. }
  destruct (attempts_channels world items s)
    as ((acked & Ha & Hs) & (answers & Hp & Hn & Hx) & Hr).
  assert (Ht : exists final,
             trace s' = trace (snd (attempts world items s)) ++ final /\
             acknowledged final = [] /\ probed final = [] /\
             transactions final = [] /\ recorded final = []).
  { unfold s'. rewrite Hrun, replace_trace. eexists. split; [ reflexivity | ].
    now destruct kept. }
  destruct Ht as (final & Ht & Fa & Fp & Fx & Fr).
  split; [ apply attempts_length | ].
  split; [ unfold s'; rewrite Hrun, replace_published; apply attempts_published | ].
  split.
  { exists acked. split; [ | exact Hs ].
    now rewrite Ht, acknowledged_app, Fa, app_nil_r. }
  split.
  { exists answers. split; [ now rewrite Ht, probed_app, Fp, app_nil_r | ].
    split; [ exact Hn | ]. now rewrite Ht, transactions_app, Fx, app_nil_r. }
  split; [ now rewrite Ht, recorded_app, Fr, app_nil_r | ].
  split; [ exact Hrun | ].
  unfold s'. rewrite Hrun. apply replace_file.
Qed.

(** C3.  With [allow_offline_save=False] neither send touches the offline
    file; a pass of [resync_offline_data] performs no file operation
    before its last step, which is one rewrite, one removal, or nothing. *)
Theorem resync_never_rebuffers :
  (forall data s, offline_file (snd (send_data world data false s)) = offline_file s) /\
  (forall data s, offline_file (snd (send_to_blockchain world data false s)) = offline_file s) /\
  (forall s, exists sends final,
     trace (snd (resync_offline_data world s)) = trace s ++ sends ++ final /\
     file_events sends = [] /\
     (final = [] \/ final = [RemoveFile] \/ exists text, final = [WriteFile text])).
Proof.
  split; [ | split ].
  - intros data s. now destruct (send_data_quiet world data s) as (_ & _ & H & _).
  - intros data s. now destruct (send_to_blockchain_quiet world data s) as (_ & _ & H & _).
  - intros s. destruct (resync_cases world s) as [ -> | [items ->] ].
    + exists [], []. cbn [snd]. rewrite !app_nil_r. auto.
    + destruct (attempts_quiet world items s) as (_ & _ & _ & sends & Ht & Hq).
      set (kept := retained items _).
      exists sends, (match kept with
                     | [] => [RemoveFile]
                     | _ :: _ => [WriteFile (json_dump (JArr kept))]
                     end).
      rewrite replace_trace, Ht, <- app_assoc. split; [ reflexivity | ].
      split; [ exact Hq | ]. destruct kept; eauto.
Qed.

(** C5.  If the offline file is absent or holds a JSON array, it is so
    again after [save_data_offline] and after [resync_offline_data]. *)
Theorem buffer_stays_an_array (s : Simulator) (data : json) :
  buffer_ok (offline_file s) ->
  buffer_ok (offline_file (snd (save_data_offline data s))) /\
  buffer_ok (offline_file (snd (resync_offline_data world s))).
Proof.
  intros Hok. split.
  - assert (Hd : exists items, fst (drain s) = JArr items).
    { unfold buffer_ok in Hok. destruct (offline_file s) as [ text | ] eqn:Hf.
      - destruct Hok as [items Hl]. exists items. now apply (drain_file s text).
      - exists []. now apply drain_absent. }
    destruct Hd as [items Hd].
    destruct (save_drain data items s Hd) as (_ & -> & _).
    exists (items ++ [data]). apply loads_dump.
  - destruct (resync_cases world s) as [ -> | [items ->] ]; [ exact Hok | ].
    apply buffer_ok_replace.
Qed.

(** C6.  In every state of the buffer, [save_data_offline] followed by a
    read of the buffer gives a list that ends with the saved reading and
    is one longer than the list read before. *)
Theorem append_then_drain (s : Simulator) (data : json) :
  buffer_state (offline_file s) ->
  exists before after,
    fst (drain s) = JArr before /\
    fst (drain (snd (save_data_offline data s))) = JArr after /\
    after = before ++ [data] /\
    List.last after JNull = data /\
    List.length after = S (List.length before).
Proof.
  intros Hs. destruct (buffer_state_drain s Hs) as [before Hd].
  exists before, (before ++ [data]).
  destruct (save_drain data before s Hd) as (Ha & _).
  repeat split; try assumption.
  - apply last_last.
  - rewrite length_app. simpl. lia.
Qed.

(** C10.  When [json.loads] rejects the text of the offline file,
    [resync_offline_data] returns with the simulator, the file and the
    trace as they were: no attempt, no rewrite, no removal.  When the
    stripped text is rejected too, [save_data_offline] overwrites the file
    with the array of the one saved reading. *)
Theorem resync_leaves_undecodable_file (s : Simulator) (text : string) (data : json) :
  offline_file s = Some text ->
  json_loads text = None ->
  resync_offline_data world s = (tt, s) /\
  (json_loads (strip text) = None ->
   offline_file (snd (save_data_offline data s)) = Some (json_dump (JArr [data]))).
Proof.
  intros Hf Hl. split.
  - unfold resync_offline_data, bind, read. cbn [fst snd]. rewrite Hf, Hl.
    now destruct (nonempty text).
  - intros Hs. pose proof (drain_undecodable s text Hf Hs) as Hd.
    now destruct (save_drain data [] s Hd) as (_ & -> & _).
Qed.



(** C7.  In a stationary world, a second pass of [resync_offline_data]
    right after a first one leaves the offline file as the first pass
    left it. *)
Theorem resync_twice (s : Simulator) :
  stationary world ->
  let s1 := snd (resync_offline_data world s) in
  offline_file (snd (resync_offline_data world s1)) = offline_file s1.
Proof.
  intros Hst. cbv zeta.
  destruct (resync_cases world s) as [ E | [items E] ].
  - rewrite E. cbn [snd]. now rewrite E.
  - rewrite E, (retained_stationary world items Hst s).
    set (keep := fun d => negb (delivered world (w3 s) d)).
    set (sa := snd (attempts world items s)).
    assert (Hw : w3 sa = w3 s).
    { now destruct (attempts_quiet world items s) as (_ & H & _). }
    destruct (filter keep items) as [ | r rest ] eqn:Ek.
    + assert (Hf : offline_file (snd (replace [] sa)) = None) by reflexivity.
      unfold resync_offline_data at 1, bind, read. cbn [fst snd]. now rewrite Hf.
    + set (s2 := snd (replace (r :: rest) sa)).
      assert (Hf : offline_file s2 = Some (json_dump (JArr (r :: rest)))) by reflexivity.
      assert (Hw2 : w3 s2 = w3 s) by exact Hw.
      rewrite (resync_run world s2 _ (JArr (r :: rest)) (r :: rest) Hf
                 (loads_dump _) eq_refl eq_refl).
      rewrite (retained_stationary world (r :: rest) Hst s2), Hw2.
      fold keep. rewrite <- Ek, filter_idempotent, Ek.
      now rewrite replace_file.
Qed.

Lemma send_data_result (data : json) (allow : bool) (s : Simulator) :
  fst (send_data world data allow s) = send_ok world (trace s) data.
Proof. rewrite send_data_run. cbv zeta. now destruct (send_ok world (trace s) data). Qed.

Lemma send_data_refused (data : json) (allow : bool) (s : Simulator) :
  publish_ok world (trace s) data = false -> fst (send_data world data allow s) = false.
Proof. intros H. rewrite send_data_result. unfold send_ok. now rewrite H. Qed.



End EngineProperties.

(* ================================================================== *)
(** * Properties of the generator *)

Section GeneratorProperties.

Import Generator.
#[local] Open Scope Q_scope.

Context {fp : Float64}.

Lemma round_half_even_bounds (a b : Z) (x : Q) :
  inject_Z a <= x <= inject_Z b ->
  (a <= round_half_even x <= b)%Z.
Proof.
  intros [Ha Hb]. unfold round_half_even.
  assert (Hfa : (a <= Qfloor x)%Z).
  { rewrite <- (Qfloor_Z a). now apply Qfloor_resp_le. }
  assert (Hfb : (Qfloor x <= b)%Z).
  { rewrite <- (Qfloor_Z b). now apply Qfloor_resp_le. }
  assert (Hup : inject_Z (Qfloor x) < x -> (Qfloor x + 1 <= b)%Z).
  { intros Hlt. assert (H : inject_Z (Qfloor x) < inject_Z b) by lra.
    rewrite <- Zlt_Qlt in H. lia. }
  destruct (Qcompare (x - inject_Z (Qfloor x)) (1 # 2)) eqn:E.
  - apply Qeq_alt in E. destruct (Z.even (Qfloor x)); [ lia | ].
    split; [ lia | ]. apply Hup. lra.
  - lia.
  - apply Qgt_alt in E. split; [ lia | ]. apply Hup. lra.
Qed.

Lemma py_round_bounds (a b : Z) (x : Q) :
  inject_Z a <= x * 100 <= inject_Z b ->
  inject_Z a / 100 <= number_value (py_round x 2) <= inject_Z b / 100.
Proof.
  intros H. unfold number_value, py_round. cbn [mantissa scale].
  change (inject_Z (10 ^ Z.of_nat 2)) with 100.
  destruct (round_half_even_bounds a b (x * 100) H) as [H1 H2].
  rewrite Zle_Qle in H1, H2.
  split; apply Qmult_le_compat_r; [ exact H1 | easy | exact H2 | easy ].
Qed.

Lemma clamp_bounds (x : Q) : 20 <= py_max 20 (py_min 90 x) <= 90.
Proof.
  unfold py_max, py_min.
  destruct (x ?= 90) eqn:E1.
  - now destruct (90 ?= 20) eqn:E2.
  - apply Qlt_alt in E1. destruct (x ?= 20) eqn:E2.
    + lra.
    + lra.
    + apply Qgt_alt in E2. lra.
  - now destruct (90 ?= 20) eqn:E2.
Qed.

(** Rounding stays between two half-integers. *)
Lemma rnd_between (a b : Z) (x : Q) :
  (Z.abs a <= 2 ^ 53)%Z -> (Z.abs b <= 2 ^ 53)%Z ->
  a # 2 <= x <= b # 2 -> a # 2 <= rnd x <= b # 2.
Proof.
  intros Ha Hb [H1 H2]. split.
  - apply Qle_trans with (rnd (a # 2)); [ | now apply rnd_monotone ].
    rewrite (rnd_exact a Ha). apply Qle_refl.
  - apply Qle_trans with (rnd (b # 2)); [ now apply rnd_monotone | ].
    rewrite (rnd_exact b Hb). apply Qle_refl.
Qed.

(** A value rounded to two decimals stays between two half-integers, as
    a decimal and as the float read from it. *)
Lemma py_round_between (a b : Z) (x : Q) :
  (Z.abs a <= 2 ^ 53)%Z -> (Z.abs b <= 2 ^ 53)%Z ->
  a # 2 <= x <= b # 2 ->
  a # 2 <= number_value (py_round x 2) <= b # 2 /\
  a # 2 <= float_of_number (py_round x 2) <= b # 2.
Proof.
  intros Ha Hb Hx.
  assert (Hd : a # 2 <= number_value (py_round x 2) <= b # 2).
  { destruct (py_round_bounds (a * 50) (b * 50) x) as [H1 H2].
    - rewrite !inject_Z_mult. unfold inject_Z.
      assert (E : forall z, (z # 1) * (50 # 1) == (z # 2) * 100).
      { intros z. unfold Qeq, Qmult. simpl. lia. }
      rewrite !E. destruct Hx. split; apply Qmult_le_compat_r; easy.
    - assert (E : forall z, inject_Z (z * 50) / 100 == z # 2).
      { intros z. unfold Qeq, Qdiv, Qmult, Qinv, inject_Z. simpl. lia. }
      rewrite !E in *. now split. }
  split; [ exact Hd | ]. now apply rnd_between.
Qed.

(** C8.  For a draw of [random.uniform(-5, 8)] in its range and any draw
    of [random.normalvariate(50, 15)], the reading built by
    [create_sensor_data] carries the values of [generate_temperature] and
    [generate_humidity]: a temperature in [17.5, 30.5] and a humidity in
    [20, 90], as the decimals written in the reading and as the floats
    they stand for. *)
Theorem generated_values_in_range (sensor_id : string) (d : Draws) :
  -5 <= uniform d <= 8 ->
  exists temperature humidity,
    field "temperature" (create_sensor_data sensor_id d) = Some (JNum temperature) /\
    field "humidity" (create_sensor_data sensor_id d) = Some (JNum humidity) /\
    temperature = py_round (rnd (22.5 + uniform d)) 2 /\
    humidity = py_round (py_max 20 (py_min 90 (normalvariate d))) 2 /\
    (17.5 <= number_value temperature <= 30.5 /\
     17.5 <= float_of_number temperature <= 30.5) /\
    (20 <= number_value humidity <= 90 /\
     20 <= float_of_number humidity <= 90).
Proof.
  intros Hu.
  exists (generate_temperature (uniform d)), (generate_humidity (normalvariate d)).
  do 4 (split; [ reflexivity | ]). split.
  - unfold generate_temperature.
    assert (Hs : 35 # 2 <= rnd (22.5 + uniform d) <= 61 # 2).
    { apply rnd_between; [ now vm_compute | now vm_compute | lra ]. }
    destruct (py_round_between 35 61 _ ltac:(now vm_compute) ltac:(now vm_compute) Hs)
      as [H1 H2].
    split; lra.
  - unfold generate_humidity.
    pose proof (clamp_bounds (normalvariate d)) as Hc.
    assert (Hs : 40 # 2 <= py_max 20 (py_min 90 (normalvariate d)) <= 180 # 2) by lra.
    destruct (py_round_between 40 180 _ ltac:(now vm_compute) ltac:(now vm_compute) Hs)
      as [H1 H2].
    split; lra.
Qed.

End GeneratorProperties.

(* ================================================================== *)
(** * The properties on examples *)

Section Witnesses.

Import Examples.

Lemma resync_keeps_unresolved_witness :
  offline_file mixed = Some (Reference.dump (JArr [reading1; stray; reading2])) /\
  json_loads (Reference.dump (JArr [reading1; stray; reading2]))
    = Some (JArr [reading1; stray; reading2]) /\
  [reading1; stray; reading2] <> [] /\
  published (trace (snd (resync_offline_data world_up mixed))) = [reading1; stray; reading2] /\
  recorded (trace (snd (resync_offline_data world_up mixed))) = [reading1; stray; reading2] /\
  offline_file (snd (resync_offline_data world_up mixed)) = Some (json_dump (JArr [stray])).
Proof.
  assert (H1 : offline_file mixed
               = Some (Reference.dump (JArr [reading1; stray; reading2])))
    by reflexivity.
  assert (H2 : json_loads (Reference.dump (JArr [reading1; stray; reading2]))
               = Some (JArr [reading1; stray; reading2]))
    by (vm_compute; reflexivity).
  assert (H3 : [reading1; stray; reading2] <> []) by discriminate.
  split; [ exact H1 | split; [ exact H2 | split; [ exact H3 | ] ] ].
  destruct (resync_keeps_unresolved world_up mixed _ _ H1 H2 H3)
    as (_ & Hp & _ & _ & Hr & _ & Hf).
  split; [ exact Hp | split; [ exact Hr | exact Hf ] ].
Defined.




Lemma buffer_stays_an_array_witness :
  buffer_ok (offline_file buffered) /\
  buffer_ok (offline_file (snd (save_data_offline reading1 buffered))) /\
  buffer_ok (offline_file (snd (resync_offline_data world_flaky buffered))).
Proof.
  assert (H0 : buffer_ok (offline_file buffered)).
  { exists [reading1; reading2; reading3]. vm_compute. reflexivity. }
  split; [ exact H0 | ].
  exact (buffer_stays_an_array world_flaky buffered reading1 H0).
Defined.

Lemma append_then_drain_witness :
  buffer_state (offline_file damaged) /\
  exists before after,
    fst (drain damaged) = JArr before /\
    fst (drain (snd (save_data_offline reading1 damaged))) = JArr after /\
    after = before ++ [reading1] /\
    List.last after JNull = reading1 /\
    List.length after = S (List.length before).
Proof.
  assert (H0 : buffer_state (offline_file damaged)).
  { intros j Hj. vm_compute in Hj. discriminate Hj. }
  split; [ exact H0 | ].
  exact (append_then_drain damaged reading1 H0).
Defined.

Lemma resync_twice_witness :
  stationary world_picky /\
  offline_file (snd (resync_offline_data world_picky
                       (snd (resync_offline_data world_picky buffered))))
    = offline_file (snd (resync_offline_data world_picky buffered)) /\
  offline_file (snd (resync_offline_data world_picky buffered))
    = Some (json_dump (JArr [reading3])).
Proof.
  assert (H0 : stationary world_picky) by (constructor; reflexivity).
  split; [ exact H0 | ].
  split; [ exact (resync_twice world_picky buffered H0) | reflexivity ].
Defined.

Lemma generated_values_in_range_witness :
  (-5 <= Generator.uniform draw1 <= 8)%Q /\
  exists temperature humidity,
    field "temperature" reading1 = Some (JNum temperature) /\
    field "humidity" reading1 = Some (JNum humidity) /\
    temperature = Number 2387 2 /\
    humidity = Number 4726 2 /\
    (17.5 <= number_value temperature <= 30.5)%Q /\
    (20 <= number_value humidity <= 90)%Q.
Proof.
  assert (H0 : (-5 <= Generator.uniform draw1 <= 8)%Q).
  { split; unfold Qle; simpl; lia. }
  split; [ exact H0 | ].
  destruct (generated_values_in_range "sensor_01" draw1 H0)
    as (t & h & Ht & Hh & Et & Eh & (Bt & _) & (Bh & _)).
  exists t, h.
  split; [ exact Ht | split; [ exact Hh | ] ].
  split; [ rewrite Et; reflexivity | split; [ rewrite Eh; reflexivity | ] ].
  split; [ exact Bt | exact Bh ].
Defined.



Lemma resync_leaves_undecodable_file_witness :
  offline_file damaged = Some "not json" /\
  json_loads "not json" = None /\
  json_loads (strip "not json") = None /\
  resync_offline_data world_up damaged = (tt, damaged) /\
  offline_file (snd (save_data_offline reading1 damaged))
    = Some (json_dump (JArr [reading1])).
Proof.
  assert (H1 : offline_file damaged = Some "not json") by reflexivity.
  assert (H2 : json_loads "not json" = None) by (vm_compute; reflexivity).
  assert (H3 : json_loads (strip "not json") = None) by (vm_compute; reflexivity).
  destruct (resync_leaves_undecodable_file world_up damaged "not json" reading1 H1 H2)
    as [Ha Hb].
  split; [ exact H1 | split; [ exact H2 | split; [ exact H3 | ] ] ].
  split; [ exact Ha | exact (Hb H3) ].
Defined.

(** A run that cannot connect starts in Offline mode and appends each
    reading once, without any attempt. *)
Example run_offline :
  let s := snd (run_simulation world_down [draw1; draw2; draw3] fresh) in
  offline_mode s = true /\
  fst (drain s) = JArr [reading1; reading2; reading3] /\
  published (trace s) = [].
Proof. vm_compute. repeat split. Qed.

(** A run that connects and then loses both channels: the first reading
    is appended twice, the mode becomes Offline, the next readings are
    appended once. *)
Example run_cut :
  let s := snd (run_simulation world_cut [draw1; draw2; draw3] fresh) in
  offline_mode s = true /\
  fst (drain s) = JArr [reading1; reading1; reading2; reading3] /\
  published (trace s) = [reading1].
Proof. vm_compute. repeat split. Qed.

(** A run that connects with both channels up empties the buffer at
    startup and buffers nothing. *)
Example run_up :
  let s := snd (run_simulation world_up [draw1; draw2] buffered) in
  offline_mode s = false /\
  offline_file s = None /\
  published (trace s) = [reading1; reading2; reading3; reading1; reading2].
Proof. vm_compute. repeat split. Qed.

(** A file that holds a JSON document other than an array is outside the
    states of the buffer: a save leaves it as it is. *)
Example save_into_object :
  ~ buffer_state (offline_file misused) /\
  save_data_offline reading1 misused = (tt, misused).
Proof.
  split; [ | reflexivity ].
  intros H. destruct (H (JObj []) eq_refl) as [items Hi]. discriminate Hi.
Qed.

(** After a no-break space [json.loads] rejects the text and
    [resync_offline_data] leaves the file; [save_data_offline] strips the
    space, reads the array and appends to it. *)
Example save_after_no_break_space :
  json_loads (String.append no_break_space (Reference.dump (JArr [reading1]))) = None /\
  resync_offline_data world_up padded = (tt, padded) /\
  fst (drain padded) = JArr [reading1] /\
  offline_file (snd (save_data_offline reading2 padded))
    = Some (json_dump (JArr [reading1; reading2])).
Proof. vm_compute. repeat split. Qed.

End Witnesses.

(* ================================================================== *)
(** * The whole run *)

Definition GANACHE_URL : string := "HTTP://127.0.0.1:7545".

(** [main], lines 286-309: a simulator with the ledger endpoint
    configured, run until the operator interrupts.  [file] is the text
    found at the offline path when the process starts. *)
Definition main {fp : Generator.Float64} {codec : JsonCodec} (world : World)
    (file : option string) (draws : list Generator.Draws) : Simulator :=
  snd (run_simulation world draws (init world (Some GANACHE_URL) file)).

(** Events other than the opening and the closing of the broker session. *)
Definition inner (e : event) : bool :=
  match e with
  | Connect _ | Disconnect => false
  | _ => true
  end.

(** Every publish is acknowledged, every probe and every transaction
    succeeds. *)
Record reliable (w : World) : Prop := {
  publish_up : forall h d, publish_ok w h d = true;
  connected_up : forall h, w3_is_connected w h = true;
  transaction_up : forall h d, transaction_ok w h d = true
}.

(** The document the offline file holds, if any. *)
Definition json_loads_file {codec : JsonCodec} (s : Simulator) : option json :=
  match offline_file s with
  | Some text => json_loads text
  | None => None
  end.

(** No publish is acknowledged and every probe of the ledger fails. *)
Record unreachable (w : World) : Prop := {
  publish_down : forall h d, publish_ok w h d = false;
  connected_down : forall h, w3_is_connected w h = false
}.

Section RunFacts.

Context {fp : Generator.Float64} {codec : JsonCodec} (world : World).

(** A step keeps the handle and adds inner events to the trace. *)
Definition advances (s s' : Simulator) : Prop :=
  w3 s' = w3 s /\
  exists events, trace s' = trace s ++ events /\ forallb inner events = true.

Lemma advances_refl (s : Simulator) : advances s s.
Proof. split; [ reflexivity | ]. exists []. now rewrite app_nil_r. Qed.

Lemma advances_trans (s1 s2 s3 : Simulator) :
  advances s1 s2 -> advances s2 s3 -> advances s1 s3.
Proof.
  intros (Hw & e & He & Hi) (Hw' & e' & He' & Hi'). split; [ congruence | ].
  exists (e ++ e'). split.
  - now rewrite He', He, app_assoc.
  - now rewrite forallb_app, Hi, Hi'.
Qed.

Lemma advances_logged (e : event) (s : Simulator) :
  inner e = true -> advances s (logged e s).
Proof.
  intros He. split; [ reflexivity | ]. exists [e]. split; [ reflexivity | ].
  cbn. now rewrite He.
Qed.

Lemma advances_save (data : json) (s : Simulator) :
  advances s (snd (save_data_offline data s)).
Proof.
  unfold save_data_offline, bind. rewrite drain_run.
  destruct (fst (drain s)); try apply advances_refl.
  rewrite write_file_run. split; [ reflexivity | ].
  eexists. split; [ reflexivity | reflexivity ].
Qed.

Lemma advances_when_save (allow : bool) (data : json) (s : Simulator) :
  advances s (snd (when allow (save_data_offline data) s)).
Proof. destruct allow; [ apply advances_save | apply advances_refl ]. Qed.

Lemma advances_send_data (data : json) (allow : bool) (s : Simulator) :
  advances s (snd (send_data world data allow s)).
Proof.
  rewrite send_data_run. cbv zeta.
  destruct (send_ok world (trace s) data); cbn [snd].
  - now apply advances_logged.
  - eapply advances_trans; [ | apply advances_when_save ]. now apply advances_logged.
Qed.

Lemma advances_send_to_blockchain (data : json) (allow : bool) (s : Simulator) :
  advances s (snd (send_to_blockchain world data allow s)).
Proof.
  rewrite send_to_blockchain_run.
  destruct (w3 s); [ cbv zeta | apply advances_when_save ].
  destruct (w3_is_connected world (trace s)).
  - destruct (transaction_ok world _ data); cbn [snd].
    + eapply advances_trans; [ | now apply advances_logged ].
      now apply advances_logged.
    + eapply advances_trans; [ | apply advances_when_save ].
      eapply advances_trans; [ | now apply advances_logged ].
      now apply advances_logged.
  - cbn [snd].
    eapply advances_trans; [ | apply advances_when_save ]. now apply advances_logged.
Qed.

Lemma advances_attempts (l : list json) :
  forall s, advances s (snd (attempts world l s)).
Proof.
  induction l as [ | data rest IH ]; intros s; [ apply advances_refl | ].
  cbn [attempts]. unfold bind, ret, attempt. unfold bind, ret.
  pose proof (advances_send_data data false s) as H1.
  destruct (send_data world data false s) as [m s1]. cbn [snd] in H1.
  pose proof (advances_send_to_blockchain data false s1) as H2.
  destruct (send_to_blockchain world data false s1) as [b s2]. cbn [snd] in H2.
  pose proof (IH s2) as H3.
  destruct (attempts world rest s2) as [os s3]. cbn [snd] in *.
  eapply advances_trans; [ exact H1 | ]. eapply advances_trans; eassumption.
Qed.

Lemma advances_replace (readings : list json) (s : Simulator) :
  advances s (snd (replace readings s)).
Proof.
  split; [ now destruct readings | ].
  eexists. split; [ apply replace_trace | now destruct readings ].
Qed.

Lemma advances_resync (s : Simulator) :
  advances s (snd (resync_offline_data world s)).
Proof.
  destruct (resync_cases world s) as [ -> | [items ->] ]; [ apply advances_refl | ].
  eapply advances_trans; [ apply advances_attempts | apply advances_replace ].
Qed.

Lemma advances_loop_body (d : Generator.Draws) (s : Simulator) :
  advances s (snd (loop_body world d s)).
Proof.
  rewrite loop_body_run. cbv zeta.
  destruct (offline_mode s); [ apply advances_save | ].
  set (data := Generator.create_sensor_data "sensor_01" d).
  pose proof (advances_send_data data true s) as H1.
  pose proof (advances_send_to_blockchain data true (snd (send_data world data true s)))
    as H2.
  assert (H : advances s (snd (send_to_blockchain world data true
                                 (snd (send_data world data true s)))))
    by (eapply advances_trans; eassumption).
  destruct (negb _ && negb _); [ | exact H ].
  eapply advances_trans; [ exact H | ]. split; [ reflexivity | ].
  exists []. cbn. now rewrite app_nil_r.
Qed.

Lemma advances_simulation_loop (draws : list Generator.Draws) :
  forall s, advances s (snd (simulation_loop world draws s)).
Proof.
  induction draws as [ | d draws IH ]; intros s; [ apply advances_refl | ].
  cbn [simulation_loop]. unfold bind.
  pose proof (advances_loop_body d s) as H1.
  destruct (loop_body world d s) as [u s1]. cbn [snd] in H1.
  eapply advances_trans; [ exact H1 | apply IH ].
Qed.

End RunFacts.

(* ------------------------------------------------------------------ *)
(** ** What a save and a send leave alone *)

Section RunProperties.

Context {fp : Generator.Float64} {codec : JsonCodec} (world : World).

Lemma save_trace (data : json) (s : Simulator) :
  trace (snd (save_data_offline data s)) = trace s \/
  exists text, trace (snd (save_data_offline data s)) = trace s ++ [WriteFile text].
Proof.
  unfold save_data_offline, bind. rewrite drain_run.
  destruct (fst (drain s)); try (now left).
  right. eexists. now rewrite write_file_run.
Qed.

Lemma when_save_calls (allow : bool) (data : json) (s : Simulator) :
  let s' := snd (when allow (save_data_offline data) s) in
  published (trace s') = published (trace s) /\
  transactions (trace s') = transactions (trace s) /\
  offline_mode s' = offline_mode s.
Proof.
  destruct allow; [ | now cbn ]. cbn [when].
  destruct (save_fields data s) as [Hm _].
  destruct (save_trace data s) as [ -> | [text ->] ]; [ now rewrite Hm | ].
  rewrite published_app, transactions_app, Hm. cbn. now rewrite !app_nil_r.
Qed.

Lemma send_data_mode (data : json) (allow : bool) (s : Simulator) :
  offline_mode (snd (send_data world data allow s)) = offline_mode s.
Proof.
  rewrite send_data_run. cbv zeta.
  destruct (send_ok world (trace s) data); cbn [snd]; [ reflexivity | ].
  now destruct (when_save_calls allow data (logged (Publish data
    (mqtt_publish world (trace s) data)) s)) as (_ & _ & ->).
Qed.

Lemma send_to_blockchain_mode (data : json) (allow : bool) (s : Simulator) :
  offline_mode (snd (send_to_blockchain world data allow s)) = offline_mode s.
Proof.
  rewrite send_to_blockchain_run.
  destruct (w3 s); cbv zeta.
  - destruct (w3_is_connected world (trace s)).
    + destruct (transaction_ok world _ data); cbn [snd]; [ reflexivity | ].
      now destruct (when_save_calls allow data
        (logged (SendTransaction data (w3_send_transaction world
           (trace (logged (IsConnected true) s)) data))
           (logged (IsConnected true) s))) as (_ & _ & ->).
    + cbn [snd].
      now destruct (when_save_calls allow data (logged (IsConnected false) s))
        as (_ & _ & ->).
  - cbn [snd]. now destruct (when_save_calls allow data s) as (_ & _ & ->).
Qed.

Lemma run_simulation_run (draws : list Generator.Draws) (s : Simulator) :
  run_simulation world draws s =
  let connected := mqtt_connect world (trace s) in
  let s1 := snd (set_offline_mode (negb connected) (logged (Connect connected) s)) in
  let s2 := snd (when connected (resync_offline_data world) s1) in
  let s3 := snd (simulation_loop world draws s2) in
  (tt, logged Disconnect s3).
Proof.
  unfold run_simulation, connect, disconnect, bind, read, ret, logged,
    set_offline_mode, emit. cbn [fst snd].
  destruct (when (mqtt_connect world (trace s)) (resync_offline_data world) _) as [u s2].
  cbn [snd]. now destruct (simulation_loop world draws s2) as [u' s3].
Qed.

(** In Offline mode the loop saves each reading once, in order, and
    calls neither channel. *)
Lemma offline_loop_appends (draws : list Generator.Draws) :
  forall s,
  offline_mode s = true ->
  let s' := snd (simulation_loop world draws s) in
  offline_mode s' = true /\
  fst (drain s') =
    appended (fst (drain s)) (map (Generator.create_sensor_data "sensor_01") draws) /\
  channel_events (trace s') = channel_events (trace s).
Proof.
  induction draws as [ | d draws IH ]; intros s Hm.
  - cbn. now rewrite appended_nil.
  - cbn [simulation_loop map]. unfold bind.
    set (data := Generator.create_sensor_data "sensor_01" d).
    assert (Hb : let s1 := snd (loop_body world d s) in
                 offline_mode s1 = true /\ fst (drain s1) = appended (fst (drain s)) [data] /\
                 channel_events (trace s1) = channel_events (trace s)).
    { rewrite loop_body_run. cbv zeta. rewrite Hm. fold data.
      destruct (save_fields data s) as (H2 & _).
      split; [ congruence | split; [ apply save_appended | apply save_channel_events ] ]. }
    destruct (loop_body world d s) as [u s1]. cbn [snd] in Hb.
    destruct Hb as (Hm1 & Hd1 & Hc1).
    destruct (IH s1 Hm1) as (H1 & H2 & H3).
    cbv zeta. now rewrite H2, Hd1, appended_app, H3.
Qed.

(* ------------------------------------------------------------------ *)
(** ** Properties of a run *)

(** X1.  A run of [run_simulation] opens the broker session first and
    closes it last: its trace is the [Connect] call, then calls none of
    which opens or closes the session, then one [Disconnect]. *)
Theorem run_opens_and_closes_session (draws : list Generator.Draws) (s : Simulator) :
  exists middle,
    trace (snd (run_simulation world draws s))
    = trace s ++ Connect (mqtt_connect world (trace s)) :: middle ++ [Disconnect] /\
    forallb inner middle = true.
Proof.
  rewrite run_simulation_run. cbv zeta. cbn [snd].
  set (c := mqtt_connect world (trace s)).
  set (s1 := snd (set_offline_mode (negb c) (logged (Connect c) s))).
  assert (H2 : advances s1 (snd (when c (resync_offline_data world) s1))).
  { destruct c; [ apply advances_resync | apply advances_refl ]. }
  set (s2 := snd (when c (resync_offline_data world) s1)) in *.
  pose proof (advances_simulation_loop world draws s2) as H3.
  destruct (advances_trans _ _ _ H2 H3) as (_ & middle & Ht & Hi).
  exists middle. split; [ | exact Hi ].
  unfold logged at 1. cbn [emit snd trace]. rewrite Ht.
  unfold s1, logged. cbn [set_offline_mode emit snd trace].
  now rewrite <- !app_assoc.
Qed.

(** X2.  When the broker cannot be reached at startup the run is Offline
    from the first pass: no resynchronisation, no publish, no probe and no
    transaction.  Each reading is saved once, in order: appended to a
    buffer that reads as a list (file absent, blank, undecodable or an
    array), while a file that holds another JSON document stays as it
    is. *)
Theorem run_without_connection (draws : list Generator.Draws) (s : Simulator) :
  mqtt_connect world (trace s) = false ->
  let s' := snd (run_simulation world draws s) in
  offline_mode s' = true /\
  fst (drain s') =
    appended (fst (drain s)) (map (Generator.create_sensor_data "sensor_01") draws) /\
  channel_events (trace s') = channel_events (trace s) ++ [Connect false; Disconnect].
Proof.
  intros Hc. rewrite run_simulation_run. cbv zeta. rewrite Hc. cbn [negb when ret snd].
  set (s1 := snd (set_offline_mode true (logged (Connect false) s))).
  assert (Hd1 : fst (drain s1) = fst (drain s)).
  { now rewrite (drain_same_file s s1). }
  destruct (offline_loop_appends draws s1 eq_refl) as (H1 & H2 & H3).
  split; [ exact H1 | ]. split.
  - rewrite (drain_same_file (snd (simulation_loop world draws s1)) (logged _ _))
      by reflexivity.
    now rewrite H2, Hd1.
  - unfold logged at 1. cbn [emit snd trace]. unfold channel_events in *.
    rewrite filter_app, H3. unfold s1, logged. cbn [set_offline_mode emit snd trace].
    rewrite filter_app. cbn. now rewrite <- app_assoc.
Qed.

(** [run_simulation] sets the mode from the result of [connect] alone. *)
Lemma run_simulation_resets_mode (draws : list Generator.Draws) (s : Simulator) (b : bool) :
  run_simulation world draws (snd (set_offline_mode b s)) = run_simulation world draws s.
Proof. now rewrite !run_simulation_run. Qed.

(** X5.  A pass of the loop body in Online mode ends in Offline mode
    exactly when both sends failed: one failing channel never changes the
    mode. *)
Theorem offline_exactly_when_both_fail (d : Generator.Draws) (s : Simulator) :
  offline_mode s = false ->
  let sensor_data := Generator.create_sensor_data "sensor_01" d in
  let r1 := send_data world sensor_data true s in
  let r2 := send_to_blockchain world sensor_data true (snd r1) in
  offline_mode (snd (loop_body world d s)) = negb (fst r1) && negb (fst r2).
Proof.
  intros Hm sensor_data r1 r2. rewrite loop_body_run. cbv zeta. rewrite Hm.
  fold sensor_data. fold r1. fold r2.
  destruct (negb (fst r1) && negb (fst r2)); [ reflexivity | ]. cbn [snd].
  unfold r2. rewrite send_to_blockchain_mode. unfold r1.
  now rewrite send_data_mode.
Qed.

(** X8.  When the offline file holds a JSON document that is not an
    array, [save_data_offline] writes nothing and reports nothing to its
    caller; in Offline mode the loop then leaves the simulator as it is,
    whatever the number of readings: they are lost. *)
Theorem readings_lost_on_non_array_file (s : Simulator) (text : string) (j : json) :
  offline_file s = Some text ->
  json_loads (strip text) = Some j ->
  (forall items, j <> JArr items) ->
  (forall data, save_data_offline data s = (tt, s)) /\
  (offline_mode s = true -> forall draws, simulation_loop world draws s = (tt, s)).
Proof.
  intros Hf Hl Hj.
  assert (Hd : fst (drain s) = j).
  { unfold drain, bind, read, ret. cbn [fst snd].
    now rewrite Hf, (loads_nonempty _ _ Hl), Hl. }
  assert (Hs : forall data, save_data_offline data s = (tt, s)).
  { intros data. apply save_not_list. now rewrite Hd. }
  split; [ exact Hs | ]. intros Hm draws.
  induction draws as [ | d draws IH ]; [ reflexivity | ].
  cbn [simulation_loop]. unfold bind. rewrite loop_body_run. cbv zeta.
  now rewrite Hm, Hs.
Qed.

(** X9.  [resync_offline_data] never changes the mode nor the handle,
    whatever the outcome of its attempts: a pass in which every attempt
    fails leaves an Online simulator Online. *)
Theorem resync_keeps_mode (s : Simulator) :
  offline_mode (snd (resync_offline_data world s)) = offline_mode s /\
  w3 (snd (resync_offline_data world s)) = w3 s.
Proof.
  destruct (resync_cases world s) as [ -> | [items ->] ]; [ now split | ].
  destruct (attempts_quiet world items s) as (Hm & Hw & _).
  set (kept := retained items _). set (sa := snd (attempts world items s)) in *.
  destruct kept; cbn; now split.
Qed.

(** X12.  [__init__] creates the handle exactly when a non-empty ledger
    URL is given, probes the connection once in that case only, and
    starts in Offline mode exactly when that probe fails. *)
Theorem init_state (ganache_url : option string) (file : option string) :
  let s := init world ganache_url file in
  let configured :=
    match ganache_url with
    | Some url => nonempty url
    | None => false
    end in
  w3 s = (if configured then ganache_url else None) /\
  offline_mode s = configured && negb (w3_is_connected world []) /\
  trace s = (if configured then [IsConnected (w3_is_connected world [])] else []) /\
  offline_file s = file.
Proof.
  unfold init. destruct ganache_url as [ url | ]; [ | now cbn ].
  destruct (nonempty url) eqn:E; [ | now cbn ].
  unfold is_connected, bind, read, ret, emit. cbn [fst snd trace].
  now destruct (w3_is_connected world []).
Qed.

(** X15.  [resync_offline_data] does nothing at all, with no attempt,
    when the offline file is absent, is empty, or holds a document that
    Python takes as false: a file holding the empty array is neither
    removed nor rewritten. *)
Theorem resync_does_nothing_on_empty (s : Simulator) :
  offline_file s = None \/
  offline_file s = Some EmptyString \/
  (exists text j,
     offline_file s = Some text /\ json_loads text = Some j /\ truthy j = false) ->
  resync_offline_data world s = (tt, s).
Proof.
  unfold resync_offline_data, bind, read. cbn [fst snd].
  intros [ -> | [ -> | (text & j & -> & Hl & Ht) ] ]; try reflexivity.
  rewrite (loads_nonempty _ _ Hl). cbn [negb]. now rewrite Hl, Ht.
Qed.

(* ------------------------------------------------------------------ *)
(** ** Runs in worlds that always answer the same way *)

Lemma published_logged (e : event) (s : Simulator) :
  published (trace (logged e s)) = published (trace s) ++ published [e].
Proof. unfold logged. cbn [emit snd trace]. apply published_app. Qed.

Lemma transactions_logged (e : event) (s : Simulator) :
  transactions (trace (logged e s)) = transactions (trace s) ++ transactions [e].
Proof. unfold logged. cbn [emit snd trace]. apply transactions_app. Qed.

(** What one send hands to the broker and to the ledger. *)
Lemma send_data_calls (data : json) (allow : bool) (s : Simulator) :
  let s' := snd (send_data world data allow s) in
  published (trace s') = published (trace s) ++ [data] /\
  transactions (trace s') = transactions (trace s).
Proof.
  rewrite send_data_run. cbv zeta.
  set (s1 := logged (Publish data (mqtt_publish world (trace s) data)) s).
  assert (H1 : published (trace s1) = published (trace s) ++ [data])
    by apply published_logged.
  assert (H2 : transactions (trace s1) = transactions (trace s)).
  { unfold s1. rewrite transactions_logged. cbn. apply app_nil_r. }
  destruct (send_ok world (trace s) data); cbn [snd]; [ now split | ].
  destruct (when_save_calls allow data s1) as (-> & -> & _). now split.
Qed.

Lemma send_to_blockchain_calls (data : json) (allow : bool) (s : Simulator) :
  let guard :=
    match w3 s with
    | Some _ => w3_is_connected world (trace s)
    | None => false
    end in
  let r := send_to_blockchain world data allow s in
  transactions (trace (snd r)) = transactions (trace s) ++ (if guard then [data] else []) /\
  published (trace (snd r)) = published (trace s) /\
  fst r = guard && transaction_ok world (trace s ++ [IsConnected true]) data.
Proof.
  rewrite send_to_blockchain_run.
  destruct (w3 s); cbv zeta.
  - destruct (w3_is_connected world (trace s)).
    + set (s1 := logged (IsConnected true) s).
      set (s2 := logged (SendTransaction data _) s1).
      assert (H1 : transactions (trace s2) = transactions (trace s) ++ [data]).
      { unfold s2, s1. rewrite !transactions_logged. cbn. now rewrite app_nil_r. }
      assert (H2 : published (trace s2) = published (trace s)).
      { unfold s2, s1. rewrite !published_logged. cbn. now rewrite !app_nil_r. }
      change (trace s1) with (trace s ++ [IsConnected true]).
      destruct (transaction_ok world (trace s ++ [IsConnected true]) data);
        cbn [fst snd andb]; [ now repeat split | ].
      destruct (when_save_calls allow data s2) as (-> & -> & _). now repeat split.
    + cbn [fst snd andb].
      destruct (when_save_calls allow data (logged (IsConnected false) s)) as (-> & -> & _).
      rewrite published_logged, transactions_logged. cbn. now rewrite !app_nil_r.
  - cbn [fst snd andb]. destruct (when_save_calls allow data s) as (-> & -> & _).
    now rewrite app_nil_r.
Qed.

Lemma reliable_send_data (data : json) (allow : bool) (s : Simulator) :
  reliable world -> fst (send_data world data allow s) = loggable data.
Proof. intros [Hp _ _]. rewrite send_data_result. unfold send_ok. now rewrite Hp. Qed.

Lemma replace_fields (readings : list json) (s : Simulator) :
  offline_mode (snd (replace readings s)) = offline_mode s /\
  w3 (snd (replace readings s)) = w3 s.
Proof. now destruct readings. Qed.

Lemma replace_transactions (readings : list json) (s : Simulator) :
  transactions (trace (snd (replace readings s))) = transactions (trace s).
Proof.
  rewrite replace_trace, transactions_app.
  destruct readings; cbn; now rewrite app_nil_r.
Qed.

Lemma reliable_send_to_blockchain (data : json) (allow : bool) (s : Simulator) :
  reliable world -> w3 s <> None ->
  fst (send_to_blockchain world data allow s) = true.
Proof.
  intros [_ Hc Ht] Hw.
  destruct (send_to_blockchain_calls data allow s) as (_ & _ & ->).
  destruct (w3 s); [ | now destruct Hw ]. now rewrite Hc, Ht.
Qed.

(** A send that succeeds leaves the file, the mode and the handle. *)
Lemma send_data_success (data : json) (allow : bool) (s : Simulator) :
  fst (send_data world data allow s) = true ->
  offline_file (snd (send_data world data allow s)) = offline_file s /\
  w3 (snd (send_data world data allow s)) = w3 s.
Proof.
  rewrite send_data_run. cbv zeta.
  destruct (send_ok world (trace s) data); [ now split | discriminate ].
Qed.

Lemma send_to_blockchain_success (data : json) (allow : bool) (s : Simulator) :
  fst (send_to_blockchain world data allow s) = true ->
  offline_file (snd (send_to_blockchain world data allow s)) = offline_file s /\
  w3 (snd (send_to_blockchain world data allow s)) = w3 s.
Proof.
  rewrite send_to_blockchain_run.
  destruct (w3 s) eqn:Hw; cbv zeta; [ | discriminate ].
  destruct (w3_is_connected world (trace s)); [ | discriminate ].
  destruct (transaction_ok world _ data); [ | discriminate ].
  intros _. cbn. now rewrite Hw.
Qed.

Lemma reliable_attempts (l : list json) :
  reliable world ->
  forall s, w3 s <> None ->
  retained l (fst (attempts world l s)) = filter (fun d => negb (loggable d)) l /\
  transactions (trace (snd (attempts world l s))) = transactions (trace s) ++ l.
Proof.
  intros Hr. induction l as [ | data rest IH ]; intros s Hw.
  - cbn. now rewrite app_nil_r.
  - cbn [attempts]. unfold bind, ret, attempt. unfold bind, ret.
    pose proof (reliable_send_data data false s Hr) as Hm.
    destruct (send_data_calls data false s) as (_ & Ht1).
    destruct (send_data_quiet world data s) as (_ & Hw1 & _).
    destruct (send_data world data false s) as [m s1]. cbn [fst snd] in *. subst m.
    assert (Hw1' : w3 s1 <> None) by now rewrite Hw1.
    pose proof (reliable_send_to_blockchain data false s1 Hr Hw1') as Hb.
    destruct (send_to_blockchain_calls data false s1) as (Ht2 & _ & _).
    destruct (send_to_blockchain_quiet world data s1) as (_ & Hw2 & _).
    destruct Hr as [_ Hc _]. destruct (w3 s1) eqn:E1; [ | now destruct Hw1' ].
    rewrite Hc in Ht2.
    destruct (send_to_blockchain world data false s1) as [b s2]. cbn [fst snd] in *.
    subst b.
    assert (Hw2' : w3 s2 <> None) by (rewrite Hw2; discriminate).
    destruct (IH s2 Hw2') as (H1 & H2).
    destruct (attempts world rest s2) as [os s3]. cbn [fst snd] in *.
    split.
    + unfold retained in *. cbn [combine filter snd]. unfold resolved at 1.
      cbn [fst snd]. rewrite andb_true_r.
      destruct (loggable data); cbn [negb map fst]; now rewrite H1.
    + now rewrite H2, Ht2, Ht1, <- app_assoc.
Qed.

Lemma reliable_loop (draws : list Generator.Draws) :
  reliable world ->
  forall s, w3 s <> None -> offline_mode s = false ->
  let s' := snd (simulation_loop world draws s) in
  let readings := map (Generator.create_sensor_data "sensor_01") draws in
  offline_mode s' = false /\ offline_file s' = offline_file s /\
  published (trace s') = published (trace s) ++ readings /\
  transactions (trace s') = transactions (trace s) ++ readings.
Proof.
  intros Hr. induction draws as [ | d draws IH ]; intros s Hw Hm.
  - cbn. now rewrite !app_nil_r.
  - cbn [simulation_loop map]. unfold bind.
    set (data := Generator.create_sensor_data "sensor_01" d).
    assert (Hb : let s1 := snd (loop_body world d s) in
                 w3 s1 <> None /\ offline_mode s1 = false /\
                 offline_file s1 = offline_file s /\
                 published (trace s1) = published (trace s) ++ [data] /\
                 transactions (trace s1) = transactions (trace s) ++ [data]).
    { rewrite loop_body_run. cbv zeta. rewrite Hm. fold data.
      assert (E1 : fst (send_data world data true s) = true).
      { now rewrite (reliable_send_data data true s Hr). }
      destruct (send_data_success data true s E1) as (Hf1 & Hw1).
      destruct (send_data_calls data true s) as (Hp1 & Ht1).
      pose proof (send_data_mode data true s) as Hm1.
      set (s1 := snd (send_data world data true s)) in *.
      assert (Hw1' : w3 s1 <> None) by now rewrite Hw1.
      pose proof (reliable_send_to_blockchain data true s1 Hr Hw1') as E2.
      destruct (send_to_blockchain_success data true s1 E2) as (Hf2 & Hw2).
      destruct (send_to_blockchain_calls data true s1) as (Ht2 & Hp2 & _).
      pose proof (send_to_blockchain_mode data true s1) as Hm2.
      destruct Hr as [_ Hc _]. destruct (w3 s1) eqn:Ew; [ | now destruct Hw1' ].
      rewrite Hc in Ht2. rewrite E1, E2. cbn [negb andb snd].
      repeat split; congruence. }
    destruct (loop_body world d s) as [u s1]. cbn [snd] in Hb.
    destruct Hb as (Hw1 & Hm1 & Hf1 & Hp1 & Ht1).
    destruct (IH s1 Hw1 Hm1) as (H1 & H2 & H3 & H4). cbv zeta.
    repeat split; try congruence.
    + now rewrite H3, Hp1, <- app_assoc.
    + now rewrite H4, Ht1, <- app_assoc.
Qed.

(** X4.  When the broker connects and both channels answer every call
    with success, the run first hands every buffered reading to both
    channels and keeps in the offline file only the buffered items that
    are not objects with a temperature and a humidity (the log line of
    [send_data] cannot be written for them); the file is removed when
    there is none.  It then hands every new reading to both channels;
    no new reading is buffered and the mode stays Online. *)
Theorem run_with_both_channels_up (draws : list Generator.Draws) (s : Simulator)
    (text : string) (items : list json) :
  reliable world ->
  mqtt_connect world (trace s) = true ->
  w3 s <> None ->
  offline_file s = Some text ->
  json_loads text = Some (JArr items) ->
  let s' := snd (run_simulation world draws s) in
  let readings := map (Generator.create_sensor_data "sensor_01") draws in
  let kept := filter (fun d => negb (loggable d)) items in
  offline_mode s' = false /\
  offline_file s' =
    match items, kept with
    | [], _ => Some text
    | _ :: _, [] => None
    | _ :: _, _ :: _ => Some (json_dump (JArr kept))
    end /\
  published (trace s') = published (trace s) ++ items ++ readings /\
  transactions (trace s') = transactions (trace s) ++ items ++ readings.
Proof.
  intros Hr Hc Hw Hf Hl. rewrite run_simulation_run. cbv zeta. rewrite Hc.
  cbn [negb when].
  set (s1 := snd (set_offline_mode false (logged (Connect true) s))).
  assert (Hp1 : published (trace s1) = published (trace s)).
  { unfold s1. cbn [set_offline_mode snd trace]. rewrite published_logged. cbn.
    apply app_nil_r. }
  assert (Ht1 : transactions (trace s1) = transactions (trace s)).
  { unfold s1. cbn [set_offline_mode snd trace]. rewrite transactions_logged. cbn.
    apply app_nil_r. }
  assert (H2 : let s2 := snd (resync_offline_data world s1) in
               w3 s2 <> None /\ offline_mode s2 = false /\
               offline_file s2 =
                 match items, filter (fun d => negb (loggable d)) items with
                 | [], _ => Some text
                 | _ :: _, [] => None
                 | _ :: _, kept => Some (json_dump (JArr kept))
                 end /\
               published (trace s2) = published (trace s) ++ items /\
               transactions (trace s2) = transactions (trace s) ++ items).
  { destruct items as [ | r rest ].
    - assert (E : resync_offline_data world s1 = (tt, s1)).
      { unfold resync_offline_data, bind, read. cbn [fst snd].
        change (offline_file s1) with (offline_file s).
        rewrite Hf, (loads_nonempty _ _ Hl). cbn [negb]. now rewrite Hl. }
      rewrite E. cbn [snd]. rewrite !app_nil_r. now repeat split.
    - rewrite (resync_run world s1 text (JArr (r :: rest)) (r :: rest) Hf Hl eq_refl eq_refl).
      destruct (reliable_attempts (r :: rest) Hr s1 Hw) as (-> & Ht).
      destruct (attempts_quiet world (r :: rest) s1) as (Hm & Hw' & _).
      pose proof (attempts_published world (r :: rest) s1) as Hp.
      cbv zeta. set (kept := filter (fun d => negb (loggable d)) (r :: rest)).
      destruct (replace_fields kept (snd (attempts world (r :: rest) s1))) as (-> & ->).
      rewrite replace_file, replace_published, replace_transactions, Hp, Ht, Hp1, Ht1.
      repeat split; try assumption; [ now rewrite Hw' | now destruct kept ]. }
  cbv zeta in H2. set (s2 := snd (resync_offline_data world s1)) in *.
  destruct H2 as (Hw2 & Hm2 & Hf2 & Hp2 & Ht2).
  destruct (reliable_loop draws Hr s2 Hw2 Hm2) as (H1 & H3 & H4 & H5).
  cbn [snd]. rewrite published_logged, transactions_logged. cbn. rewrite !app_nil_r.
  split; [ exact H1 | ].
  split.
  { rewrite H3, Hf2. destruct items; [ reflexivity | ].
    now destruct (filter _ _). }
  split; [ now rewrite H4, Hp2, <- app_assoc | now rewrite H5, Ht2, <- app_assoc ].
Qed.

Lemma published_channel_events (events : list event) :
  published (channel_events events) = published events.
Proof.
  unfold channel_events.
  induction events as [ | e events IH ]; [ reflexivity | ].
  destruct e; cbn [filter is_file_event negb published]; now rewrite ?IH.
Qed.

(** X18.  When the run is Online and both channels then fail every call,
    the first reading is published once and saved twice, and the mode
    becomes Offline; every later reading is saved once and never
    published.  The saves append to a buffer that reads as a list (file
    absent, blank, undecodable or an array); a file that holds another
    JSON document stays as it is. *)
Theorem loop_after_losing_both_channels (d : Generator.Draws)
    (rest : list Generator.Draws) (s : Simulator) :
  unreachable world ->
  offline_mode s = false ->
  let s' := snd (simulation_loop world (d :: rest) s) in
  let first := Generator.create_sensor_data "sensor_01" d in
  offline_mode s' = true /\
  fst (drain s') =
    appended (fst (drain s))
      ([first; first] ++ map (Generator.create_sensor_data "sensor_01") rest) /\
  published (trace s') = published (trace s) ++ [first].
Proof.
  intros [Hp Hc] Hm. cbn [simulation_loop]. unfold bind.
  set (data := Generator.create_sensor_data "sensor_01" d).
  assert (Hb : let s1 := snd (loop_body world d s) in
               offline_mode s1 = true /\
               fst (drain s1) = appended (fst (drain s)) [data; data] /\
               published (trace s1) = published (trace s) ++ [data]).
  { rewrite loop_body_run. cbv zeta. rewrite Hm. fold data.
    destruct (send_data_appended world data s) as (H1 & _).
    rewrite (send_data_refused world data true s (Hp _ _)) in H1 |- *.
    destruct (send_data_calls data true s) as (Hp1 & _).
    set (s1 := snd (send_data world data true s)) in *.
    destruct (send_to_blockchain_appended world data s1) as (H2 & _).
    destruct (send_to_blockchain_calls data true s1) as (_ & Hp2 & E2).
    assert (E : fst (send_to_blockchain world data true s1) = false).
    { rewrite E2. destruct (w3 s1); [ now rewrite Hc | reflexivity ]. }
    rewrite E in *. cbn [negb andb snd set_offline_mode offline_mode].
    split; [ reflexivity | ]. split.
    - rewrite (drain_same_file (snd (send_to_blockchain world data true s1))) by reflexivity.
      now rewrite H2, H1, appended_app.
    - cbn [trace]. now rewrite Hp2, Hp1. }
  destruct (loop_body world d s) as [u s1]. cbn [snd] in Hb.
  destruct Hb as (Hm1 & Hd1 & Hp1).
  destruct (offline_loop_appends rest s1 Hm1) as (H1 & H2 & H3).
  cbv zeta. split; [ exact H1 | ]. split.
  - now rewrite H2, Hd1, appended_app.
  - now rewrite <- published_channel_events, H3, published_channel_events.
Qed.

(** X19.  While the broker turns every publish down and the ledger takes
    every transaction, the run stays Online: each reading is offered to
    the broker, recorded on the ledger and saved once.  The save appends
    to a buffer that reads as a list (file absent, blank, undecodable or
    an array); a file that holds another JSON document stays as it is. *)
Theorem online_loop_with_broker_down (draws : list Generator.Draws) (s : Simulator) :
  (forall h d, publish_ok world h d = false) ->
  (forall h, w3_is_connected world h = true) ->
  (forall h d, transaction_ok world h d = true) ->
  w3 s <> None ->
  offline_mode s = false ->
  let s' := snd (simulation_loop world draws s) in
  let readings := map (Generator.create_sensor_data "sensor_01") draws in
  offline_mode s' = false /\
  fst (drain s') = appended (fst (drain s)) readings /\
  published (trace s') = published (trace s) ++ readings /\
  transactions (trace s') = transactions (trace s) ++ readings.
Proof.
  intros Hp Hc Ht. revert s.
  induction draws as [ | d draws IH ]; intros s Hw Hm.
  - cbn. now rewrite !app_nil_r, appended_nil.
  - cbn [simulation_loop map]. unfold bind.
    set (data := Generator.create_sensor_data "sensor_01" d).
    assert (Hb : let s1 := snd (loop_body world d s) in
                 w3 s1 <> None /\ offline_mode s1 = false /\
                 fst (drain s1) = appended (fst (drain s)) [data] /\
                 published (trace s1) = published (trace s) ++ [data] /\
                 transactions (trace s1) = transactions (trace s) ++ [data]).
    { rewrite loop_body_run. cbv zeta. rewrite Hm. fold data.
      destruct (send_data_appended world data s) as (H1 & Hm1 & Hw1).
      rewrite (send_data_refused world data true s (Hp _ _)) in H1 |- *.
      destruct (send_data_calls data true s) as (Hp1 & Ht1).
      set (s1 := snd (send_data world data true s)) in *.
      destruct (send_to_blockchain_appended world data s1) as (H2 & Hm2 & Hw2).
      destruct (send_to_blockchain_calls data true s1) as (Ht2 & Hp2 & E2).
      assert (E : fst (send_to_blockchain world data true s1) = true).
      { rewrite E2. destruct (w3 s1); [ now rewrite Hc, Ht | congruence ]. }
      rewrite E in *. cbn [negb andb snd].
      assert (G : match w3 s1 with
                  | Some _ => w3_is_connected world (trace s1)
                  | None => false
                  end = true).
      { destruct (w3 s1); [ apply Hc | congruence ]. }
      rewrite G in Ht2. rewrite appended_nil in H2. repeat split; congruence. }
    destruct (loop_body world d s) as [u s1]. cbn [snd] in Hb.
    destruct Hb as (Hw1 & Hm1 & Hd1 & Hp1 & Ht1).
    destruct (IH s1 Hw1 Hm1) as (H1 & H2 & H3 & H4).
    cbv zeta. split; [ exact H1 | ]. split; [ | split ].
    + now rewrite H2, Hd1, appended_app.
    + now rewrite H3, Hp1, <- app_assoc.
    + now rewrite H4, Ht1, <- app_assoc.
Qed.

(* ------------------------------------------------------------------ *)
(** ** What a pass of resynchronisation can and cannot do *)

Lemma retained_incl (l : list json) (outcomes : list (bool * bool)) :
  incl (retained l outcomes) l /\ List.length (retained l outcomes) <= List.length l.
Proof.
  unfold retained. split.
  - intros x Hx. apply in_map_iff in Hx. destruct Hx as ([y o] & <- & Hin).
    apply filter_In in Hin. destruct Hin as [Hin _].
    now apply in_combine_l in Hin.
  - rewrite length_map.
    etransitivity; [ apply filter_length_le | ].
    rewrite length_combine. apply Nat.le_min_l.
Qed.

(** X6.  A pass of [resync_offline_data] leaves the simulator exactly as
    it was, or leaves no offline file, or leaves a file holding a
    non-empty array: it never writes an empty array. *)
Theorem resync_result_shape (s : Simulator) :
  let s' := snd (resync_offline_data world s) in
  s' = s \/
  offline_file s' = None \/
  exists reading rest, offline_file s' = Some (json_dump (JArr (reading :: rest))).
Proof.
  cbv zeta. destruct (resync_cases world s) as [ -> | [items ->] ]; [ now left | ].
  right. rewrite replace_file.
  destruct (retained items (fst (attempts world items s))) as [ | r rest ]; eauto.
Qed.

(** X7.  A pass of [resync_offline_data] over a file that holds an array
    never adds to the buffer: the buffer read afterwards holds only
    readings that were in the array, and no more of them than before. *)
Theorem resync_only_shrinks (s : Simulator) (text : string) (items : list json) :
  offline_file s = Some text ->
  json_loads text = Some (JArr items) ->
  exists kept,
    fst (drain (snd (resync_offline_data world s))) = JArr kept /\
    incl kept items /\
    List.length kept <= List.length items.
Proof.
  intros Hf Hl. destruct items as [ | r rest ].
  - exists []. assert (E : resync_offline_data world s = (tt, s)).
    { unfold resync_offline_data, bind, read. cbn [fst snd].
      rewrite Hf, (loads_nonempty _ _ Hl). cbn [negb]. now rewrite Hl. }
    rewrite E. cbn [snd]. split; [ now apply (drain_file s text) | ].
    split; [ apply incl_refl | reflexivity ].
  - rewrite (resync_run world s text (JArr (r :: rest)) (r :: rest) Hf Hl eq_refl eq_refl).
    set (outcomes := fst (attempts world (r :: rest) s)).
    exists (retained (r :: rest) outcomes).
    split; [ | apply retained_incl ].
    pose proof (replace_file (retained (r :: rest) outcomes)
                  (snd (attempts world (r :: rest) s))) as Hr.
    destruct (retained (r :: rest) outcomes) as [ | k kept ].
    + now apply drain_absent.
    + now apply drain_written.
Qed.

Lemma attempt_unresolved (data : json) (s : Simulator) :
  w3 s = None \/ (forall h d, publish_ok world h d = false) ->
  resolved (fst (attempt world data s)) = false.
Proof.
  intros Hdown. unfold attempt, bind, ret.
  pose proof (send_data_result world data false s) as Hm.
  destruct (send_data_quiet world data s) as (_ & Hw & _).
  destruct (send_data world data false s) as [m s1]. cbn [fst snd] in *.
  destruct (send_to_blockchain_calls data false s1) as (_ & _ & Hb).
  destruct (send_to_blockchain world data false s1) as [b s2]. cbn [fst snd] in *.
  unfold resolved. cbn [fst snd].
  destruct Hdown as [Hnone | Hp].
  - rewrite Hb, Hw, Hnone. now destruct m.
  - rewrite Hm. unfold send_ok. now rewrite Hp.
Qed.

Lemma retained_all (l : list json) :
  forall s,
  w3 s = None \/ (forall h d, publish_ok world h d = false) ->
  retained l (fst (attempts world l s)) = l.
Proof.
  induction l as [ | data rest IH ]; intros s Hdown; [ reflexivity | ].
  cbn [attempts]. unfold bind, ret.
  pose proof (attempt_unresolved data s Hdown) as Hr.
  destruct (attempt_quiet world data s) as (_ & Hw & _).
  destruct (attempt world data s) as [o s1]. cbn [fst snd] in *.
  assert (Hdown1 : w3 s1 = None \/ (forall h d, publish_ok world h d = false)).
  { destruct Hdown as [Hnone | Hp]; [ left; congruence | now right ]. }
  specialize (IH s1 Hdown1).
  destruct (attempts world rest s1) as [os s2]. cbn [fst snd] in *.
  unfold retained in *. cbn [combine filter snd]. rewrite Hr. cbn [negb map fst].
  now rewrite IH.
Qed.

(** X10.  While one channel fails every call (no ledger handle, or a
    broker that acknowledges nothing) a pass of [resync_offline_data]
    removes nothing: it offers every buffered reading to the broker again
    and writes the whole array back. *)
Theorem resync_keeps_all_when_a_channel_is_down (s : Simulator) (text : string)
    (items : list json) :
  w3 s = None \/ (forall h d, publish_ok world h d = false) ->
  offline_file s = Some text ->
  json_loads text = Some (JArr items) ->
  items <> [] ->
  let s' := snd (resync_offline_data world s) in
  offline_file s' = Some (json_dump (JArr items)) /\
  fst (drain s') = JArr items /\
  published (trace s') = published (trace s) ++ items.
Proof.
  intros Hdown Hf Hl Hne. cbv zeta.
  assert (Ht : truthy (JArr items) = true).
  { destruct items; [ now destruct Hne | reflexivity ]. }
  rewrite (resync_run world s text (JArr items) items Hf Hl Ht eq_refl).
  rewrite (retained_all items s Hdown).
  assert (Hfile : offline_file (snd (replace items (snd (attempts world items s))))
                  = Some (json_dump (JArr items))).
  { rewrite replace_file. destruct items; [ now destruct Hne | reflexivity ]. }
  split; [ exact Hfile | ]. split; [ now apply drain_written | ].
  rewrite replace_published. apply attempts_published.
Qed.

(** X11.  [send_to_blockchain] sends a transaction only with a handle
    whose probe has just succeeded, and then exactly one, carrying the
    reading; it returns [True] only if that transaction went through; it
    never publishes. *)
Theorem ledger_send_is_guarded (data : json) (allow : bool) (s : Simulator) :
  let r := send_to_blockchain world data allow s in
  (w3 s = None \/ w3_is_connected world (trace s) = false ->
   fst r = false /\ transactions (trace (snd r)) = transactions (trace s)) /\
  (w3 s <> None -> w3_is_connected world (trace s) = true ->
   transactions (trace (snd r)) = transactions (trace s) ++ [data] /\
   fst r = transaction_ok world (trace s ++ [IsConnected true]) data) /\
  published (trace (snd r)) = published (trace s).
Proof.
  cbv zeta. destruct (send_to_blockchain_calls data allow s) as (Ht & Hp & Hr).
  split; [ | split; [ | exact Hp ] ].
  - intros Hdown. rewrite Hr, Ht.
    destruct (w3 s) eqn:Hw.
    + destruct Hdown as [ Hn | -> ]; [ discriminate | ]. now rewrite app_nil_r.
    + now rewrite app_nil_r.
  - intros Hw Hc. rewrite Hr, Ht.
    destruct (w3 s); [ | now destruct Hw ]. now rewrite Hc.
Qed.

(** X16.  [main] always runs with a ledger handle: it probes the ledger
    once, then opens the broker session, and closes it last; the handle
    is still there at the end. *)
Theorem main_session (file : option string) (draws : list Generator.Draws) :
  let s := main world file draws in
  let probe := IsConnected (w3_is_connected world []) in
  w3 s = Some GANACHE_URL /\
  exists middle,
    trace s = probe :: Connect (mqtt_connect world [probe]) :: middle ++ [Disconnect] /\
    forallb inner middle = true.
Proof.
  cbv zeta. unfold main.
  set (s0 := init world (Some GANACHE_URL) file).
  assert (Hw0 : w3 s0 = Some GANACHE_URL).
  { unfold s0, init. cbn. now destruct (w3_is_connected world []). }
  assert (Ht0 : trace s0 = [IsConnected (w3_is_connected world [])]).
  { unfold s0, init. cbn. now destruct (w3_is_connected world []). }
  rewrite run_simulation_run. cbv zeta. cbn [snd].
  set (c := mqtt_connect world (trace s0)).
  set (s1 := snd (set_offline_mode (negb c) (logged (Connect c) s0))).
  assert (H2 : advances s1 (snd (when c (resync_offline_data world) s1))).
  { destruct c; [ apply advances_resync | apply advances_refl ]. }
  set (s2 := snd (when c (resync_offline_data world) s1)) in *.
  pose proof (advances_simulation_loop world draws s2) as H3.
  destruct (advances_trans _ _ _ H2 H3) as (Hw & middle & Ht & Hi).
  split.
  - unfold logged at 1. cbn [emit snd w3]. now rewrite Hw.
  - exists middle. split; [ | exact Hi ].
    unfold logged at 1. cbn [emit snd trace]. rewrite Ht.
    unfold s1, logged. cbn [set_offline_mode emit snd trace].
    unfold c. rewrite Ht0. now rewrite <- !app_assoc.
Qed.

Lemma advances_published (s s' : Simulator) :
  advances s s' -> exists more, published (trace s') = published (trace s) ++ more.
Proof.
  intros (_ & events & -> & _). exists (published events). apply published_app.
Qed.

(** X3.  The Offline mode that [__init__] sets when the ledger cannot be
    reached does not survive the start of the run: if the broker then
    connects, [main] runs its first pass Online and publishes the first
    reading (after the buffered ones, if any). *)
Theorem init_offline_mode_is_overridden (file : option string) (d : Generator.Draws)
    (rest : list Generator.Draws) :
  w3_is_connected world [] = false ->
  mqtt_connect world [IsConnected false] = true ->
  offline_mode (init world (Some GANACHE_URL) file) = true /\
  exists before after,
    published (trace (main world file (d :: rest)))
    = before ++ Generator.create_sensor_data "sensor_01" d :: after.
Proof.
  intros Hp Hc.
  assert (Hi : init world (Some GANACHE_URL) file
               = {| offline_mode := true; w3 := Some GANACHE_URL;
                    offline_file := file; trace := [IsConnected false] |}).
  { unfold init. cbn. now rewrite Hp. }
  split; [ now rewrite Hi | ].
  unfold main. rewrite Hi, run_simulation_run. cbv zeta. cbn [trace].
  rewrite Hc. cbn [negb when].
  set (s1 := snd (set_offline_mode false (logged (Connect true) _))).
  assert (Hm2 : offline_mode (snd (resync_offline_data world s1)) = false).
  { destruct (resync_cases world s1) as [ -> | [items ->] ]; [ reflexivity | ].
    destruct (attempts_quiet world items s1) as (Hm & _).
    set (kept := retained items _). now destruct kept. }
  set (s2 := snd (resync_offline_data world s1)) in *.
  set (data := Generator.create_sensor_data "sensor_01" d).
  cbn [simulation_loop]. unfold bind.
  assert (Hb : exists more,
             published (trace (snd (loop_body world d s2)))
             = published (trace s2) ++ data :: more).
  { rewrite loop_body_run. cbv zeta. rewrite Hm2. fold data.
    destruct (send_data_calls data true s2) as (Hp1 & _).
    destruct (send_to_blockchain_calls data true (snd (send_data world data true s2)))
      as (_ & Hp2 & _).
    exists []. destruct (negb _ && negb _); cbn [snd set_offline_mode trace];
      now rewrite Hp2, Hp1. }
  destruct Hb as [more Hb].
  destruct (loop_body world d s2) as [u s3]. cbn [snd] in Hb.
  destruct (advances_published _ _ (advances_simulation_loop world rest s3)) as [more' Hl].
  exists (published (trace s2)), (more ++ more').
  cbn [snd]. rewrite published_logged. cbn. rewrite app_nil_r, Hl, Hb.
  now rewrite <- app_assoc.
Qed.

(** X20.  From every state of the buffer (file absent, blank, undecodable
    or an array) [save_data_offline] leaves a file that holds a JSON
    array ending with the saved reading; what an undecodable file held is
    discarded. *)
Theorem save_establishes_array (s : Simulator) (data : json) :
  buffer_state (offline_file s) ->
  let s' := snd (save_data_offline data s) in
  buffer_ok (offline_file s') /\
  exists items,
    json_loads_file s' = Some (JArr (items ++ [data])) /\
    fst (drain s) = JArr items.
Proof.
  intros Hs. destruct (buffer_state_drain s Hs) as [items Hd].
  destruct (save_drain data items s Hd) as (_ & Hf & _).
  cbv zeta. split.
  - rewrite Hf. exists (items ++ [data]). apply loads_dump.
  - exists items. split; [ | exact Hd ].
    unfold json_loads_file. rewrite Hf. apply loads_dump.
Qed.

Lemma acknowledged_channel_events (events : list event) :
  acknowledged (channel_events events) = acknowledged events.
Proof.
  unfold channel_events.
  induction events as [ | e events IH ]; [ reflexivity | ].
  destruct e as [ | | data [ rc | ] | | | | ];
    cbn [filter is_file_event negb acknowledged]; rewrite ?IH; reflexivity.
Qed.

(** X22.  A reading that is not an object with a temperature and a
    humidity cannot be sent: when the broker acknowledges it, [send_data]
    has published it and still answers [False], because the log line
    cannot be written; with [allow_offline_save=True] the reading is then
    saved as well, with [False] the file is left alone. *)
Theorem acknowledged_reading_without_keys (data : json) (s : Simulator) :
  publish_ok world (trace s) data = true ->
  loggable data = false ->
  let r := send_data world data true s in
  let r' := send_data world data false s in
  fst r = false /\ fst r' = false /\
  published (trace (snd r)) = published (trace s) ++ [data] /\
  acknowledged (trace (snd r)) = acknowledged (trace s) ++ [data] /\
  fst (drain (snd r)) = appended (fst (drain s)) [data] /\
  offline_file (snd r') = offline_file s.
Proof.
  intros Hp Hl. cbv zeta.
  assert (Eo : send_ok world (trace s) data = false).
  { unfold send_ok. now rewrite Hp, Hl. }
  destruct (send_data_appended world data s) as (Hd & _).
  destruct (send_data_calls data true s) as (Hc & _).
  destruct (send_data_quiet world data s) as (_ & _ & Hf & _).
  rewrite !send_data_result, Eo in *.
  split; [ reflexivity | ]. split; [ reflexivity | ].
  split; [ exact Hc | ]. split; [ | split; [ exact Hd | exact Hf ] ].
  rewrite send_data_run. cbv zeta. rewrite Eo. cbn [snd when].
  rewrite <- acknowledged_channel_events, save_channel_events, acknowledged_channel_events.
  unfold logged. cbn [emit snd trace]. rewrite acknowledged_app.
  unfold publish_ok in Hp.
  destruct (mqtt_publish world (trace s) data) as [ rc | ]; [ | discriminate ].
  cbn [acknowledged]. now rewrite Hp.
Qed.

End RunProperties.

(* ------------------------------------------------------------------ *)
(** ** A reading that failed on both channels *)

Section DoubleFailure.

Context {fp : Generator.Float64} {codec : JsonCodec} (first later : World).

(** X21.  A reading whose two sends fail, with a handle and a buffer that
    reads as a list, is buffered twice, and a later pass of
    [resync_offline_data] with both channels up then delivers it twice to
    each channel: with the first attempt the broker is handed the reading
    three times in all.  After the pass the file holds what the buffer
    held before that is not an object with a temperature and a humidity,
    and is removed when there is no such item. *)
Theorem double_failure_is_delivered_twice (d : Generator.Draws) (s : Simulator)
    (items : list json) :
  unreachable first ->
  reliable later ->
  w3 s <> None ->
  offline_mode s = false ->
  fst (drain s) = JArr items ->
  let reading := Generator.create_sensor_data "sensor_01" d in
  let s1 := snd (loop_body first d s) in
  let s2 := snd (resync_offline_data later s1) in
  let kept := filter (fun item => negb (loggable item)) items in
  offline_file s1 = Some (json_dump (JArr (items ++ [reading; reading]))) /\
  offline_file s2 =
    match kept with
    | [] => None
    | _ :: _ => Some (json_dump (JArr kept))
    end /\
  published (trace s2) = published (trace s) ++ [reading] ++ items ++ [reading; reading] /\
  transactions (trace s2) = transactions (trace s) ++ items ++ [reading; reading].
Proof.
  intros [Hp Hc] Hr Hw Hm Hd. cbv zeta.
  set (data := Generator.create_sensor_data "sensor_01" d).
  assert (H1 : let s1 := snd (loop_body first d s) in
               offline_file s1 = Some (json_dump (JArr (items ++ [data; data]))) /\
               w3 s1 <> None /\
               published (trace s1) = published (trace s) ++ [data] /\
               transactions (trace s1) = transactions (trace s)).
  { rewrite loop_body_run. cbv zeta. rewrite Hm. fold data.
    destruct (send_data_calls first data true s) as (Hp1 & Ht1).
    pose proof (send_data_refused first data true s (Hp _ _)) as E1.
    assert (Eo : send_ok first (trace s) data = false).
    { unfold send_ok. now rewrite Hp. }
    assert (Hs1 : offline_file (snd (send_data first data true s))
                  = Some (json_dump (JArr (items ++ [data]))) /\
                  w3 (snd (send_data first data true s)) = w3 s).
    { rewrite send_data_run. cbv zeta. rewrite Eo. cbn [snd when].
      set (sp := logged _ s).
      assert (Hdp : fst (drain sp) = JArr items) by now rewrite (drain_same_file s sp).
      destruct (save_drain data items sp Hdp) as (_ & Hf & _ & Hw' & _). now split. }
    destruct Hs1 as (Hf1 & Hw1).
    set (s1 := snd (send_data first data true s)) in *.
    assert (Hd1 : fst (drain s1) = JArr (items ++ [data])) by now apply drain_written.
    destruct (send_to_blockchain_calls first data true s1) as (Ht2 & Hp2 & E2).
    assert (G : match w3 s1 with
                | Some _ => w3_is_connected first (trace s1)
                | None => false
                end = false).
    { destruct (w3 s1); [ apply Hc | reflexivity ]. }
    rewrite G in Ht2, E2. cbn [andb] in E2. rewrite app_nil_r in Ht2.
    assert (Hs2 : offline_file (snd (send_to_blockchain first data true s1))
                  = Some (json_dump (JArr ((items ++ [data]) ++ [data]))) /\
                  w3 (snd (send_to_blockchain first data true s1)) = w3 s1).
    { rewrite send_to_blockchain_run.
      destruct (w3 s1) eqn:Ew; [ | congruence ]. cbv zeta. rewrite Hc. cbn [snd when].
      set (sp := logged _ s1).
      assert (Hdp : fst (drain sp) = JArr (items ++ [data]))
        by now rewrite (drain_same_file s1 sp).
      destruct (save_drain data _ sp Hdp) as (_ & Hf & _ & Hw' & _).
      split; [ exact Hf | ]. now rewrite Hw'. }
    destruct Hs2 as (Hf2 & Hw2).
    rewrite E1, E2. cbn [negb andb snd set_offline_mode offline_file w3 trace].
    rewrite <- app_assoc in Hf2. cbn [app] in Hf2. repeat split; congruence. }
  cbv zeta in H1. set (s1 := snd (loop_body first d s)) in *.
  destruct H1 as (Hf1 & Hw1 & Hp1 & Ht1).
  split; [ exact Hf1 | ].
  assert (Ht : truthy (JArr (items ++ [data; data])) = true).
  { cbn. now destruct items. }
  rewrite (resync_run later s1 _ _ _ Hf1 (loads_dump _) Ht eq_refl).
  destruct (reliable_attempts later (items ++ [data; data]) Hr s1 Hw1) as (-> & Htx).
  pose proof (attempts_published later (items ++ [data; data]) s1) as Hpx.
  assert (Ek : filter (fun item => negb (loggable item)) (items ++ [data; data])
               = filter (fun item => negb (loggable item)) items).
  { rewrite filter_app. cbn [filter]. change (loggable data) with true.
    cbn [negb]. apply app_nil_r. }
  rewrite Ek, replace_file, replace_published, replace_transactions, Hpx, Htx, Hp1, Ht1.
  split; [ reflexivity | ]. now rewrite <- !app_assoc.
Qed.

End DoubleFailure.

(* ================================================================== *)
(** * More on the generator *)

Section GeneratorRounding.

Import Generator.
#[local] Open Scope Q_scope.

Context {fp : Float64}.

Ltac compare_fact E :=
  first [ apply Qeq_alt in E | apply Qlt_alt in E | apply Qgt_alt in E ].

Lemma round_half_even_error (y : Q) :
  inject_Z (round_half_even y) - (1 # 2) <= y <= inject_Z (round_half_even y) + (1 # 2).
Proof.
  unfold round_half_even.
  pose proof (Qfloor_le y) as H1. pose proof (Qlt_floor y) as H2.
  rewrite inject_Z_plus in H2. change (inject_Z 1) with 1 in H2.
  destruct (Qcompare (y - inject_Z (Qfloor y)) (1 # 2)) eqn:E.
  - apply Qeq_alt in E. destruct (Z.even (Qfloor y)).
    + lra.
    + rewrite inject_Z_plus. change (inject_Z 1) with 1. lra.
  - apply Qlt_alt in E. lra.
  - apply Qgt_alt in E. rewrite inject_Z_plus. change (inject_Z 1) with 1. lra.
Qed.

Lemma round_half_even_monotone (x y : Q) :
  x <= y -> (round_half_even x <= round_half_even y)%Z.
Proof.
  intros Hxy.
  pose proof (Qfloor_resp_le x y Hxy) as Hf.
  assert (Hlow : forall z, (Qfloor z <= round_half_even z <= Qfloor z + 1)%Z).
  { intros z. unfold round_half_even.
    destruct (Qcompare (z - inject_Z (Qfloor z)) (1 # 2)); [ | lia | lia ].
    destruct (Z.even (Qfloor z)); lia. }
  destruct (Z.eq_dec (Qfloor x) (Qfloor y)) as [ Heq | Hne ].
  - unfold round_half_even. rewrite <- Heq.
    destruct (Qcompare (x - inject_Z (Qfloor x)) (1 # 2)) eqn:Ex;
      destruct (Qcompare (y - inject_Z (Qfloor x)) (1 # 2)) eqn:Ey;
      compare_fact Ex; compare_fact Ey;
      try (destruct (Z.even (Qfloor x))); try lia; exfalso; lra.
  - pose proof (Hlow x). pose proof (Hlow y). lia.
Qed.

Lemma py_round_value (x : Q) :
  number_value (py_round x 2) == inject_Z (round_half_even (x * 100)) * (1 # 100).
Proof. reflexivity. Qed.

(** X13.  [generate_humidity] clamps before it rounds: a draw of 20 or
    less gives exactly 20.00, a draw of 90 or more exactly 90.00, and a
    draw strictly between is only rounded. *)
Theorem humidity_is_clamped (humidity : Q) :
  (humidity <= 20 -> generate_humidity humidity = Number 2000 2) /\
  (90 <= humidity -> generate_humidity humidity = Number 9000 2) /\
  (20 < humidity < 90 -> generate_humidity humidity = py_round humidity 2).
Proof.
  unfold generate_humidity, py_max, py_min. split; [ | split ].
  - intros H. assert (E1 : (humidity ?= 90) = Lt) by (apply (proj1 (Qlt_alt _ _)); lra).
    rewrite E1. destruct (humidity ?= 20) eqn:E2; try reflexivity.
    apply Qgt_alt in E2. lra.
  - intros H. destruct (humidity ?= 90) eqn:E1; try reflexivity.
    apply Qlt_alt in E1. lra.
  - intros [H1 H2]. assert (E1 : (humidity ?= 90) = Lt) by (apply (proj1 (Qlt_alt _ _)); lra).
    rewrite E1. assert (E2 : (humidity ?= 20) = Gt) by (apply (proj1 (Qgt_alt _ _)); lra).
    now rewrite E2.
Qed.

(** X14.  The temperature written in a reading has two decimals and is
    within half a hundredth of the float sum [22.5 + variation]; the
    humidity has two decimals and is within half a hundredth of the
    clamped draw. *)
Theorem generated_values_are_rounded (variation humidity : Q) :
  let t := generate_temperature variation in
  let h := generate_humidity humidity in
  let sum := rnd (22.5 + variation) in
  let clamped := py_max 20 (py_min 90 humidity) in
  scale t = 2%nat /\ scale h = 2%nat /\
  sum - (1 # 200) <= number_value t <= sum + (1 # 200) /\
  clamped - (1 # 200) <= number_value h <= clamped + (1 # 200).
Proof.
  cbv zeta. split; [ reflexivity | ]. split; [ reflexivity | ].
  unfold generate_temperature, generate_humidity. rewrite !py_round_value.
  pose proof (round_half_even_error (rnd (22.5 + variation) * 100)) as H1.
  pose proof (round_half_even_error (py_max 20 (py_min 90 humidity) * 100)) as H2.
  split; lra.
Qed.

(** X17.  A larger draw never gives a smaller reading: the temperature is
    monotone in the draw of [random.uniform], the humidity in the draw of
    [random.normalvariate]. *)
Theorem generated_values_are_monotone (x y : Q) :
  x <= y ->
  number_value (generate_temperature x) <= number_value (generate_temperature y) /\
  number_value (generate_humidity x) <= number_value (generate_humidity y).
Proof.
  intros Hxy. unfold generate_temperature, generate_humidity. rewrite !py_round_value.
  assert (Hm : forall a b, a <= b ->
             inject_Z (round_half_even (a * 100)) * (1 # 100)
             <= inject_Z (round_half_even (b * 100)) * (1 # 100)).
  { intros a b Hab.
    assert (H : (round_half_even (a * 100) <= round_half_even (b * 100))%Z).
    { apply round_half_even_monotone. lra. }
    rewrite Zle_Qle in H. lra. }
  split; apply Hm.
  - apply rnd_monotone. lra.
  - unfold py_max, py_min.
    destruct (x ?= 90) eqn:Ex1; destruct (y ?= 90) eqn:Ey1;
      compare_fact Ex1; compare_fact Ey1;
      repeat match goal with
        | |- context [ ?a ?= ?b ] =>
            let E := fresh "E" in
            destruct (a ?= b) eqn:E; compare_fact E
        end; lra.
Qed.

End GeneratorRounding.

(* ================================================================== *)
(** * The further properties on examples *)

Module MoreExamples.

Import Examples.

(** The ledger takes every transaction; the broker acknowledges nothing. *)
Definition world_ledger_only : World := {|
  mqtt_connect := fun _ => true;
  mqtt_publish := fun _ _ => Some 4%Z;
  w3_is_connected := fun _ => true;
  w3_send_transaction := fun _ _ => Some "0x01"
|}.

(** Offline mode, with an offline file that holds a JSON object. *)
Definition misused_offline : Simulator := {|
  offline_mode := true; w3 := Some ganache;
  offline_file := Some (Reference.dump (JObj [])); trace := []
|}.

(** No ledger endpoint, two readings in the offline file. *)
Definition stuck : Simulator := {|
  offline_mode := false; w3 := None;
  offline_file := Some (Reference.dump (JArr [reading1; reading2]));
  trace := []
|}.

(** An offline file that holds the empty array. *)
Definition drained : Simulator := {|
  offline_mode := false; w3 := Some ganache;
  offline_file := Some (Reference.dump (JArr [])); trace := []
|}.

End MoreExamples.

Section MoreWitnesses.

Import Examples MoreExamples.

Lemma run_without_connection_witness :
  mqtt_connect world_down (trace fresh) = false /\
  mqtt_connect world_down (trace misused) = false /\
  fst (drain (snd (run_simulation world_down [draw1; draw2] fresh)))
    = JArr [reading1; reading2] /\
  channel_events (trace (snd (run_simulation world_down [draw1; draw2] fresh)))
    = [Connect false; Disconnect] /\
  fst (drain (snd (run_simulation world_down [draw1; draw2] misused))) = JObj [].
Proof.
  assert (H1 : mqtt_connect world_down (trace fresh) = false) by reflexivity.
  assert (H2 : mqtt_connect world_down (trace misused) = false) by reflexivity.
  destruct (run_without_connection world_down [draw1; draw2] fresh H1) as (_ & Hd & Hc).
  destruct (run_without_connection world_down [draw1; draw2] misused H2) as (_ & Hd' & _).
  split; [ exact H1 | split; [ exact H2 | split; [ exact Hd | split; [ exact Hc | ] ] ] ].
  exact Hd'.
Defined.

Lemma run_with_both_channels_up_witness :
  reliable world_up /\
  mqtt_connect world_up (trace mixed) = true /\
  w3 mixed <> None /\
  json_loads (Reference.dump (JArr [reading1; stray; reading2]))
    = Some (JArr [reading1; stray; reading2]) /\
  offline_file (snd (run_simulation world_up [draw1] mixed))
    = Some (json_dump (JArr [stray])) /\
  published (trace (snd (run_simulation world_up [draw1] mixed)))
    = [reading1; stray; reading2; reading1].
Proof.
  assert (H1 : reliable world_up) by (constructor; reflexivity).
  assert (H2 : mqtt_connect world_up (trace mixed) = true) by reflexivity.
  assert (H3 : w3 mixed <> None) by discriminate.
  assert (H4 : json_loads (Reference.dump (JArr [reading1; stray; reading2]))
               = Some (JArr [reading1; stray; reading2]))
    by (vm_compute; reflexivity).
  destruct (run_with_both_channels_up world_up [draw1] mixed _ _ H1 H2 H3 eq_refl H4)
    as (_ & Hf & Hp & _).
  split; [ exact H1 | split; [ exact H2 | split; [ exact H3 | split; [ exact H4 | ] ] ] ].
  split; [ exact Hf | exact Hp ].
Defined.

Lemma offline_exactly_when_both_fail_witness :
  offline_mode fresh = false /\
  offline_mode (snd (loop_body world_cut draw1 fresh)) = true /\
  offline_mode (snd (loop_body world_ledger_only draw1 fresh)) = false.
Proof.
  assert (H1 : offline_mode fresh = false) by reflexivity.
  split; [ exact H1 | ]. split.
  - exact (offline_exactly_when_both_fail world_cut draw1 fresh H1).
  - exact (offline_exactly_when_both_fail world_ledger_only draw1 fresh H1).
Defined.

Lemma resync_only_shrinks_witness :
  offline_file buffered = Some (Reference.dump (JArr [reading1; reading2; reading3])) /\
  json_loads (Reference.dump (JArr [reading1; reading2; reading3]))
    = Some (JArr [reading1; reading2; reading3]) /\
  exists kept,
    fst (drain (snd (resync_offline_data world_flaky buffered))) = JArr kept /\
    incl kept [reading1; reading2; reading3] /\
    List.length kept <= 3.
Proof.
  assert (H1 : offline_file buffered
               = Some (Reference.dump (JArr [reading1; reading2; reading3])))
    by reflexivity.
  assert (H2 : json_loads (Reference.dump (JArr [reading1; reading2; reading3]))
               = Some (JArr [reading1; reading2; reading3]))
    by (vm_compute; reflexivity).
  split; [ exact H1 | split; [ exact H2 | ] ].
  exact (resync_only_shrinks world_flaky buffered _ _ H1 H2).
Defined.

Lemma readings_lost_on_non_array_file_witness :
  offline_file misused_offline = Some (Reference.dump (JObj [])) /\
  json_loads (strip (Reference.dump (JObj []))) = Some (JObj []) /\
  (forall items, JObj [] <> JArr items) /\
  offline_mode misused_offline = true /\
  save_data_offline reading1 misused_offline = (tt, misused_offline) /\
  simulation_loop world_down [draw1; draw2; draw3] misused_offline = (tt, misused_offline).
Proof.
  assert (H1 : offline_file misused_offline = Some (Reference.dump (JObj [])))
    by reflexivity.
  assert (H2 : json_loads (strip (Reference.dump (JObj []))) = Some (JObj []))
    by (vm_compute; reflexivity).
  assert (H3 : forall items, JObj [] <> JArr items) by discriminate.
  assert (H4 : offline_mode misused_offline = true) by reflexivity.
  destruct (readings_lost_on_non_array_file world_down misused_offline _ _ H1 H2 H3)
    as [Ha Hb].
  split; [ exact H1 | split; [ exact H2 | split; [ exact H3 | split; [ exact H4 | ] ] ] ].
  split; [ exact (Ha reading1) | exact (Hb H4 [draw1; draw2; draw3]) ].
Defined.

Lemma resync_keeps_all_when_a_channel_is_down_witness :
  (w3 stuck = None \/ (forall h d, publish_ok world_up h d = false)) /\
  json_loads (Reference.dump (JArr [reading1; reading2]))
    = Some (JArr [reading1; reading2]) /\
  [reading1; reading2] <> [] /\
  fst (drain (snd (resync_offline_data world_up stuck))) = JArr [reading1; reading2] /\
  published (trace (snd (resync_offline_data world_up stuck))) = [reading1; reading2].
Proof.
  assert (H1 : w3 stuck = None \/ (forall h d, publish_ok world_up h d = false))
    by (left; reflexivity).
  assert (H2 : json_loads (Reference.dump (JArr [reading1; reading2]))
               = Some (JArr [reading1; reading2])) by (vm_compute; reflexivity).
  assert (H3 : [reading1; reading2] <> []) by discriminate.
  destruct (resync_keeps_all_when_a_channel_is_down world_up stuck _ _ H1 eq_refl H2 H3)
    as (_ & Hd & Hp).
  split; [ exact H1 | split; [ exact H2 | split; [ exact H3 | ] ] ].
  split; [ exact Hd | exact Hp ].
Defined.

Lemma ledger_send_is_guarded_witness :
  (w3 without_ledger = None /\
   fst (send_to_blockchain world_up reading1 true without_ledger) = false /\
   transactions (trace (snd (send_to_blockchain world_up reading1 true without_ledger)))
     = []) /\
  (w3 fresh <> None /\ w3_is_connected world_up (trace fresh) = true /\
   transactions (trace (snd (send_to_blockchain world_up reading1 true fresh)))
     = [reading1]).
Proof.
  assert (H1 : w3 without_ledger = None) by reflexivity.
  assert (H2 : w3 fresh <> None) by discriminate.
  assert (H3 : w3_is_connected world_up (trace fresh) = true) by reflexivity.
  destruct (ledger_send_is_guarded world_up reading1 true without_ledger) as (Ha & _ & _).
  destruct (ledger_send_is_guarded world_up reading1 true fresh) as (_ & Hb & _).
  split.
  - split; [ exact H1 | exact (Ha (or_introl H1)) ].
  - split; [ exact H2 | split; [ exact H3 | exact (proj1 (Hb H2 H3)) ] ].
Defined.

Lemma humidity_is_clamped_witness :
  (10.5 <= 20)%Q /\ (90 <= 104)%Q /\ (20 < 47.256 < 90)%Q /\
  Generator.generate_humidity 10.5 = Number 2000 2 /\
  Generator.generate_humidity 104 = Number 9000 2 /\
  Generator.generate_humidity 47.256 = Number 4726 2.
Proof.
  assert (H1 : (10.5 <= 20)%Q) by (unfold Qle; simpl; lia).
  assert (H2 : (90 <= 104)%Q) by (unfold Qle; simpl; lia).
  assert (H3 : (20 < 47.256 < 90)%Q) by (split; unfold Qlt; simpl; lia).
  split; [ exact H1 | split; [ exact H2 | split; [ exact H3 | ] ] ].
  split; [ exact (proj1 (humidity_is_clamped 10.5) H1) | ].
  split; [ exact (proj1 (proj2 (humidity_is_clamped 104)) H2) | ].
  rewrite (proj2 (proj2 (humidity_is_clamped 47.256)) H3). reflexivity.
Defined.

Lemma resync_does_nothing_on_empty_witness :
  (exists text j,
     offline_file drained = Some text /\ json_loads text = Some j /\ truthy j = false) /\
  resync_offline_data world_up drained = (tt, drained).
Proof.
  assert (H1 : exists text j,
             offline_file drained = Some text /\ json_loads text = Some j /\
             truthy j = false).
  { exists (Reference.dump (JArr [])), (JArr []).
    split; [ reflexivity | split; [ vm_compute; reflexivity | reflexivity ] ]. }
  split; [ exact H1 | ].
  exact (resync_does_nothing_on_empty world_up drained (or_intror (or_intror H1))).
Defined.

Lemma generated_values_are_monotone_witness :
  (1 <= 2)%Q /\
  (number_value (Generator.generate_temperature 1)
   <= number_value (Generator.generate_temperature 2))%Q.
Proof.
  assert (H1 : (1 <= 2)%Q) by (unfold Qle; simpl; lia).
  split; [ exact H1 | exact (proj1 (generated_values_are_monotone 1 2 H1)) ].
Defined.

Lemma loop_after_losing_both_channels_witness :
  unreachable world_cut /\
  offline_mode fresh = false /\
  offline_mode misused = false /\
  fst (drain (snd (simulation_loop world_cut [draw1; draw2; draw3] fresh)))
    = JArr [reading1; reading1; reading2; reading3] /\
  published (trace (snd (simulation_loop world_cut [draw1; draw2; draw3] fresh)))
    = [reading1] /\
  fst (drain (snd (simulation_loop world_cut [draw1; draw2; draw3] misused))) = JObj [].
Proof.
  assert (H1 : unreachable world_cut) by (constructor; reflexivity).
  assert (H2 : offline_mode fresh = false) by reflexivity.
  assert (H3 : offline_mode misused = false) by reflexivity.
  destruct (loop_after_losing_both_channels world_cut draw1 [draw2; draw3] fresh H1 H2)
    as (_ & Hd & Hp).
  destruct (loop_after_losing_both_channels world_cut draw1 [draw2; draw3] misused H1 H3)
    as (_ & Hd' & _).
  split; [ exact H1 | split; [ exact H2 | split; [ exact H3 | ] ] ].
  split; [ exact Hd | split; [ exact Hp | exact Hd' ] ].
Defined.

Lemma online_loop_with_broker_down_witness :
  (forall h d, publish_ok world_ledger_only h d = false) /\
  (forall h, w3_is_connected world_ledger_only h = true) /\
  (forall h d, transaction_ok world_ledger_only h d = true) /\
  w3 fresh <> None /\ offline_mode fresh = false /\
  offline_mode (snd (simulation_loop world_ledger_only [draw1; draw2] fresh)) = false /\
  fst (drain (snd (simulation_loop world_ledger_only [draw1; draw2] fresh)))
    = JArr [reading1; reading2].
Proof.
  assert (H1 : forall h d, publish_ok world_ledger_only h d = false) by reflexivity.
  assert (H2 : forall h, w3_is_connected world_ledger_only h = true) by reflexivity.
  assert (H3 : forall h d, transaction_ok world_ledger_only h d = true) by reflexivity.
  assert (H4 : w3 fresh <> None) by discriminate.
  assert (H5 : offline_mode fresh = false) by reflexivity.
  destruct (online_loop_with_broker_down world_ledger_only [draw1; draw2] fresh
              H1 H2 H3 H4 H5) as (Hm & Hd & _).
  split; [ exact H1 | split; [ exact H2 | split; [ exact H3 | ] ] ].
  split; [ exact H4 | split; [ exact H5 | ] ].
  split; [ exact Hm | exact Hd ].
Defined.

Lemma init_offline_mode_is_overridden_witness :
  w3_is_connected world_cut [] = false /\
  mqtt_connect world_cut [IsConnected false] = true /\
  offline_mode (init world_cut (Some GANACHE_URL) None) = true /\
  exists before after,
    published (trace (main world_cut None [draw1; draw2])) = before ++ reading1 :: after.
Proof.
  assert (H1 : w3_is_connected world_cut [] = false) by reflexivity.
  assert (H2 : mqtt_connect world_cut [IsConnected false] = true) by reflexivity.
  split; [ exact H1 | split; [ exact H2 | ] ].
  exact (init_offline_mode_is_overridden world_cut None draw1 [draw2] H1 H2).
Defined.

Lemma save_establishes_array_witness :
  buffer_state (offline_file damaged) /\
  buffer_ok (offline_file (snd (save_data_offline reading1 damaged))) /\
  json_loads_file (snd (save_data_offline reading1 damaged)) = Some (JArr [reading1]).
Proof.
  assert (H0 : buffer_state (offline_file damaged)).
  { intros j Hj. vm_compute in Hj. discriminate Hj. }
  destruct (save_establishes_array damaged reading1 H0) as (Hok & items & Hl & Hd).
  split; [ exact H0 | split; [ exact Hok | ] ].
  assert (E : items = []).
  { assert (Hd0 : fst (drain damaged) = JArr []) by reflexivity.
    rewrite Hd0 in Hd. now injection Hd. }
  now rewrite E in Hl.
Defined.

Lemma acknowledged_reading_without_keys_witness :
  publish_ok world_up (trace fresh) stray = true /\
  loggable stray = false /\
  fst (send_data world_up stray true fresh) = false /\
  published (trace (snd (send_data world_up stray true fresh))) = [stray] /\
  fst (drain (snd (send_data world_up stray true fresh))) = JArr [stray].
Proof.
  assert (H1 : publish_ok world_up (trace fresh) stray = true) by reflexivity.
  assert (H2 : loggable stray = false) by reflexivity.
  destruct (acknowledged_reading_without_keys world_up stray fresh H1 H2)
    as (Hr & _ & Hp & _ & Hd & _).
  split; [ exact H1 | split; [ exact H2 | split; [ exact Hr | ] ] ].
  split; [ exact Hp | exact Hd ].
Defined.

Lemma double_failure_is_delivered_twice_witness :
  unreachable world_cut /\ reliable world_up /\
  w3 fresh <> None /\ offline_mode fresh = false /\ fst (drain fresh) = JArr [] /\
  offline_file (snd (resync_offline_data world_up (snd (loop_body world_cut draw1 fresh))))
    = None /\
  published (trace (snd (resync_offline_data world_up
                           (snd (loop_body world_cut draw1 fresh)))))
    = [reading1; reading1; reading1].
Proof.
  assert (H1 : unreachable world_cut) by (constructor; reflexivity).
  assert (H2 : reliable world_up) by (constructor; reflexivity).
  assert (H3 : w3 fresh <> None) by discriminate.
  assert (H4 : offline_mode fresh = false) by reflexivity.
  assert (H5 : fst (drain fresh) = JArr []) by reflexivity.
  destruct (double_failure_is_delivered_twice world_cut world_up draw1 fresh []
              H1 H2 H3 H4 H5) as (_ & Hf & Hp & _).
  split; [ exact H1 | split; [ exact H2 | split; [ exact H3 | ] ] ].
  split; [ exact H4 | split; [ exact H5 | split; [ exact Hf | exact Hp ] ] ].
Defined.

End MoreWitnesses.
